(** * ContentOptimizationToolkit: the analysis pipeline, embedded and verified

    A shallow embedding of [utils/api_client.py], [utils/data_processor.py]
    and [app.py].

    Python values are modelled as follows.
    - [str] is [string]; a character of the model is a code point below 256.
    - Statements that talk to the outside (HTTP, the language-model client,
      logging, Streamlit widgets) run in the monad [M]: a computation takes
      the current [world] and gives back an [outcome] (a returned value or a
      raised exception) together with the new world.  Effects that happened
      before an exception was raised stay in the world, as in Python.
    - The outside is an [Env]: the answers of [requests.get] and of
      [client.chat.completions.create] are functions of the request and of
      everything that happened so far, so two calls with the same arguments
      may well answer differently.  The constructor of the client, the
      HTML parser, the removal of tags and the converter to text are part
      of it too: each gives its result or the exception it raises.
    - The parsed JSON of the ranking API is a [json] value of any shape;
      reading it the way the code does raises [AttributeError] or
      [TypeError] where Python would.
    - Python floats are modelled by exact rationals and a rounding operator
      about which only monotonicity and [rnd 0 = 0] are known.
    - The script of the page runs in the monad [Script], over the world and
      a log of what is drawn; the answers of the widgets during one run of
      the script, and what [st.write_stream] does with the value it is
      given, are a [runtime].  The labels of the page that hold a
      character beyond code point 255 are written in UTF-8.
    - [utils/config.py] is not part of the sources at hand: the settings of
      [Config] are fields of the environment, the number of searches, which
      the sidebar sets, a field of the world. *)

From Stdlib Require Import String Ascii List ZArith QArith Qround Lia Bool.
From Stdlib Require Import DecimalString Sorted SpecFloat.
Import ListNotations.
Open Scope string_scope.
Open Scope Z_scope.

Set Implicit Arguments.

(* ================================================================== *)
(** * Python values *)
(* ================================================================== *)

Module Py.

(** ** Strings *)

Definition nl : string := String (ascii_of_nat 10) EmptyString.

(** [str.isspace] on one code point below 256. *)
Definition is_space (c : ascii) : bool :=
  let n := N_of_ascii c in
  ((9 <=? n) && (n <=? 13) || (28 <=? n) && (n <=? 32)
   || (n =? 133) || (n =? 160))%N.

Fixpoint lstrip (s : string) : string :=
  match s with
  | EmptyString => EmptyString
  | String c r => if is_space c then lstrip r else s
  end.

Fixpoint rstrip (s : string) : string :=
  match s with
  | EmptyString => EmptyString
  | String c r =>
      match rstrip r with
      | EmptyString => if is_space c then EmptyString else String c EmptyString
      | r' => String c r'
      end
  end.

(** [s.strip()] *)
Definition strip (s : string) : string := rstrip (lstrip s).

(** Truth value of a [str]: [bool(s)]. *)
Definition str_truthy (s : string) : bool :=
  match s with EmptyString => false | String _ _ => true end.

(** [len(s)] *)
Definition len (s : string) : Z := Z.of_nat (String.length s).

(** [f"{n}"] for an [int]. *)
Definition str_of_int (n : Z) : string := NilZero.string_of_int (Z.to_int n).

(** [p in s] for strings, by trying every position. *)
Fixpoint contains (p s : string) : bool :=
  if String.prefix p s then true
  else match s with
       | EmptyString => false
       | String _ r => contains p r
       end.

(** ** Exceptions *)

(** Only the distinction the handlers of the program make is kept:
    [requests.exceptions.RequestException] (with its subclasses) and every
    other subclass of [Exception]. *)
Inductive exn_class := RequestException | OtherException.

Record exn := mk_exn { exn_cls : exn_class; exn_str : string }.

Definition is_request_exception (e : exn) : bool :=
  match exn_cls e with RequestException => true | OtherException => false end.

Inductive outcome (A : Type) : Type :=
| Ret (a : A)
| Raise (e : exn).
Arguments Ret {A} a.
Arguments Raise {A} e.

Definition AttributeError (msg : string) : exn := mk_exn OtherException msg.
Definition TypeError (msg : string) : exn := mk_exn OtherException msg.

(** ** Parsed JSON *)

#[warnings="-register-all"] Inductive json :=
| JNull
| JBool (b : bool)
| JNum (q : Q)
| JStr (s : string)
| JList (l : list json)
| JDict (d : list (string * json)).

(** [bool(v)] *)
Definition truthy (v : json) : bool :=
  match v with
  | JNull => false
  | JBool b => b
  | JNum q => negb (Qeq_bool q 0)
  | JStr s => str_truthy s
  | JList l => match l with [] => false | _ => true end
  | JDict d => match d with [] => false | _ => true end
  end.

Fixpoint lookup (k : string) (d : list (string * json)) : option json :=
  match d with
  | [] => None
  | (k', v) :: r => if String.eqb k k' then Some v else lookup k r
  end.

(** [v.get(k)]: [None] when the key is missing, [AttributeError] when [v]
    is not a [dict]. *)
Definition get (v : json) (k : string) : outcome json :=
  match v with
  | JDict d => Ret (match lookup k d with Some x => x | None => JNull end)
  | _ => Raise (AttributeError "object has no attribute 'get'")
  end.

(** [v[k]] with a string key. *)
Definition getitem (v : json) (k : string) : outcome json :=
  match v with
  | JDict d =>
      match lookup k d with
      | Some x => Ret x
      | None => Raise (mk_exn OtherException k)
      end
  | _ => Raise (TypeError "indices must be integers")
  end.

(** The items [for item in v] goes through. *)
Definition iter (v : json) : outcome (list json) :=
  match v with
  | JList l => Ret l
  | JDict d => Ret (map (fun kv => JStr (fst kv)) d)
  | JStr s => Ret (map (fun c => JStr (String c EmptyString)) (list_ascii_of_string s))
  | _ => Raise (TypeError "object is not iterable")
  end.

(** ** Floats *)

(** A rounding of the reals (here: rationals) onto the floats. *)
Record rounding := mk_rounding {
  rnd : Q -> Q;
  rnd_mono : forall x y : Q, (x <= y)%Q -> (rnd x <= rnd y)%Q;
  rnd_zero : (rnd 0 == 0)%Q
}.

Definition ZeroDivisionError : exn := mk_exn OtherException "division by zero".

(** [a / b] on two [int]s. *)
Definition truediv (fl : rounding) (a b : Z) : outcome Q :=
  if b =? 0 then Raise ZeroDivisionError
  else Ret (rnd fl (inject_Z a / inject_Z b)).

(** [x * n] for a float [x] and an [int] [n]. *)
Definition mul_int (fl : rounding) (x : Q) (n : Z) : Q :=
  rnd fl (x * rnd fl (inject_Z n)).

(** [int(x)]: truncation towards zero. *)
Definition int (x : Q) : Z :=
  if Qle_bool 0 x then Qfloor x else Qceiling x.

End Py.
Import Py.

(* ================================================================== *)
(** * The outside world *)
(* ================================================================== *)

Module World.

(** ** What the libraries hand back *)

(** A [requests.Response]; [resp_json] is what [response.json()] gives. *)
Record response := mk_response {
  status_code : Z;
  reason : string;
  resp_url : string;
  text : string;
  resp_json : outcome json
}.

(** The message of the [HTTPError] that [response.raise_for_status()]
    raises, if it raises. *)
Definition http_error_msg (r : response) : option string :=
  if (400 <=? status_code r) && (status_code r <? 500) then
    Some (str_of_int (status_code r) ++ " Client Error: " ++ reason r
          ++ " for url: " ++ resp_url r)
  else if (500 <=? status_code r) && (status_code r <? 600) then
    Some (str_of_int (status_code r) ++ " Server Error: " ++ reason r
          ++ " for url: " ++ resp_url r)
  else None.

Record chat_message := mk_message { role : string; content : string }.

Record chat_request := mk_chat_request {
  model : string;
  messages : list chat_message;
  temperature : Q;
  max_tokens : Z;
  stream : bool;
  top_p : Z;
  frequency_penalty : Z;
  presence_penalty : Z
}.

(** The client object that [OpenAI(api_key=...)] builds. *)
Record client := OpenAI { api_key : string }.

(** What [client.chat.completions.create] returns: a completion, whose
    choices each carry [message.content] (an optional string), a stream of
    chunks, or [None]. *)
Inductive chat_response :=
| ChatCompletion (choices : list (option string))
| ChatStream (chunks : list string)
| RespNone.

(** [bool(response)]: objects are true, [None] is false. *)
Definition resp_truthy (r : chat_response) : bool :=
  match r with RespNone => false | _ => true end.

(** ** Events *)

Inductive log_level := LogWarning | LogError.
Inductive ui_kind := StWrite | StInfo | StWarning | StSuccess | StError.

Inductive event :=
| HttpGet (url : string) (headers params : list (string * string)) (timeout : Z)
| ChatCreate (req : chat_request)
| Logged (lvl : log_level) (msg : string)
| Ui (k : ui_kind) (msg : string)
| ProgressSet (pct : Z)
| StatusUpdate (label state : string).

Definition is_network (e : event) : bool :=
  match e with HttpGet _ _ _ _ | ChatCreate _ => true | _ => false end.

(** The network calls of a trace, in order. *)
Definition network_calls (t : list event) : list event := filter is_network t.

(** The percentages given to [progress_bar.progress], in order. *)
Fixpoint progress_values (t : list event) : list Z :=
  match t with
  | [] => []
  | ProgressSet p :: r => p :: progress_values r
  | _ :: r => progress_values r
  end.

(** ** Session state and world *)

(** What [analyze_content_with_openai] can return. *)
Inductive analysis_value :=
| ErrorDict (msg : string)            (* {"error": msg} *)
| ResponseValue (r : chat_response)   (* the object the client returned *)
| ErrorStr (s : string)               (* a plain str *)
| NoneValue.                          (* None *)

(** The shape of a returned value: a structured error object, or a stream
    that can be consumed. *)
Definition is_error_shaped (v : analysis_value) : bool :=
  match v with ErrorDict _ => true | _ => false end.

Definition is_stream_shaped (v : analysis_value) : bool :=
  match v with ResponseValue (ChatStream _) => true | _ => false end.

(** [st.session_state]; [result] is [None] while the key is absent. *)
Record session_state := mk_session {
  user_content : string;
  keyword : string;
  content_input_option : string;
  analysis_result : analysis_value;
  result : option analysis_value
}.

Record world := mk_world {
  trace : list event;
  session : session_state;
  NUMBER_OF_SEARCHES : Z          (* Config.NUMBER_OF_SEARCHES *)
}.

(** ** The environment *)

Record Env := mk_env {
  (* requests.get(url, headers=..., params=..., timeout=...) *)
  requests_get :
    list event -> string -> list (string * string) -> list (string * string)
    -> Z -> outcome response;
  (* client.chat.completions.create(...) *)
  chat_completions_create :
    list event -> client -> chat_request -> outcome chat_response;
  (* OpenAI(api_key=...): the client, or the exception of its constructor *)
  openai_client : list event -> string -> outcome client;
  (* str(BeautifulSoup(html, "html.parser").body), None without a body, or
     the exception of the parser *)
  soup_body : string -> outcome (option string);
  (* the body after tag.decompose() on every tag with one of the names *)
  decompose_tags : list string -> string -> outcome string;
  (* html2text.HTML2Text().handle with the four flags set *)
  html2text_handle : string -> outcome string;
  (* str(v) for a value v that is not a str *)
  str_of_value : json -> string;
  (* float arithmetic *)
  fl : rounding;
  (* utils.config.Config *)
  AHREFS_API_URL : string;
  AHREFS_AUTH_TOKEN : string;
  OPENAI_API_KEY : string
}.

(** ** The monad *)

Definition M (A : Type) : Type := world -> outcome A * world.

Definition ret {A} (a : A) : M A := fun w => (Ret a, w).

Definition raise {A} (e : exn) : M A := fun w => (Raise e, w).

Definition bind {A B} (m : M A) (k : A -> M B) : M B :=
  fun w => match m w with
           | (Ret a, w') => k a w'
           | (Raise e, w') => (Raise e, w')
           end.

(** Lift a pure operation that may raise. *)
Definition lift {A} (o : outcome A) : M A := fun w => (o, w).

(** [try: m  except C as e: h e], where [C] is given by [catches]. *)
Definition try_except {A} (m : M A) (catches : exn -> bool) (h : exn -> M A) : M A :=
  fun w => match m w with
           | (Raise e, w') => if catches e then h e w' else (Raise e, w')
           | r => r
           end.

Definition emit (e : event) : M unit :=
  fun w => (Ret tt, mk_world (trace w ++ [e]) (session w) (NUMBER_OF_SEARCHES w)).

Definition get_session : M session_state := fun w => (Ret (session w), w).

Definition set_result (v : analysis_value) : M unit :=
  fun w =>
    let s := session w in
    (Ret tt,
     mk_world (trace w)
       (mk_session (user_content s) (keyword s) (content_input_option s)
          (analysis_result s) (Some v))
       (NUMBER_OF_SEARCHES w)).

Definition get_number_of_searches : M Z := fun w => (Ret (NUMBER_OF_SEARCHES w), w).

Definition logging_warning (msg : string) : M unit := emit (Logged LogWarning msg).
Definition logging_error (msg : string) : M unit := emit (Logged LogError msg).
Definition st_write (msg : string) : M unit := emit (Ui StWrite msg).
Definition st_info (msg : string) : M unit := emit (Ui StInfo msg).
Definition st_warning (msg : string) : M unit := emit (Ui StWarning msg).
Definition st_success (msg : string) : M unit := emit (Ui StSuccess msg).
Definition st_error (msg : string) : M unit := emit (Ui StError msg).

(** A network call is recorded in the trace, then answered by the
    environment from the trace before the call. *)
Definition http_get (E : Env) (url : string) (headers params : list (string * string))
    (timeout : Z) : M response :=
  fun w =>
    (requests_get E (trace w) url headers params timeout,
     mk_world (trace w ++ [HttpGet url headers params timeout]) (session w)
       (NUMBER_OF_SEARCHES w)).

Definition chat_create (E : Env) (c : client) (req : chat_request) : M chat_response :=
  fun w =>
    (chat_completions_create E (trace w) c req,
     mk_world (trace w ++ [ChatCreate req]) (session w) (NUMBER_OF_SEARCHES w)).

(** Building the client sends nothing; it can raise, as it does without a
    key. *)
Definition new_client (E : Env) (key : string) : M client :=
  fun w => (openai_client E (trace w) key, w).

Definition raise_for_status (r : response) : M unit :=
  match http_error_msg r with
  | Some msg => raise (mk_exn RequestException msg)
  | None => ret tt
  end.

Definition catch_request_exception : exn -> bool := is_request_exception.
Definition catch_exception : exn -> bool := fun _ => true.

End World.
Import World.

Declare Scope py_scope.
Delimit Scope py_scope with py.
Notation "x <- m ;; k" := (bind m (fun x => k))
  (at level 61, m at next level, right associativity) : py_scope.
Notation "m ;; k" := (bind m (fun _ => k))
  (at level 61, right associativity) : py_scope.
Open Scope py_scope.

(* ================================================================== *)
(** * utils/api_client.py *)
(* ================================================================== *)

Module APIClient.

Section WithEnv.

Variable E : Env.

(** ** fetch_top_urls *)

Definition ahrefs_params (keyword : string) (num_searches : Z) : list (string * string) :=
  [("keyword", keyword); ("top_positions", str_of_int num_searches);
   ("select", "url"); ("country", "us"); ("language", "en")].

Definition ahrefs_headers : list (string * string) :=
  [("Authorization", "Bearer " ++ AHREFS_AUTH_TOKEN E);
   ("Content-Type", "application/json")].

(** [[item["url"] for item in items if item.get("url")]] *)
Fixpoint url_comprehension (items : list json) : outcome (list json) :=
  match items with
  | [] => Ret []
  | item :: rest =>
      match get item "url" with
      | Raise e => Raise e
      | Ret u =>
          if truthy u then
            match getitem item "url" with
            | Raise e => Raise e
            | Ret v =>
                match url_comprehension rest with
                | Raise e => Raise e
                | Ret l => Ret (v :: l)
                end
            end
          else url_comprehension rest
      end
  end.

(** The result is annotated [List[str]]; what it holds is whatever stands
    under "url" in the items, as long as it is true. *)
Definition fetch_top_urls (keyword : string) (num_searches : Z) : M (list json) :=
  if negb (str_truthy (strip keyword)) then
    logging_warning "Please enter a valid keyword." ;;
    ret []
  else
    let params := ahrefs_params keyword num_searches in
    let headers := ahrefs_headers in
    try_except
      (response <- http_get E (AHREFS_API_URL E) headers params 10 ;;
       raise_for_status response ;;
       results <- lift (resp_json response) ;;
       positions <- lift (get results "positions") ;;
       if negb (truthy positions) then
         logging_warning ("No search results found for the keyword: " ++ keyword) ;;
         ret []
       else
         positions <- lift (getitem results "positions") ;;
         items <- lift (iter positions) ;;
         urls <- lift (url_comprehension items) ;;
         ret urls)
      catch_request_exception
      (fun e =>
         logging_error ("Ahrefs API Error: " ++ exn_str e) ;;
         ret []).

(** ** fetch_webpage_content *)

Definition user_agent : string :=
  "Mozilla/5.0 (Windows NT 10.0; Win64; x64) "
  ++ "AppleWebKit/537.36 (KHTML, like Gecko) "
  ++ "Chrome/91.0.4472.124 Safari/537.36".

Definition removed_tags : list string :=
  ["script"; "style"; "img"; "a"; "noscript"; "nav"; "header"; "footer"; "form"].

Definition too_short : string := "Extracted content is too short to be meaningful.".

(** The function for a [url] that is a [str], as annotated. *)
Definition fetch_webpage_content_str (url : string) : M (option string) :=
  if negb (str_truthy url) || negb (str_truthy (strip url)) then
    logging_warning "No URL provided." ;;
    ret None
  else
    let headers := [("User-Agent", user_agent)] in
    try_except
      (response <- http_get E url headers [] 15 ;;
       raise_for_status response ;;
       let html_content := text response in
       body_content <- lift (soup_body E html_content) ;;
       match body_content with
       | None =>
           st_warning too_short ;;
           logging_warning "No body content found in the webpage." ;;
           ret None
       | Some body_content =>
           body_content <- lift (decompose_tags E removed_tags body_content) ;;
           text_content <- lift (html2text_handle E body_content) ;;
           if len (strip text_content) <? 200 then
             logging_warning too_short ;;
             st_warning too_short ;;
             ret None
           else ret (Some text_content)
       end)
      catch_request_exception
      (fun e =>
         logging_error ("Webpage Fetch Error: " ++ exn_str e) ;;
         ret None).

(** The function on whatever value the caller hands over: [not url] is the
    truth value of the object, and [url.strip()] exists on a [str] only. *)
Definition fetch_webpage_content (url : json) : M (option string) :=
  match url with
  | JStr u => fetch_webpage_content_str u
  | v =>
      if negb (truthy v) then
        logging_warning "No URL provided." ;;
        ret None
      else raise (AttributeError "object has no attribute 'strip'")
  end.

(** ** summarize_content_with_openai *)

Definition summary_system_prompt : string :=
  "You are a highly skilled summarization assistant. Your task is to distill "
  ++ "the essence of the provided content into a concise summary, highlighting "
  ++ "the main points and key insights. Ensure the summary is no more than 200 words "
  ++ "and maintains the original context and intent.".

Definition summary_prompt (text : string) : string :=
  summary_system_prompt ++ nl ++ nl
  ++ "Content to summarize:" ++ nl
  ++ text ++ nl ++ nl.

Definition summary_request (text : string) : chat_request :=
  mk_chat_request "gpt-4o"
    [mk_message "system" summary_system_prompt; mk_message "user" (summary_prompt text)]
    (5 # 10) 300 false 1 0 0.

Definition summarize_content_with_openai (text : string) : M (option string) :=
  if negb (str_truthy text) || negb (str_truthy (strip text)) then
    ret None
  else
    client <- new_client E (OPENAI_API_KEY E) ;;
    try_except
      (response <- chat_create E client (summary_request text) ;;
       match response with
       | RespNone =>
           (* [response] is false *)
           logging_error "Failed to generate summary from OpenAI." ;;
           ret None
       | ChatStream _ =>
           raise (AttributeError "object has no attribute 'choices'")
       | ChatCompletion [] =>
           (* [response.choices] is false *)
           logging_error "Failed to generate summary from OpenAI." ;;
           ret None
       | ChatCompletion (Some c :: _) =>
           let summary := strip c in
           ret (Some summary)
       | ChatCompletion (None :: _) =>
           raise (AttributeError "'NoneType' object has no attribute 'strip'")
       end)
      catch_exception
      (fun e =>
         logging_error ("OpenAI Summarization Error: " ++ exn_str e) ;;
         ret None).

(** ** analyze_content_with_openai *)

Definition analysis_system_prompt : string :=
  "You are an expert content editor and SEO specialist. Your role is to provide "
  ++ "a detailed analysis of the given content, offering actionable optimization "
  ++ "suggestions. Consider the focus keyword and competitor content to enhance "
  ++ "the analysis.".

(** One pass of [for i, summary in enumerate(competitor_summaries, 1)]. *)
Definition competitor_block (i : Z) (summary : string) : string :=
  "Competitor " ++ str_of_int i ++ " Summary:" ++ nl ++ summary ++ nl ++ nl.

Fixpoint competitor_blocks (i : Z) (competitor_summaries : list string) : string :=
  match competitor_summaries with
  | [] => EmptyString
  | summary :: rest => competitor_block i summary ++ competitor_blocks (i + 1) rest
  end.

Definition competitor_header : string :=
  "Competitor content summaries (for context):" ++ nl.

Definition analysis_sections : string :=
  "Your analysis should include:" ++ nl
  ++ "1. Overall content strengths and weaknesses" ++ nl
  ++ "2. Keyword optimization suggestions" ++ nl
  ++ "3. Readability and structure improvements" ++ nl
  ++ "4. Recommended content revisions" ++ nl
  ++ "5. SEO enhancement strategies".

Definition analysis_prompt (text keyword : string) (competitor_summaries : list string)
  : string :=
  let prompt :=
    "Content to analyze:" ++ nl
    ++ text ++ nl ++ nl
    ++ "Focus keyword: " ++ keyword ++ nl ++ nl in
  let prompt :=
    match competitor_summaries with
    | [] => prompt
    | _ => (prompt ++ competitor_header) ++ competitor_blocks 1 competitor_summaries
    end in
  prompt ++ analysis_sections.

Definition analysis_request (text keyword : string) (competitor_summaries : list string)
  : chat_request :=
  mk_chat_request "gpt-4o"
    [mk_message "system" analysis_system_prompt;
     mk_message "user" (analysis_prompt text keyword competitor_summaries)]
    (7 # 10) 2000 true 1 0 0.

Definition analyze_content_with_openai (text keyword : string)
    (competitor_summaries : list string) : M analysis_value :=
  if negb (str_truthy text) || negb (str_truthy (strip text)) then
    ret (ErrorDict "No text provided for analysis.")
  else
    client <- new_client E (OPENAI_API_KEY E) ;;
    try_except
      (response <- chat_create E client
                     (analysis_request text keyword competitor_summaries) ;;
       if resp_truthy response then ret (ResponseValue response)
       else ret NoneValue)
      catch_exception
      (fun e =>
         logging_error ("OpenAI Analysis Error: " ++ exn_str e) ;;
         ret (ErrorStr ("error: " ++ exn_str e))).

End WithEnv.

End APIClient.

(* ================================================================== *)
(** * utils/data_processor.py *)
(* ================================================================== *)

Module DataProcessor.

Section WithEnv.

Variable E : Env.

(** How one pass of the loop body ends: with [continue], or by reaching the
    statements after the [try]. *)
Inductive flow := Continue | Fallthrough.

(** [f"{url}"] *)
Definition fstr (url : json) : string :=
  match url with
  | JStr s => s
  | v => str_of_value E v
  end.

(** The [try] block of one pass, with its handler.  [if not content] and
    [if summary] test an [Optional[str]]: [None] and the empty string are
    false.  Every branch appends exactly once, as its last statement, so a
    pass that raises has not appended. *)
Definition process_url (idx : Z) (url : json) (summaries : list string)
  : M (list string * flow) :=
  try_except
    (st_info ("Fetching content from URL " ++ str_of_int idx ++ "...") ;;
     content <- APIClient.fetch_webpage_content E url ;;
     match content with
     | Some (String _ _ as content) =>
         st_info ("Summarizing content from URL " ++ str_of_int idx ++ "...") ;;
         summary <- APIClient.summarize_content_with_openai E content ;;
         match summary with
         | Some (String _ _ as summary) =>
             st_success ("URL " ++ str_of_int idx ++ ": Summary generated successfully.") ;;
             st_write ("**Summary for URL " ++ str_of_int idx ++ ":**" ++ nl ++ summary) ;;
             ret ((summaries ++ [summary])%list, Fallthrough)
         | _ =>
             st_warning ("URL " ++ str_of_int idx ++ ": Summarization failed.") ;;
             ret ((summaries ++ [EmptyString])%list, Fallthrough)
         end
     | _ =>
         st_warning ("URL " ++ str_of_int idx ++ ": Content fetch failed.") ;;
         ret ((summaries ++ [EmptyString])%list, Continue)
     end)
    catch_exception
    (fun e =>
       st_error ("Error processing URL " ++ str_of_int idx ++ ": " ++ exn_str e) ;;
       ret ((summaries ++ [EmptyString])%list, Fallthrough)).

(** [25 + int((50 / total_urls) * idx)] *)
Definition progress_of (total_urls idx : Z) : outcome Z :=
  match truediv (fl E) 50 total_urls with
  | Raise e => Raise e
  | Ret q => Ret (25 + int (mul_int (fl E) q idx))
  end.

(** [for idx, url in enumerate(urls, 1)], from [idx] on. *)
Fixpoint summaries_loop (total_urls idx : Z) (urls : list json) (summaries : list string)
  : M (list string) :=
  match urls with
  | [] => ret summaries
  | url :: rest =>
      st_write ("**Processing URL " ++ str_of_int idx ++ "/" ++ str_of_int total_urls
                ++ ":** " ++ fstr url) ;;
      r <- process_url idx url summaries ;;
      match snd r with
      | Continue => summaries_loop total_urls (idx + 1) rest (fst r)
      | Fallthrough =>
          progress <- lift (progress_of total_urls idx) ;;
          emit (ProgressSet (Z.min progress 100)) ;;
          summaries_loop total_urls (idx + 1) rest (fst r)
      end
  end.

Definition get_competitor_summaries (urls : list json) : M (list string) :=
  let summaries := [] in
  let total_urls := Z.of_nat (List.length urls) in
  summaries_loop total_urls 1 urls summaries.

End WithEnv.

End DataProcessor.

(* ================================================================== *)
(** * The page *)
(* ================================================================== *)

(** Streamlit runs the script of the page from top to bottom on every
    interaction.  During one run each widget call returns what the user
    has entered; the session state and the configuration outlive the run.
    The calls that only draw on the page are logged apart from the events
    of the client functions, in their own order.  Arguments that change
    the look only ([help], [height], [expanded], [use_container_width]) and
    the place of a call (side bar, status box, expander) are not
    recorded. *)

Module Streamlit.

(** An uploaded file: what [uploaded_file.read().decode("utf-8")] gives,
    the text or the exception of the decoding. *)
Record uploaded_file := UploadedFile { read_decode : outcome string }.

(** What the script gets from the outside during one run: the answers of
    the widgets, what [st.write_stream] does with the value it is given,
    and [repr] of a [str] for the message of a [ValueError]. *)
Record runtime := mk_runtime {
  (* st.slider(label, min_value=..., max_value=..., value=...) *)
  slider : string -> Z -> Z -> Z -> Z;
  (* st.text_input(label, value=...) *)
  text_input : string -> string -> string;
  (* st.radio(label, options, index=...) *)
  radio : string -> list string -> nat -> string;
  (* st.text_area(label, value=...) *)
  text_area : string -> string -> string;
  (* st.button(label) *)
  button : string -> bool;
  (* st.file_uploader(label, type=...) *)
  file_uploader : string -> list string -> option uploaded_file;
  (* st.write_stream(v): it returns, or raises on a value it cannot stream *)
  write_stream : analysis_value -> outcome unit;
  (* repr(s) *)
  repr : string -> string
}.

Inductive drawing :=
| SetPageConfig (page_title page_icon layout : string)
| Title (body : string)
| Markdown (body : string)
| Subheader (body : string)
| Expander (label : string)
| WriteStream (v : analysis_value).

Record page := mk_page {
  drawn : list drawing;
  core : world
}.

(** The monad of the script: state and exceptions, over the page. *)
Definition Script (A : Type) : Type := page -> outcome A * page.

Definition pret {A} (a : A) : Script A := fun p => (Ret a, p).

Definition pbind {A B} (m : Script A) (k : A -> Script B) : Script B :=
  fun p => match m p with
           | (Ret a, p') => k a p'
           | (Raise e, p') => (Raise e, p')
           end.

Definition ptry_except {A} (m : Script A) (catches : exn -> bool)
    (h : exn -> Script A) : Script A :=
  fun p => match m p with
           | (Raise e, p') => if catches e then h e p' else (Raise e, p')
           | r => r
           end.

(** A pure operation that may raise. *)
Definition plift {A} (o : outcome A) : Script A := fun p => (o, p).

Definition draw (d : drawing) : Script unit :=
  fun p => (Ret tt, mk_page (drawn p ++ [d]) (core p)).

(** [st.write_stream(v)]: the value is handed over, and the call returns or
    raises as the runtime says. *)
Definition st_write_stream (R : runtime) (v : analysis_value) : Script unit :=
  fun p => (write_stream R v, mk_page (drawn p ++ [WriteStream v]) (core p)).

(** A computation on the world, run in the world of the page. *)
Definition call {A} (m : M A) : Script A :=
  fun p => match m (core p) with
           | (o, w) => (o, mk_page (drawn p) w)
           end.

(** ** Writes to the session state and to the configuration *)

Definition set_keyword (v : string) : M unit :=
  fun w =>
    let s := session w in
    (Ret tt,
     mk_world (trace w)
       (mk_session (user_content s) v (content_input_option s)
          (analysis_result s) (result s))
       (NUMBER_OF_SEARCHES w)).

Definition set_content_input_option (v : string) : M unit :=
  fun w =>
    let s := session w in
    (Ret tt,
     mk_world (trace w)
       (mk_session (user_content s) (keyword s) v (analysis_result s) (result s))
       (NUMBER_OF_SEARCHES w)).

Definition set_user_content (v : string) : M unit :=
  fun w =>
    let s := session w in
    (Ret tt,
     mk_world (trace w)
       (mk_session v (keyword s) (content_input_option s)
          (analysis_result s) (result s))
       (NUMBER_OF_SEARCHES w)).

(** [Config.NUMBER_OF_SEARCHES = v] *)
Definition set_number_of_searches (v : Z) : M unit :=
  fun w => (Ret tt, mk_world (trace w) (session w) v).

(** ** [list.index] *)

Definition ValueError (msg : string) : exn := mk_exn OtherException msg.

Fixpoint index_from (R : runtime) (i : nat) (l : list string) (x : string) : outcome nat :=
  match l with
  | [] => Raise (ValueError (repr R x ++ " is not in list"))
  | y :: rest => if String.eqb y x then Ret i else index_from R (S i) rest x
  end.

(** [l.index(x)] *)
Definition index (R : runtime) (l : list string) (x : string) : outcome nat :=
  index_from R 0 l x.

End Streamlit.
Import Streamlit.

Declare Scope page_scope.
Delimit Scope page_scope with page.
Notation "x <- m ;; k" := (pbind m (fun x => k))
  (at level 61, m at next level, right associativity) : page_scope.
Notation "m ;; k" := (pbind m (fun _ => k))
  (at level 61, right associativity) : page_scope.

(* ================================================================== *)
(** * app.py *)
(* ================================================================== *)

Module App.

(** The defaults are stored for a fresh session; [result] is not among the
    keys, so it stays absent. *)
Definition initialize_session_state (present : option session_state) : session_state :=
  match present with
  | Some s => s
  | None => mk_session EmptyString "best laptops 2024" "Paste Text" NoneValue None
  end.

Section WithEnv.

Variable E : Env.

Definition status_update (label state : string) : M unit :=
  emit (StatusUpdate label state).

(** [for url in urls: st.write(url)] *)
Fixpoint write_urls (urls : list json) : M unit :=
  match urls with
  | [] => ret tt
  | url :: rest => st_write (DataProcessor.fstr E url) ;; write_urls rest
  end.

Definition run_content_analysis : M unit :=
  s <- get_session ;;
  if negb (str_truthy (user_content s)) then
    st_warning "Please provide content before running analysis."
  else
    status_update "Running Content Analysis" "running" ;;
    try_except
      (status_update "Fetching Top URLs" "running" ;;
       s <- get_session ;;
       n <- get_number_of_searches ;;
       urls <- APIClient.fetch_top_urls E (keyword s) n ;;
       match urls with
       | [] =>
           st_warning "No URLs found for the given keyword." ;;
           status_update "URL Fetching Failed" "error"
       | _ =>
           write_urls urls ;;
           status_update "Analyzing Competitor Content" "running" ;;
           emit (ProgressSet 0) ;;
           competitor_summaries <- DataProcessor.get_competitor_summaries E urls ;;
           status_update "Generating Optimization Suggestions" "running" ;;
           s <- get_session ;;
           v <- APIClient.analyze_content_with_openai E
                  (user_content s) (keyword s) competitor_summaries ;;
           set_result v ;;
           status_update "Analysis Complete" "complete"
       end)
      catch_exception
      (fun e =>
         st_error ("An unexpected error occurred: " ++ exn_str e) ;;
         status_update "Analysis Failed" "error").

(** ** The script of the page *)

Variable R : runtime.

Definition sidebar_configuration : Script unit :=
  (draw (Title "🔧 Configuration") ;;
   draw (Markdown "### Search Settings") ;;
   call (set_number_of_searches (slider R "Number of Competitor URLs" 1 50 10)) ;;
   draw (Markdown "---") ;;
   draw (Markdown "### About the Tool") ;;
   call (st_info
           ("**Content Optimization Toolkit**" ++ nl ++ nl
            ++ "- Analyze your content against top-ranking pages" ++ nl
            ++ "- Get AI-powered optimization suggestions" ++ nl
            ++ "- Improve SEO and readability")))%page.

Definition input_options : list string := ["Paste Text"; "Enter URL"; "Upload File"].

Definition content_input_section : Script unit :=
  (draw (Subheader "📝 Content Input") ;;
   s <- call get_session ;;
   call (set_keyword (text_input R "Enter Target Keyword" (keyword s))) ;;
   s <- call get_session ;;
   i <- plift (index R input_options (content_input_option s)) ;;
   call (set_content_input_option
           (radio R "Choose content input method" input_options i)) ;;
   s <- call get_session ;;
   if String.eqb (content_input_option s) "Paste Text" then
     call (set_user_content
             (text_area R "Paste your content here:" (user_content s)))
   else if String.eqb (content_input_option s) "Enter URL" then
     let content_url := text_input R "Enter webpage URL:" EmptyString in
     if button R "Fetch Content" then
       call (status_update "Fetching webpage content..." "running") ;;
       ptry_except
         (fetched_content <- call (APIClient.fetch_webpage_content E (JStr content_url)) ;;
          match fetched_content with
          | Some (String _ _ as fetched_content) =>
              call (set_user_content fetched_content) ;;
              call (st_success "Content fetched successfully!") ;;
              call (status_update "Content Fetched" "complete")
          | _ =>
              call (st_warning "Could not fetch content from the provided URL.") ;;
              call (status_update "Fetching Failed" "error")
          end)
         catch_exception
         (fun e =>
            call (st_error ("An error occurred: " ++ exn_str e)) ;;
            call (status_update "Fetching Failed" "error"))
     else pret tt
   else if String.eqb (content_input_option s) "Upload File" then
     match file_uploader R "Choose a text file" ["txt"] with
     | Some uploaded_file =>
         call (status_update "Processing uploaded file..." "running") ;;
         ptry_except
           (content <- plift (read_decode uploaded_file) ;;
            call (set_user_content content) ;;
            call (st_success "File uploaded successfully!") ;;
            draw (Expander "Uploaded Content Preview") ;;
            call (st_write content) ;;
            call (status_update "File Processed" "complete"))
           catch_exception
           (fun e =>
              call (st_error
                      ("An error occurred while processing the file: " ++ exn_str e)) ;;
              call (status_update "File Processing Failed" "error"))
     | None => pret tt
     end
   else pret tt)%page.

(** [main], run on what the session state holds when the script starts
    ([None] for a new session), after the events [t], with
    [Config.NUMBER_OF_SEARCHES] at [n]. *)
Definition main (present : option session_state) (t : list event) (n : Z)
  : outcome unit * page :=
  (draw (SetPageConfig "Content Optimization Toolkit" "📈" "wide") ;;
   sidebar_configuration ;;
   draw (Title "📈 Content Optimization Toolkit") ;;
   draw (Markdown
           "Elevate your content with AI-powered insights and optimization suggestions.") ;;
   content_input_section ;;
   (if button R "🔍 Analyze Content" then call run_content_analysis else pret tt) ;;
   s <- call get_session ;;
   match result s with
   | Some v => st_write_stream R v
   | None => pret tt
   end)%page
    (mk_page [] (mk_world t (initialize_session_state present) n)).

End WithEnv.

End App.

(* ================================================================== *)
(** * A concrete environment *)
(* ================================================================== *)

(** A small outside world on which the model can be run: a ranking API that
    lists four positions (one without a URL, one with an empty URL), a page
    that can be fetched, a page that times out, and a language model that
    answers every request. *)

Module Demo.

Definition exact : rounding :=
  mk_rounding (fun x => x) (fun x y H => H) (Qeq_refl 0).

Definition api_url : string := "https://api.example.test/serp".

Definition page_text : string :=
  String.concat " " (repeat "competitor page text" 12).

Definition serp : json :=
  JDict [("positions",
          JList [JDict [("url", JStr "https://a.test/laptops")];
                 JDict [("title", JStr "no url here")];
                 JDict [("url", JStr EmptyString)];
                 JDict [("url", JStr "https://b.test/down")]])].

Definition requests_get (t : list event) (url : string)
    (headers params : list (string * string)) (timeout : Z) : outcome response :=
  if String.eqb url api_url then
    Ret (mk_response 200 "OK" url EmptyString (Ret serp))
  else if String.eqb url "https://a.test/laptops" then
    Ret (mk_response 200 "OK" url page_text
           (Raise (mk_exn RequestException "Expecting value")))
  else if String.eqb url "https://short.test/" then
    Ret (mk_response 200 "OK" url "tiny page"
           (Raise (mk_exn RequestException "Expecting value")))
  else if String.eqb url "https://empty.test/" then
    Ret (mk_response 200 "OK" url EmptyString
           (Raise (mk_exn RequestException "Expecting value")))
  else if String.eqb url "https://gone.test/" then
    Ret (mk_response 404 "Not Found" url page_text
           (Raise (mk_exn RequestException "Expecting value")))
  else Raise (mk_exn RequestException "Read timed out.").

Definition chat_completions_create (t : list event) (c : client) (req : chat_request)
  : outcome chat_response :=
  if stream req then Ret (ChatStream ["Strengths: "; "clear."])
  else Ret (ChatCompletion [Some "  A short summary.  "]).

(** The constructor of the client wants a key. *)
Definition openai_client (t : list event) (key : string) : outcome client :=
  if str_truthy key then Ret (OpenAI key)
  else Raise (mk_exn OtherException "The api_key client option must be set").

(** A parser and a converter that work on every page and leave the text as
    it is. *)
Definition soup_body (html : string) : outcome (option string) :=
  Ret (if str_truthy html then Some html else None).

Definition decompose_tags (names : list string) (body : string) : outcome string :=
  Ret body.

Definition html2text_handle (body : string) : outcome string := Ret body.

Definition env : Env :=
  mk_env requests_get chat_completions_create
    openai_client soup_body decompose_tags html2text_handle
    (fun _ => "<value>")
    exact api_url "token" "key".

Definition session0 : session_state :=
  mk_session "My draft about laptops." "best laptops 2024" "Paste Text" NoneValue None.

Definition world0 : world := mk_world [] session0 3.

(** A ranking API whose body is a JSON list instead of an object. *)
Definition list_body_env : Env :=
  mk_env
    (fun _ url _ _ _ => Ret (mk_response 200 "OK" url EmptyString (Ret (JList []))))
    chat_completions_create
    openai_client soup_body decompose_tags html2text_handle
    (fun _ => "<value>")
    exact api_url "token" "key".

(** A language model that answers with no choice, and with [None] when a
    stream is asked for. *)
Definition silent_llm_env : Env :=
  mk_env requests_get
    (fun _ _ req => if stream req then Ret RespNone else Ret (ChatCompletion []))
    openai_client soup_body decompose_tags html2text_handle
    (fun _ => "<value>")
    exact api_url "token" "key".

(** A language model that cannot be reached. *)
Definition failing_llm_env : Env :=
  mk_env requests_get
    (fun _ _ _ => Raise (mk_exn OtherException "Connection error."))
    openai_client soup_body decompose_tags html2text_handle
    (fun _ => "<value>")
    exact api_url "token" "key".

(** No page can be fetched: every request ends in a transport error. *)
Definition offline_env : Env :=
  mk_env
    (fun _ _ _ _ _ => Raise (mk_exn RequestException "Max retries exceeded"))
    chat_completions_create
    openai_client soup_body decompose_tags html2text_handle
    (fun _ => "<value>")
    exact api_url "token" "key".

(** No key of the language model is configured. *)
Definition keyless_env : Env :=
  mk_env requests_get chat_completions_create
    openai_client soup_body decompose_tags html2text_handle
    (fun _ => "<value>")
    exact api_url "token" EmptyString.

(** A parser that rejects the markup of every page. *)
Definition rejecting_parser_env : Env :=
  mk_env requests_get chat_completions_create
    openai_client
    (fun _ => Raise (mk_exn OtherException "The markup was rejected by the parser"))
    decompose_tags html2text_handle
    (fun _ => "<value>")
    exact api_url "token" "key".

(** A result left by an earlier run. *)
Definition stale : option analysis_value :=
  Some (ResponseValue (ChatStream ["An older report."])).

Definition stale_world (content keyword : string) : world :=
  mk_world [] (mk_session content keyword "Paste Text" NoneValue stale) 3.

(** A user who has chosen [choice] at the radio, typed [url] into the URL
    field and [pasted] into the text area, has left the keyword and the
    slider as they were, and has pressed the buttons as [fetch] and
    [analyze] say; [file] is the upload.  [st.write_stream] refuses a
    string and [None]. *)
Definition ui (choice pasted url : string) (fetch analyze : bool)
    (file : option uploaded_file) : runtime :=
  mk_runtime
    (fun _ _ _ value => value)
    (fun label value => if String.eqb label "Enter webpage URL:" then url else value)
    (fun _ _ _ => choice)
    (fun _ _ => pasted)
    (fun label => if String.eqb label "Fetch Content" then fetch else analyze)
    (fun _ _ => file)
    (fun v =>
       match v with
       | ErrorStr _ | NoneValue =>
           Raise (mk_exn OtherException
                    "st.write_stream expects a generator or stream-like object")
       | _ => Ret tt
       end)
    (fun s => "'" ++ s ++ "'").

End Demo.

(* ================================================================== *)
(** * The vocabulary of the statements *)
(* ================================================================== *)

(** ** Effects *)

(** Whether an event is an update of the progress bar. *)
Definition is_progress (e : event) : bool :=
  match e with ProgressSet _ => true | _ => false end.

(** No progress update among the events. *)
Definition no_progress (new : list event) : Prop := progress_values new = [].

(** No condition on the events. *)
Definition any_events (new : list event) : Prop := True.

(** A computation is [tidy P] when all it does to the world is to append
    events satisfying [P] to the trace, and when neither its outcome nor
    these events depend on the session or on the configuration. *)
Definition tidy (P : list event -> Prop) {A} (m : M A) : Prop :=
  forall w, exists new,
    P new /\
    forall s n,
      m (mk_world (trace w) s n) = (fst (m w), mk_world (trace w ++ new) s n).

(** ** The ranked URLs *)

(** The words of the specification: the URL field of each ranked item, in
    rank order, entries lacking a URL dropped. *)

Definition is_object (v : json) : bool :=
  match v with JDict _ => true | _ => false end.

Definition url_field (item : json) : json :=
  match item with
  | JDict d => match lookup "url" d with Some u => u | None => JNull end
  | _ => JNull
  end.

Definition has_url (item : json) : bool := truthy (url_field item).

Definition ranked_urls (positions : list json) : list json :=
  map url_field (filter has_url positions).

(** ** The analysis prompt *)

(** What the code puts between the keyword and the list of sections. *)
Definition competitor_part (competitor_summaries : list string) : string :=
  match competitor_summaries with
  | [] => EmptyString
  | _ => APIClient.competitor_header
         ++ APIClient.competitor_blocks 1 competitor_summaries
  end.

(** The prompt as the specification words it: only the summaries that are
    not the empty placeholder are embedded, each under its position. *)
Fixpoint nontrivial_blocks (i : Z) (competitor_summaries : list string) : string :=
  match competitor_summaries with
  | [] => EmptyString
  | EmptyString :: rest => nontrivial_blocks (i + 1) rest
  | summary :: rest =>
      APIClient.competitor_block i summary ++ nontrivial_blocks (i + 1) rest
  end.

Definition nontrivial_prompt (text keyword : string) (competitor_summaries : list string)
  : string :=
  let prompt :=
    "Content to analyze:" ++ nl ++ text ++ nl ++ nl
    ++ "Focus keyword: " ++ keyword ++ nl ++ nl in
  let prompt :=
    match competitor_summaries with
    | [] => prompt
    | _ => (prompt ++ APIClient.competitor_header)
           ++ nontrivial_blocks 1 competitor_summaries
    end in
  prompt ++ APIClient.analysis_sections.

Definition section_lines : list string :=
  ["1. Overall content strengths and weaknesses";
   "2. Keyword optimization suggestions";
   "3. Readability and structure improvements";
   "4. Recommended content revisions";
   "5. SEO enhancement strategies"].

(** ** The summary loop *)

(** The message that opens a pass. *)
Definition processing_msg (E : Env) (total_urls idx : Z) (url : json) : string :=
  "**Processing URL " ++ str_of_int idx ++ "/" ++ str_of_int total_urls
  ++ ":** " ++ DataProcessor.fstr E url.

(** The summary slot of a URL, in the words of the specification: the
    summary when the fetch gives a text and the summarization gives a
    summary, the empty placeholder when either fails or raises.  [w] is
    the world in which the pass for the URL starts. *)
Definition summary_slot (E : Env) (total_urls idx : Z) (url : json) (w : world) : string :=
  let w := snd (st_write (processing_msg E total_urls idx url) w) in
  let w := snd (st_info ("Fetching content from URL " ++ str_of_int idx ++ "...") w) in
  match APIClient.fetch_webpage_content E url w with
  | (Ret (Some (String _ _ as content)), w) =>
      let w :=
        snd (st_info ("Summarizing content from URL " ++ str_of_int idx ++ "...") w) in
      match fst (APIClient.summarize_content_with_openai E content w) with
      | Ret (Some (String _ _ as summary)) => summary
      | _ => EmptyString
      end
  | _ => EmptyString
  end.

(** The percentage reported at the end of pass [idx]. *)
Definition reported (E : Env) (total_urls idx : Z) : Z :=
  Z.min (25 + int (mul_int (fl E)
                     (rnd (fl E) (inject_Z 50 / inject_Z total_urls)) idx)) 100.

(** The world in which the pass for position [i] starts: the one that the
    passes for the [i] URLs before it have left. *)
Definition pass_world (E : Env) (urls : list json) (w : world) (i : nat) : world :=
  snd (DataProcessor.summaries_loop E (Z.of_nat (List.length urls)) 1
         (firstn i urls) [] w).

(** ** The run *)

(** The world [w] with another stored result. *)
Definition with_result (w : world) (prior : option analysis_value) : world :=
  mk_world (trace w)
    (mk_session (user_content (session w)) (keyword (session w))
       (content_input_option (session w)) (analysis_result (session w)) prior)
    (NUMBER_OF_SEARCHES w).

(** The world in which a run started in [w] asks for the top URLs. *)
Definition fetch_world (w : world) : world :=
  mk_world
    ((trace w ++ [StatusUpdate "Running Content Analysis" "running"])
     ++ [StatusUpdate "Fetching Top URLs" "running"])
    (session w) (NUMBER_OF_SEARCHES w).

(** Whether a run started in [w] gets as far as the analysis: there is a
    content, and the search gives at least one URL. *)
Definition reaches_analysis (E : Env) (w : world) : bool :=
  str_truthy (user_content (session w))
  && match fst (APIClient.fetch_top_urls E (keyword (session w))
                  (NUMBER_OF_SEARCHES w) (fetch_world w)) with
     | Ret (_ :: _) => true
     | _ => false
     end.

(** The URLs that the search of a run started in [w] finds; none when the
    search raises. *)
Definition found_urls (E : Env) (w : world) : list json :=
  match fst (APIClient.fetch_top_urls E (keyword (session w))
               (NUMBER_OF_SEARCHES w) (fetch_world w)) with
  | Ret urls => urls
  | Raise _ => []
  end.

(** ** The text of a page *)

(** What the parser, the removal of the tags and the converter make of a
    page, in this order: the text, [None] for a page without a body, or the
    exception of the first of the three that raises. *)
Definition cleaned_text (E : Env) (html : string) : outcome (option string) :=
  match soup_body E html with
  | Raise e => Raise e
  | Ret None => Ret None
  | Ret (Some body) =>
      match decompose_tags E APIClient.removed_tags body with
      | Raise e => Raise e
      | Ret cleaned =>
          match html2text_handle E cleaned with
          | Raise e => Raise e
          | Ret text_content => Ret (Some text_content)
          end
      end
  end.

(** ** Counting requests *)

(** Every request of [requests.get] ends in a [RequestException]. *)
Definition offline (E : Env) : Prop :=
  forall t url headers params timeout,
  exists e,
    requests_get E t url headers params timeout = Raise e
    /\ is_request_exception e = true.

Definition is_str (v : json) : bool :=
  match v with JStr _ => true | _ => false end.

(** A string that does not start with whitespace. *)
Definition starts_clean (s : string) : Prop :=
  match s with
  | EmptyString => True
  | String c _ => is_space c = false
  end.

Definition is_get (e : event) : bool :=
  match e with HttpGet _ _ _ _ => true | _ => false end.

Definition is_chat (e : event) : bool :=
  match e with ChatCreate _ => true | _ => false end.

(** The number of HTTP requests among the events. *)
Definition gets (t : list event) : nat := List.length (filter is_get t).

(** The number of requests to the language model among the events. *)
Definition chats (t : list event) : nat := List.length (filter is_chat t).

(** ** The page *)

(** The stored input option is one of the three of the radio. *)
Definition valid_option (s : session_state) : Prop :=
  In (content_input_option s) App.input_options.

(** The radio of the input method answers with one of its options. *)
Definition radio_sound (R : runtime) : Prop :=
  forall i,
    In (radio R "Choose content input method" App.input_options i) App.input_options.

(** The values handed to [st.write_stream], in order. *)
Fixpoint streamed (l : list drawing) : list analysis_value :=
  match l with
  | [] => []
  | WriteStream v :: r => v :: streamed r
  | _ :: r => streamed r
  end.

(** What the keyword field answers in a run of the script that starts with
    the session [s]. *)
Definition typed_keyword (R : runtime) (s : session_state) : string :=
  text_input R "Enter Target Keyword" (keyword s).

(** The option that the radio answers with, for the stored option given as
    its index; the stored one when it has no index. *)
Definition chosen_option (R : runtime) (s : session_state) : string :=
  match index R App.input_options (content_input_option s) with
  | Ret i => radio R "Choose content input method" App.input_options i
  | Raise _ => content_input_option s
  end.

(** The page on which [main] runs [content_input_section]: the session is
    initialized, the side bar and the titles are drawn, and the number of
    searches is the one of the slider. *)
Definition input_page (R : runtime) (present : option session_state)
    (t : list event) (n : Z) : page :=
  mk_page
    [SetPageConfig "Content Optimization Toolkit" "📈" "wide";
     Title "🔧 Configuration";
     Markdown "### Search Settings";
     Markdown "---";
     Markdown "### About the Tool";
     Title "📈 Content Optimization Toolkit";
     Markdown
       "Elevate your content with AI-powered insights and optimization suggestions."]
    (mk_world
       (t ++ [Ui StInfo
                ("**Content Optimization Toolkit**" ++ nl ++ nl
                 ++ "- Analyze your content against top-ranking pages" ++ nl
                 ++ "- Get AI-powered optimization suggestions" ++ nl
                 ++ "- Improve SEO and readability")])
       (App.initialize_session_state present)
       (slider R "Number of Competitor URLs" 1 50 10)).

(* ================================================================== *)
(** * The progress formula in binary64 *)
(* ================================================================== *)

(** The floats of Python are IEEE 754 binary64 numbers.  Here the formula
    of the progress bar is written with the operations of [SpecFloat], which
    compute on mantissa and exponent as the standard prescribes, so that it
    can be evaluated. *)

Module Binary64.

Definition prec : Z := 53.
Definition emax : Z := 1024.

(** [float(n)] *)
Definition of_int (n : Z) : spec_float := binary_normalize prec emax n 0 false.

(** [int(x)] for a finite [x]: the integer part. *)
Definition to_int (x : spec_float) : Z :=
  match x with
  | S754_finite s m e =>
      let a := if 0 <=? e then Z.shiftl (Z.pos m) e else Z.shiftr (Z.pos m) (- e) in
      if s then - a else a
  | _ => 0
  end.

(** [25 + int((50 / total_urls) * idx)] *)
Definition progress (total_urls idx : Z) : Z :=
  25 + to_int (SFmul prec emax
                 (SFdiv prec emax (of_int 50) (of_int total_urls))
                 (of_int idx)).

(** The integers from 1 to [n]. *)
Definition upto (n : nat) : list Z := map (fun k => Z.of_nat (S k)) (seq 0 n).

(** Whether, for every number of URLs up to [n] and every index, the
    clamped binary64 value is the value the exact rounding gives. *)
Definition agrees_upto (n : nat) : bool :=
  forallb (fun total_urls =>
             forallb (fun idx =>
                        negb (idx <=? total_urls)
                        || (Z.min (progress total_urls idx) 100
                            =? reported Demo.env total_urls idx))
                     (upto n))
          (upto n).

(** Whether, for every number of URLs up to [n] and every index, the
    binary64 value is 25 plus the integer quotient of [50 * idx] by the
    number of URLs. *)
Definition floor_form_upto (n : nat) : bool :=
  forallb (fun total_urls =>
             forallb (fun idx =>
                        negb (idx <=? total_urls)
                        || (progress total_urls idx =? 25 + (50 * idx) / total_urls))
                     (upto n))
          (upto n).

End Binary64.

(* ================================================================== *)
(** * Runs of the model *)
(* ================================================================== *)

Example demo_fetch_top_urls :
  fst (APIClient.fetch_top_urls Demo.env "best laptops 2024" 3 Demo.world0)
  = Ret [JStr "https://a.test/laptops"; JStr "https://b.test/down"].
Proof. vm_compute. reflexivity. Qed.

Example demo_summaries :
  fst (DataProcessor.get_competitor_summaries Demo.env
         [JStr "https://a.test/laptops"; JStr "https://b.test/down"; JNum 7;
          JStr "https://short.test/"] Demo.world0)
  = Ret ["A short summary."; EmptyString; EmptyString; EmptyString].
Proof. vm_compute. reflexivity. Qed.

Example demo_progress :
  progress_values
    (trace (snd (DataProcessor.get_competitor_summaries Demo.env
         [JStr "https://a.test/laptops"; JStr "https://b.test/down"; JNum 7]
         Demo.world0)))
  = [41; 75].
Proof. vm_compute. reflexivity. Qed.

Example demo_fetch_webpage_content :
  fst (APIClient.fetch_webpage_content Demo.env (JStr "https://a.test/laptops")
         Demo.world0) = Ret (Some Demo.page_text)
  /\ 200 <= len (strip Demo.page_text)
  /\ fst (APIClient.fetch_webpage_content Demo.env (JStr "https://short.test/")
            Demo.world0) = Ret None
  /\ fst (APIClient.fetch_webpage_content Demo.env (JStr "https://empty.test/")
            Demo.world0) = Ret None
  /\ fst (APIClient.fetch_webpage_content Demo.env (JStr "https://gone.test/")
            Demo.world0) = Ret None
  /\ fst (APIClient.fetch_webpage_content Demo.env (JStr "https://b.test/down")
            Demo.world0) = Ret None.
Proof. repeat split; vm_compute; try reflexivity; discriminate. Qed.

Example demo_short_page_events :
  trace (snd (APIClient.fetch_webpage_content Demo.env (JStr "https://short.test/")
                Demo.world0))
  = [HttpGet "https://short.test/" [("User-Agent", APIClient.user_agent)] [] 15;
     Logged LogWarning APIClient.too_short;
     Ui StWarning APIClient.too_short].
Proof. vm_compute. reflexivity. Qed.

Example demo_summarize :
  fst (APIClient.summarize_content_with_openai Demo.env Demo.page_text Demo.world0)
  = Ret (Some "A short summary.")
  /\ fst (APIClient.summarize_content_with_openai Demo.silent_llm_env Demo.page_text
            Demo.world0) = Ret None
  /\ fst (APIClient.summarize_content_with_openai Demo.failing_llm_env Demo.page_text
            Demo.world0) = Ret None.
Proof. repeat split; vm_compute; reflexivity. Qed.

Example demo_analyze :
  fst (APIClient.analyze_content_with_openai Demo.env "My draft." "laptops" []
         Demo.world0) = Ret (ResponseValue (ChatStream ["Strengths: "; "clear."]))
  /\ fst (APIClient.analyze_content_with_openai Demo.silent_llm_env "My draft."
            "laptops" [] Demo.world0) = Ret NoneValue
  /\ fst (APIClient.analyze_content_with_openai Demo.failing_llm_env "My draft."
            "laptops" [] Demo.world0) = Ret (ErrorStr "error: Connection error.")
  /\ fst (APIClient.analyze_content_with_openai Demo.env "   " "laptops" []
            Demo.world0) = Ret (ErrorDict "No text provided for analysis.").
Proof. repeat split; vm_compute; reflexivity. Qed.

Example demo_run :
  result (session (snd (App.run_content_analysis Demo.env Demo.world0)))
  = Some (ResponseValue (ChatStream ["Strengths: "; "clear."])).
Proof. vm_compute. reflexivity. Qed.

(** Without a key the analyzer raises: the run keeps the result of the
    earlier run and ends with the status "Analysis Failed". *)
Example demo_run_without_key :
  result (session (snd (App.run_content_analysis Demo.keyless_env
                          (Demo.stale_world "My draft." "best laptops 2024"))))
  = Demo.stale
  /\ last (trace (snd (App.run_content_analysis Demo.keyless_env
                         (Demo.stale_world "My draft." "best laptops 2024"))))
        (ProgressSet 0)
     = StatusUpdate "Analysis Failed" "error"
  /\ chats (trace (snd (App.run_content_analysis Demo.keyless_env
                          (Demo.stale_world "My draft." "best laptops 2024"))))
     = 0%nat.
Proof. repeat split; vm_compute; reflexivity. Qed.

(** A parser that rejects the markup makes [fetch_webpage_content] raise:
    its handler is for the exceptions of [requests] only. *)
Example demo_fetch_rejected_markup :
  fst (APIClient.fetch_webpage_content Demo.rejecting_parser_env
         (JStr "https://a.test/laptops") Demo.world0)
  = Raise (mk_exn OtherException "The markup was rejected by the parser").
Proof. vm_compute. reflexivity. Qed.

(** After an error of the provider the stored result is a string, which
    [st.write_stream] refuses: the script raises. *)
Example demo_main_stream_refused :
  fst (App.main Demo.failing_llm_env
         (Demo.ui "Paste Text" "My draft about laptops." EmptyString false true None)
         None [] 3)
  = Raise (mk_exn OtherException
             "st.write_stream expects a generator or stream-like object").
Proof. vm_compute. reflexivity. Qed.

(* ================================================================== *)
(** * Basic facts *)
(* ================================================================== *)

Lemma world_eta (w : world) :
  mk_world (trace w) (session w) (NUMBER_OF_SEARCHES w) = w.
Proof. destruct w; reflexivity. Qed.

(** A string with a non-blank core is itself non-empty. *)
Lemma strip_truthy (s : string) :
  str_truthy (strip s) = true -> str_truthy s = true.
Proof. destruct s; [discriminate | reflexivity]. Qed.

Lemma blank_test (s : string) :
  negb (str_truthy s) || negb (str_truthy (strip s)) = negb (str_truthy (strip s)).
Proof. destruct s; reflexivity. Qed.

Lemma progress_values_app (a b : list event) :
  progress_values (a ++ b) = (progress_values a ++ progress_values b)%list.
Proof.
  induction a as [|e a IH]; simpl; [reflexivity|].
  destruct e; simpl; rewrite ?IH; reflexivity.
Qed.

Lemma network_calls_app (a b : list event) :
  network_calls (a ++ b) = (network_calls a ++ network_calls b)%list.
Proof. apply filter_app. Qed.

(* ================================================================== *)
(** * A discipline for effects *)
(* ================================================================== *)

(** The rules by which a computation is shown to be [tidy P]. *)

Section Tidy.

Variable P : list event -> Prop.
Hypothesis P_nil : P [].
Hypothesis P_app : forall a b, P a -> P b -> P (a ++ b).

Lemma tidy_here {A} (m : M A) (w : world) (new : list event) :
  (forall s n, m (mk_world (trace w) s n) = (fst (m w), mk_world (trace w ++ new) s n)) ->
  m w = (fst (m w), mk_world (trace w ++ new) (session w) (NUMBER_OF_SEARCHES w)).
Proof.
  intro H. specialize (H (session w) (NUMBER_OF_SEARCHES w)).
  rewrite world_eta in H. exact H.
Qed.

Lemma tidy_ret {A} (a : A) : tidy P (ret a).
Proof.
  intro w. exists []. split; [exact P_nil|].
  intros s n. unfold ret. simpl. rewrite app_nil_r. reflexivity.
Qed.

Lemma tidy_raise {A} (e : exn) : tidy P (@raise A e).
Proof.
  intro w. exists []. split; [exact P_nil|].
  intros s n. unfold raise. simpl. rewrite app_nil_r. reflexivity.
Qed.

Lemma tidy_lift {A} (o : outcome A) : tidy P (lift o).
Proof.
  intro w. exists []. split; [exact P_nil|].
  intros s n. unfold lift. simpl. rewrite app_nil_r. reflexivity.
Qed.

Lemma tidy_emit (e : event) : P [e] -> tidy P (emit e).
Proof.
  intros He w. exists [e]. split; [exact He|].
  intros s n. reflexivity.
Qed.

Lemma tidy_http_get (E : Env) url headers params timeout :
  P [HttpGet url headers params timeout] ->
  tidy P (http_get E url headers params timeout).
Proof.
  intros He w. exists [HttpGet url headers params timeout]. split; [exact He|].
  intros s n. reflexivity.
Qed.

Lemma tidy_chat_create (E : Env) c req :
  P [ChatCreate req] -> tidy P (chat_create E c req).
Proof.
  intros He w. exists [ChatCreate req]. split; [exact He|].
  intros s n. reflexivity.
Qed.

Lemma tidy_new_client (E : Env) key : tidy P (new_client E key).
Proof.
  intro w. exists []. split; [exact P_nil|].
  intros s n. unfold new_client. simpl. rewrite app_nil_r. reflexivity.
Qed.

Lemma tidy_bind {A B} (m : M A) (k : A -> M B) :
  tidy P m -> (forall a, tidy P (k a)) -> tidy P (bind m k).
Proof.
  intros Hm Hk w.
  destruct (Hm w) as (n1 & P1 & H1).
  pose proof (@tidy_here _ m w n1 H1) as Hw.
  unfold bind. rewrite Hw.
  destruct (fst (m w)) as [a|e].
  - destruct (Hk a (mk_world (trace w ++ n1) (session w) (NUMBER_OF_SEARCHES w)))
      as (n2 & P2 & H2).
    exists (n1 ++ n2)%list. split; [apply P_app; assumption|].
    intros s n. rewrite H1. simpl in H2.
    rewrite H2. simpl. rewrite app_assoc. reflexivity.
  - exists n1. split; [assumption|].
    intros s n. rewrite H1. reflexivity.
Qed.

Lemma tidy_try_except {A} (m : M A) (c : exn -> bool) (h : exn -> M A) :
  tidy P m -> (forall e, tidy P (h e)) -> tidy P (try_except m c h).
Proof.
  intros Hm Hh w.
  destruct (Hm w) as (n1 & P1 & H1).
  pose proof (@tidy_here _ m w n1 H1) as Hw.
  unfold try_except. rewrite Hw.
  destruct (fst (m w)) as [a|e].
  - exists n1. split; [assumption|].
    intros s n. rewrite H1. reflexivity.
  - destruct (c e) eqn:Ec.
    + destruct (Hh e (mk_world (trace w ++ n1) (session w) (NUMBER_OF_SEARCHES w)))
        as (n2 & P2 & H2).
      exists (n1 ++ n2)%list. split; [apply P_app; assumption|].
      intros s n. rewrite H1, Ec. simpl in H2.
      rewrite H2. simpl. rewrite app_assoc. reflexivity.
    + exists n1. split; [assumption|].
      intros s n. rewrite H1, Ec. reflexivity.
Qed.

Lemma tidy_raise_for_status (r : response) : tidy P (raise_for_status r).
Proof.
  unfold raise_for_status. destruct (http_error_msg r).
  - apply tidy_raise.
  - apply tidy_ret.
Qed.

End Tidy.

Ltac tidy_emit_tac :=
  unfold logging_warning, logging_error, st_write, st_info, st_warning,
    st_success, st_error.

Ltac tidy_tac :=
  repeat first
    [ assumption
    | apply tidy_ret; assumption
    | apply tidy_raise; assumption
    | apply tidy_lift; assumption
    | apply tidy_raise_for_status; assumption
    | apply tidy_emit; solve [auto]
    | apply tidy_http_get; solve [auto]
    | apply tidy_chat_create; solve [auto]
    | apply tidy_new_client; assumption
    | apply tidy_bind; [assumption | | intro]
    | apply tidy_try_except; [assumption | | intro]
    | match goal with
      | |- tidy _ (if ?b then _ else _) => destruct b
      | |- tidy _ (match ?x with _ => _ end) => destruct x
      end
    | progress tidy_emit_tac ].

(** The functions of [APIClient] and one pass of the summary loop are tidy
    for every [P] that admits the events other than progress updates. *)

Section TidyAPI.

Variable P : list event -> Prop.
Hypothesis P_nil : P [].
Hypothesis P_app : forall a b, P a -> P b -> P (a ++ b).
Hypothesis P_other : forall e, is_progress e = false -> P [e].
Variable E : Env.

Lemma tidy_fetch_top_urls kw n : tidy P (APIClient.fetch_top_urls E kw n).
Proof. unfold APIClient.fetch_top_urls. tidy_tac. Qed.

Lemma tidy_fetch_webpage_content_str url :
  tidy P (APIClient.fetch_webpage_content_str E url).
Proof. unfold APIClient.fetch_webpage_content_str. tidy_tac. Qed.

Lemma tidy_fetch_webpage_content url :
  tidy P (APIClient.fetch_webpage_content E url).
Proof.
  unfold APIClient.fetch_webpage_content.
  destruct url; try apply tidy_fetch_webpage_content_str; tidy_tac.
Qed.

Lemma tidy_summarize text :
  tidy P (APIClient.summarize_content_with_openai E text).
Proof. unfold APIClient.summarize_content_with_openai. tidy_tac. Qed.

Lemma tidy_analyze text kw summaries :
  tidy P (APIClient.analyze_content_with_openai E text kw summaries).
Proof. unfold APIClient.analyze_content_with_openai. tidy_tac. Qed.

Lemma tidy_process_url idx url summaries :
  tidy P (DataProcessor.process_url E idx url summaries).
Proof.
  unfold DataProcessor.process_url.
  apply tidy_try_except; [assumption | | intro; tidy_tac].
  apply tidy_bind; [assumption | tidy_tac | intro].
  apply tidy_bind; [assumption | apply tidy_fetch_webpage_content | intro c].
  destruct c as [[|c0 c]|]; [tidy_tac | | tidy_tac].
  apply tidy_bind; [assumption | tidy_tac | intro].
  apply tidy_bind; [assumption | apply tidy_summarize | intro s].
  destruct s as [[|s0 s]|]; tidy_tac.
Qed.

End TidyAPI.

(* ================================================================== *)
(** * Validation before any network call *)
(* ================================================================== *)

(** C2: for every keyword whose [strip()] is empty and every count,
    [fetch_top_urls] returns the empty list; all it does is to log one
    warning, so the trace holds no network call that was not there before. *)
Theorem fetch_top_urls_blank_keyword
    (E : Env) (keyword : string) (num_searches : Z) (w : world) :
  strip keyword = EmptyString ->
  APIClient.fetch_top_urls E keyword num_searches w
  = (Ret [],
     mk_world (trace w ++ [Logged LogWarning "Please enter a valid keyword."])
       (session w) (NUMBER_OF_SEARCHES w))
  /\ network_calls (trace (snd (APIClient.fetch_top_urls E keyword num_searches w)))
     = network_calls (trace w).
Proof.
  intro Hblank.
  assert (Hrun : APIClient.fetch_top_urls E keyword num_searches w
                 = (Ret [],
                    mk_world
                      (trace w ++ [Logged LogWarning "Please enter a valid keyword."])
                      (session w) (NUMBER_OF_SEARCHES w))).
  { unfold APIClient.fetch_top_urls. rewrite Hblank. reflexivity. }
  split; [exact Hrun|].
  rewrite Hrun. simpl. rewrite network_calls_app. simpl. apply app_nil_r.
Qed.

(** The statement at a keyword of three spaces. *)
Lemma fetch_top_urls_blank_keyword_witness :
  APIClient.fetch_top_urls Demo.env "   " 3 Demo.world0
  = (Ret [],
     mk_world (trace Demo.world0 ++ [Logged LogWarning "Please enter a valid keyword."])
       (session Demo.world0) (NUMBER_OF_SEARCHES Demo.world0))
  /\ network_calls (trace (snd (APIClient.fetch_top_urls Demo.env "   " 3 Demo.world0)))
     = network_calls (trace Demo.world0).
Proof.
  apply (@fetch_top_urls_blank_keyword Demo.env "   " 3 Demo.world0).
  reflexivity.
Defined.

(** C4: for every content that is empty or only whitespace, and every
    keyword and summary list, [analyze_content_with_openai] returns the
    error object, which is error-shaped and not stream-shaped, and leaves
    the world as it was: no call, not even a log line. *)
Theorem analyze_blank_content
    (E : Env) (text keyword : string) (competitor_summaries : list string) (w : world) :
  strip text = EmptyString ->
  exists v,
    APIClient.analyze_content_with_openai E text keyword competitor_summaries w
    = (Ret v, w)
    /\ v = ErrorDict "No text provided for analysis."
    /\ is_error_shaped v = true
    /\ is_stream_shaped v = false.
Proof.
  intro Hblank.
  exists (ErrorDict "No text provided for analysis.").
  unfold APIClient.analyze_content_with_openai.
  rewrite blank_test, Hblank. simpl. auto.
Qed.

(** The statement at a content of two spaces. *)
Lemma analyze_blank_content_witness :
  exists v,
    APIClient.analyze_content_with_openai Demo.env "  " "best laptops 2024"
      ["A short summary."] Demo.world0
    = (Ret v, Demo.world0)
    /\ v = ErrorDict "No text provided for analysis."
    /\ is_error_shaped v = true
    /\ is_stream_shaped v = false.
Proof.
  apply (@analyze_blank_content Demo.env "  " "best laptops 2024"
           ["A short summary."] Demo.world0).
  reflexivity.
Defined.

(** Splits a conjunction of case statements and closes each case from the
    equations at hand. *)
Ltac cases_tac :=
  repeat split; intros;
  repeat match goal with
         | H : Ret _ = Ret _ |- _ => inversion H; clear H; subst
         | H : Raise _ = Raise _ |- _ => inversion H; clear H; subst
         | H : Some _ = Some _ |- _ => inversion H; clear H; subst
         | H : (_, _) = (_, _) |- _ => inversion H; clear H; subst
         | H : ?x = Some _, H' : ?x = Some _ |- _ => rewrite H in H'
         | H : ?x = Some _, H' : ?x = None |- _ => rewrite H in H'
         | H : ?x = Ret _, H' : ?x = Ret _ |- _ => rewrite H in H'
         | H : ?x = Ret _, H' : ?x = Raise _ |- _ => rewrite H in H'
         | H : ?x = Raise _, H' : ?x = Raise _ |- _ => rewrite H in H'
         end;
  try reflexivity; try discriminate; try congruence; try lia.

(* ================================================================== *)
(** * What the client functions return *)
(* ================================================================== *)

(** C3: whatever the page and the URL, [fetch_webpage_content] returns
    [None] when the cleaned text, stripped, is shorter than 200 characters,
    when the document has no body, and when [requests] raises a transport
    or HTTP error; a text it does return has at least 200 characters after
    stripping. *)
Theorem fetch_webpage_content_short_or_failed (E : Env) (url : string) (w : world) :
  let answer :=
    requests_get E (trace w) url [("User-Agent", APIClient.user_agent)] [] 15 in
  let out := fst (APIClient.fetch_webpage_content E (JStr url) w) in
  (forall r body cleaned text_content,
      answer = Ret r ->
      soup_body E (text r) = Ret (Some body) ->
      decompose_tags E APIClient.removed_tags body = Ret cleaned ->
      html2text_handle E cleaned = Ret text_content ->
      len (strip text_content) < 200 ->
      out = Ret None)
  /\ (forall r, answer = Ret r -> soup_body E (text r) = Ret None -> out = Ret None)
  /\ (forall e, answer = Raise e -> is_request_exception e = true -> out = Ret None)
  /\ (forall r, answer = Ret r -> http_error_msg r <> None -> out = Ret None)
  /\ (forall t, out = Ret (Some t) -> 200 <= len (strip t)).
Proof.
  cbv zeta.
  unfold APIClient.fetch_webpage_content, APIClient.fetch_webpage_content_str.
  destruct (negb (str_truthy url) || negb (str_truthy (strip url))) eqn:Hb.
  { simpl. cases_tac. }
  unfold try_except, bind, http_get, raise_for_status, catch_request_exception, lift.
  destruct (requests_get E (trace w) url [("User-Agent", APIClient.user_agent)] [] 15)
    as [r|e] eqn:Ha.
  - destruct (http_error_msg r) as [msg|] eqn:Hs; simpl; [cases_tac|].
    destruct (soup_body E (text r)) as [[body|]|e] eqn:Hbody; simpl; [|cases_tac|].
    + destruct (decompose_tags E APIClient.removed_tags body) as [cleaned|e]
        eqn:Hclean; simpl.
      * destruct (html2text_handle E cleaned) as [text_content|e] eqn:Htext; simpl.
        -- destruct (len (strip text_content) <? 200) eqn:Hlen; simpl; [cases_tac|].
           apply Z.ltb_ge in Hlen. cases_tac.
        -- destruct (is_request_exception e) eqn:He; simpl; cases_tac.
      * destruct (is_request_exception e) eqn:He; simpl; cases_tac.
    + destruct (is_request_exception e) eqn:He; simpl; cases_tac.
  - destruct (is_request_exception e) eqn:He; simpl; cases_tac.
Qed.

(** C7, as stated, fails: the client is built before the [try], so without
    a key the exception of its constructor leaves the function, and nothing
    is logged. *)
Lemma summarize_raises_without_key :
  APIClient.summarize_content_with_openai Demo.keyless_env Demo.page_text Demo.world0
  = (Raise (mk_exn OtherException "The api_key client option must be set"),
     Demo.world0).
Proof. vm_compute. reflexivity. Qed.

(** C7, amended: a blank text gives [None].  For a non-blank text, once the
    client is built [summarize_content_with_openai] returns a value
    whatever the provider does: the stripped content of the first choice
    when it has a text content, and [None], after one logged error, when
    the first choice has no text content, when there is no choice, and when
    the call raises, whatever the exception.  An exception of the
    constructor of the client is not handled: it reaches the caller, with
    the world as it was. *)
Theorem summarize_handles_provider (E : Env) (text : string) (w : world) :
  let request := APIClient.summary_request text in
  let built := openai_client E (trace w) (OPENAI_API_KEY E) in
  let answer client := chat_completions_create E (trace w) client request in
  let run := APIClient.summarize_content_with_openai E text w in
  (str_truthy (strip text) = false -> run = (Ret None, w))
  /\ (forall client, built = Ret client -> exists o, fst run = Ret o)
  /\ (str_truthy (strip text) = true ->
      forall e, built = Raise e -> run = (Raise e, w))
  /\ (str_truthy (strip text) = true ->
      forall client c choices,
        built = Ret client ->
        answer client = Ret (ChatCompletion (Some c :: choices)) ->
        fst run = Ret (Some (strip c)))
  /\ (str_truthy (strip text) = true ->
      forall client choices,
        built = Ret client ->
        answer client = Ret (ChatCompletion (None :: choices)) ->
        fst run = Ret None
        /\ trace (snd run)
           = (trace w
              ++ [ChatCreate request;
                  Logged LogError
                    ("OpenAI Summarization Error: "
                     ++ "'NoneType' object has no attribute 'strip'")])%list)
  /\ (str_truthy (strip text) = true ->
      forall client,
        built = Ret client ->
        answer client = Ret (ChatCompletion []) ->
        fst run = Ret None
        /\ trace (snd run)
           = (trace w ++ [ChatCreate request;
                          Logged LogError "Failed to generate summary from OpenAI."])%list)
  /\ (str_truthy (strip text) = true ->
      forall client e,
        built = Ret client ->
        answer client = Raise e ->
        fst run = Ret None
        /\ trace (snd run)
           = (trace w ++ [ChatCreate request;
                          Logged LogError ("OpenAI Summarization Error: " ++ exn_str e)])%list).
Proof.
  cbv zeta.
  unfold APIClient.summarize_content_with_openai.
  rewrite blank_test.
  destruct (str_truthy (strip text)) eqn:Hb; simpl.
  2:{ repeat split; intros; try discriminate. eexists; reflexivity. }
  unfold try_except, bind, new_client, chat_create, catch_exception.
  destruct (openai_client E (trace w) (OPENAI_API_KEY E)) as [client|e0] eqn:Hc.
  2:{ cases_tac. }
  destruct (chat_completions_create E (trace w) client (APIClient.summary_request text))
    as [r|e] eqn:Ha.
  - destruct r as [[|[c|] choices]|chunks|]; simpl;
      (split; [discriminate|]); (split; [intros; eexists; reflexivity|]);
      cases_tac; rewrite <- app_assoc; reflexivity.
  - simpl. split; [discriminate|]. split; [intros; eexists; reflexivity|].
    cases_tac. rewrite <- app_assoc; reflexivity.
Qed.

(** C10, as stated, fails: without a key the constructor of the client,
    which runs before the [try], raises, and [analyze_content_with_openai]
    with it. *)
Lemma analyze_raises_without_key :
  APIClient.analyze_content_with_openai Demo.keyless_env
    "My draft about laptops." "best laptops 2024" ["A short summary."] Demo.world0
  = (Raise (mk_exn OtherException "The api_key client option must be set"),
     Demo.world0).
Proof. vm_compute. reflexivity. Qed.

(** C10, amended: for a blank content [analyze_content_with_openai] returns
    the error object, before the client is built.  For another content,
    once the client is built the function returns a value; when it is not
    the object the client returned, it has one of two further shapes: a
    string that starts with "error: " when the call raises, and [None] when
    the call returns a false value.  No two of the shapes agree.  An
    exception of the constructor of the client is not handled: it reaches
    the caller. *)
Theorem analyze_return_shapes
    (E : Env) (text keyword : string) (competitor_summaries : list string) (w : world) :
  let request := APIClient.analysis_request text keyword competitor_summaries in
  let built := openai_client E (trace w) (OPENAI_API_KEY E) in
  let answer client := chat_completions_create E (trace w) client request in
  let out :=
    fst (APIClient.analyze_content_with_openai E text keyword competitor_summaries w) in
  (str_truthy (strip text) = false ->
   out = Ret (ErrorDict "No text provided for analysis."))
  /\ (forall client, built = Ret client -> exists v, out = Ret v)
  /\ (str_truthy (strip text) = true ->
      forall e, built = Raise e -> out = Raise e)
  /\ (str_truthy (strip text) = true ->
      forall client e,
        built = Ret client -> answer client = Raise e ->
        out = Ret (ErrorStr ("error: " ++ exn_str e)))
  /\ (str_truthy (strip text) = true ->
      forall client r,
        built = Ret client -> answer client = Ret r -> resp_truthy r = false ->
        out = Ret NoneValue)
  /\ (str_truthy (strip text) = true ->
      forall client r,
        built = Ret client -> answer client = Ret r -> resp_truthy r = true ->
        out = Ret (ResponseValue r))
  /\ (forall msg s r,
        ErrorDict msg <> ErrorStr s /\ ErrorDict msg <> NoneValue
        /\ ErrorStr s <> NoneValue
        /\ ResponseValue r <> ErrorDict msg /\ ResponseValue r <> ErrorStr s
        /\ ResponseValue r <> NoneValue).
Proof.
  cbv zeta.
  unfold APIClient.analyze_content_with_openai.
  rewrite blank_test.
  destruct (str_truthy (strip text)) eqn:Hb; simpl.
  2:{ repeat split; intros; try discriminate; try reflexivity.
      eexists; reflexivity. }
  unfold try_except, bind, new_client, chat_create, catch_exception.
  destruct (openai_client E (trace w) (OPENAI_API_KEY E)) as [client|e0] eqn:Hc.
  2:{ cases_tac. }
  destruct (chat_completions_create E (trace w) client
              (APIClient.analysis_request text keyword competitor_summaries))
    as [r|e] eqn:Ha; simpl.
  - destruct (resp_truthy r) eqn:Ht; simpl;
      (split; [discriminate|]); (split; [intros; eexists; reflexivity|]); cases_tac.
  - split; [discriminate|]. split; [intros; eexists; reflexivity|]. cases_tac.
Qed.

(* ================================================================== *)
(** * The ranked URLs *)
(* ================================================================== *)

Lemma url_comprehension_ranked (items : list json) :
  forallb is_object items = true ->
  APIClient.url_comprehension items = Ret (ranked_urls items).
Proof.
  unfold ranked_urls.
  induction items as [|item rest IH]; intro Hobj; [reflexivity|].
  simpl in Hobj. apply andb_true_iff in Hobj. destruct Hobj as [Hi Hrest].
  destruct item as [| | | | |d]; try discriminate.
  simpl. unfold has_url. simpl.
  destruct (lookup "url" d) as [u|] eqn:Hu; simpl.
  - destruct (truthy u); simpl; rewrite ?Hu, (IH Hrest); reflexivity.
  - exact (IH Hrest).
Qed.

(** C6, as stated, fails: a response without "positions" whose body is a
    JSON list, not an object, makes [fetch_top_urls] raise to its caller;
    the handler of the function is for [RequestException] only. *)
Lemma fetch_top_urls_raises_on_list_body :
  fst (APIClient.fetch_top_urls Demo.list_body_env "best laptops 2024" 3 Demo.world0)
  = Raise (AttributeError "object has no attribute 'get'").
Proof. vm_compute. reflexivity. Qed.

(** C6, amended: for a non-blank keyword, [fetch_top_urls] returns the
    truthy "url" values of the items of "positions", in the order of the
    response, when the body is an object whose "positions" is a list of
    objects; it returns the empty list, raising nothing, when the request
    fails with a transport error, when the status is an HTTP error, when
    the body cannot be decoded, and when the body is an object whose
    "positions" is missing or false; a body that is not an object makes it
    raise to the caller. *)
Theorem fetch_top_urls_ranked
    (E : Env) (keyword : string) (num_searches : Z) (w : world) :
  str_truthy (strip keyword) = true ->
  let answer :=
    requests_get E (trace w) (AHREFS_API_URL E) (APIClient.ahrefs_headers E)
      (APIClient.ahrefs_params keyword num_searches) 10 in
  let out := fst (APIClient.fetch_top_urls E keyword num_searches w) in
  (forall r d items,
      answer = Ret r -> http_error_msg r = None ->
      resp_json r = Ret (JDict d) ->
      lookup "positions" d = Some (JList items) ->
      forallb is_object items = true ->
      out = Ret (ranked_urls items))
  /\ (forall e, answer = Raise e -> is_request_exception e = true -> out = Ret [])
  /\ (forall r, answer = Ret r -> http_error_msg r <> None -> out = Ret [])
  /\ (forall r e,
        answer = Ret r -> http_error_msg r = None ->
        resp_json r = Raise e -> is_request_exception e = true ->
        out = Ret [])
  /\ (forall r d,
        answer = Ret r -> http_error_msg r = None ->
        resp_json r = Ret (JDict d) ->
        lookup "positions" d = None ->
        out = Ret [])
  /\ (forall r d p,
        answer = Ret r -> http_error_msg r = None ->
        resp_json r = Ret (JDict d) ->
        lookup "positions" d = Some p -> truthy p = false ->
        out = Ret [])
  /\ (forall r body,
        answer = Ret r -> http_error_msg r = None ->
        resp_json r = Ret body -> is_object body = false ->
        out = Raise (AttributeError "object has no attribute 'get'")).
Proof.
  intro Hkw. cbv zeta.
  unfold APIClient.fetch_top_urls. rewrite Hkw.
  change (negb true) with false. cbv iota.
  unfold try_except, bind, http_get, raise_for_status, catch_request_exception, lift.
  cbv beta.
  destruct (requests_get E (trace w) (AHREFS_API_URL E) (APIClient.ahrefs_headers E)
              (APIClient.ahrefs_params keyword num_searches) 10) as [r|e] eqn:Ha.
  - destruct (http_error_msg r) as [msg|] eqn:Hs; simpl; [cases_tac|].
    destruct (resp_json r) as [body|e] eqn:Hj; simpl.
    + destruct body as [| | | | |d]; simpl; try solve [cases_tac].
      destruct (lookup "positions" d) as [p|] eqn:Hp; simpl; [|cases_tac].
      destruct (truthy p) eqn:Ht; simpl; cases_tac.
      * simpl. rewrite url_comprehension_ranked by assumption. reflexivity.
      * destruct items; [reflexivity | discriminate].
    + destruct (is_request_exception e) eqn:He; simpl; cases_tac.
  - destruct (is_request_exception e) eqn:He; simpl; cases_tac.
Qed.

(** The statement at the four positions of the example API: the second
    has no URL, the third an empty one. *)
Lemma fetch_top_urls_ranked_witness :
  fst (APIClient.fetch_top_urls Demo.env "best laptops 2024" 3 Demo.world0)
  = Ret (ranked_urls
           [JDict [("url", JStr "https://a.test/laptops")];
            JDict [("title", JStr "no url here")];
            JDict [("url", JStr EmptyString)];
            JDict [("url", JStr "https://b.test/down")]]).
Proof.
  refine (proj1 (@fetch_top_urls_ranked Demo.env "best laptops 2024" 3 Demo.world0 _)
            _ _ _ _ _ _ _ _);
    reflexivity.
Defined.

(* ================================================================== *)
(** * The analysis prompt *)
(* ================================================================== *)

Lemma str_app_assoc (a b c : string) : (a ++ b) ++ c = a ++ (b ++ c).
Proof. induction a as [|x a IH]; simpl; [reflexivity | rewrite IH; reflexivity]. Qed.

Lemma prefix_app (p b : string) : String.prefix p (p ++ b) = true.
Proof.
  induction p as [|x p IH]; simpl; [destruct b; reflexivity|].
  destruct (ascii_dec x x) as [_|Hne]; [exact IH | contradiction Hne; reflexivity].
Qed.

Lemma contains_unfold (p s : string) :
  contains p s =
  if String.prefix p s then true
  else match s with EmptyString => false | String _ r => contains p r end.
Proof. destruct s; reflexivity. Qed.

(** A string that occurs somewhere in [s] is found by [contains]. *)
Lemma contains_app (p a b : string) : contains p (a ++ p ++ b) = true.
Proof.
  induction a as [|x a IH].
  - rewrite contains_unfold. simpl. rewrite prefix_app. reflexivity.
  - rewrite contains_unfold.
    destruct (String.prefix p (String x a ++ p ++ b)); [reflexivity | exact IH].
Qed.

Lemma contains_middle (p a b s : string) : s = a ++ p ++ b -> contains p s = true.
Proof. intros ->. apply contains_app. Qed.

(** The block of the summary at index [i] stands in the blocks of the list. *)
Lemma competitor_blocks_nth (summaries : list string) :
  forall (k : Z) (i : nat) (s : string),
    nth_error summaries i = Some s ->
    exists a b,
      APIClient.competitor_blocks k summaries
      = a ++ APIClient.competitor_block (k + Z.of_nat i) s ++ b.
Proof.
  induction summaries as [|x rest IH]; intros k i s Hi.
  - destruct i; discriminate.
  - destruct i as [|j]; simpl in Hi.
    + inversion Hi; subst. exists EmptyString, (APIClient.competitor_blocks (k + 1) rest).
      change (Z.of_nat 0) with 0. rewrite Z.add_0_r. reflexivity.
    + destruct (IH (k + 1) j s Hi) as (a & b & Hab).
      exists (APIClient.competitor_block k x ++ a), b.
      change (APIClient.competitor_blocks k (x :: rest))
        with (APIClient.competitor_block k x ++ APIClient.competitor_blocks (k + 1) rest).
      rewrite Hab.
      replace (k + 1 + Z.of_nat j) with (k + Z.of_nat (S j)) by lia.
      rewrite str_app_assoc. reflexivity.
Qed.

(** C8, as stated, fails: with the summaries of two competitors, the second
    an empty placeholder, the prompt of the code differs from the prompt
    that leaves placeholders out; it carries the block "Competitor 2
    Summary:" with nothing under it. *)
Lemma analysis_prompt_embeds_placeholder :
  APIClient.analysis_prompt "My draft." "best laptops 2024"
    ["A short summary."; EmptyString]
  <> nontrivial_prompt "My draft." "best laptops 2024"
       ["A short summary."; EmptyString]
  /\ contains (APIClient.competitor_block 2 EmptyString)
       (APIClient.analysis_prompt "My draft." "best laptops 2024"
          ["A short summary."; EmptyString]) = true
  /\ contains "Competitor 2 Summary:"
       (nontrivial_prompt "My draft." "best laptops 2024"
          ["A short summary."; EmptyString]) = false.
Proof.
  split; [|split]; [| vm_compute; reflexivity | vm_compute; reflexivity].
  intro H.
  assert (Hc : contains "Competitor 2 Summary:"
                 (APIClient.analysis_prompt "My draft." "best laptops 2024"
                    ["A short summary."; EmptyString]) = true)
    by (vm_compute; reflexivity).
  rewrite H in Hc. vm_compute in Hc. discriminate.
Qed.

Lemma analysis_prompt_shape (text keyword : string) (competitor_summaries : list string) :
  APIClient.analysis_prompt text keyword competitor_summaries
  = "Content to analyze:" ++ nl ++ text ++ nl ++ nl
    ++ "Focus keyword: " ++ keyword ++ nl ++ nl
    ++ competitor_part competitor_summaries ++ APIClient.analysis_sections.
Proof.
  unfold APIClient.analysis_prompt, competitor_part. cbv zeta.
  destruct competitor_summaries; rewrite ?str_app_assoc; reflexivity.
Qed.

Lemma contains_skip (p a s : string) :
  contains p s = true -> contains p (a ++ s) = true.
Proof.
  intro H. induction a as [|x a IH]; [exact H|].
  rewrite contains_unfold.
  destruct (String.prefix p (String x a ++ s)); [reflexivity | exact IH].
Qed.

(** C8, amended: for a non-blank content, the prompt that
    [analyze_content_with_openai] builds embeds the content, the keyword,
    and the block of every competitor summary under its position counted
    from 1, the empty placeholders included, and lists the five sections.
    It is the prompt of the one request that is sent once the client is
    built; when the constructor of the client raises, nothing is sent. *)
Theorem analysis_prompt_embeds
    (E : Env) (text keyword : string) (competitor_summaries : list string) (w : world) :
  str_truthy (strip text) = true ->
  let prompt := APIClient.analysis_prompt text keyword competitor_summaries in
  let request := APIClient.analysis_request text keyword competitor_summaries in
  let run := APIClient.analyze_content_with_openai E text keyword competitor_summaries w in
  match openai_client E (trace w) (OPENAI_API_KEY E) with
  | Ret _ =>
      exists new,
        trace (snd run) = (trace w ++ ChatCreate request :: new)%list
        /\ network_calls new = []
  | Raise e => run = (Raise e, w)
  end
  /\ messages request
     = [mk_message "system" APIClient.analysis_system_prompt; mk_message "user" prompt]
  /\ contains text prompt = true
  /\ contains ("Focus keyword: " ++ keyword) prompt = true
  /\ (forall i summary,
        nth_error competitor_summaries i = Some summary ->
        contains (APIClient.competitor_block (Z.of_nat i + 1) summary) prompt = true)
  /\ Forall (fun line => contains line prompt = true) section_lines.
Proof.
  intro Hb. cbv zeta.
  split; [|split; [reflexivity|]]; [|repeat split].
  - unfold APIClient.analyze_content_with_openai.
    rewrite blank_test, Hb. change (negb true) with false. cbv iota.
    unfold try_except, bind, new_client, chat_create, catch_exception. cbv beta.
    destruct (openai_client E (trace w) (OPENAI_API_KEY E)) as [client|e0];
      [|reflexivity].
    destruct (chat_completions_create E (trace w) client
                (APIClient.analysis_request text keyword competitor_summaries))
      as [r|e]; simpl.
    + destruct (resp_truthy r); simpl; exists []; split; reflexivity.
    + exists [Logged LogError ("OpenAI Analysis Error: " ++ exn_str e)].
      rewrite <- app_assoc. split; reflexivity.
  - rewrite analysis_prompt_shape.
    apply contains_middle with (a := "Content to analyze:" ++ nl)
      (b := nl ++ nl ++ "Focus keyword: " ++ keyword ++ nl ++ nl
            ++ competitor_part competitor_summaries ++ APIClient.analysis_sections).
    reflexivity.
  - rewrite analysis_prompt_shape.
    apply contains_middle with (a := "Content to analyze:" ++ nl ++ text ++ nl ++ nl)
      (b := nl ++ nl ++ competitor_part competitor_summaries
            ++ APIClient.analysis_sections).
    rewrite !str_app_assoc. reflexivity.
  - intros i summary Hi.
    destruct (competitor_blocks_nth competitor_summaries 1 i Hi) as (a & b & Hab).
    rewrite analysis_prompt_shape.
    assert (Hpart : competitor_part competitor_summaries
                    = APIClient.competitor_header
                      ++ APIClient.competitor_blocks 1 competitor_summaries).
    { destruct competitor_summaries; [destruct i; discriminate | reflexivity]. }
    rewrite Hpart, Hab.
    replace (Z.of_nat i + 1) with (1 + Z.of_nat i) by lia.
    apply contains_middle with
      (a := "Content to analyze:" ++ nl ++ text ++ nl ++ nl
            ++ "Focus keyword: " ++ keyword ++ nl ++ nl
            ++ APIClient.competitor_header ++ a)
      (b := b ++ APIClient.analysis_sections).
    rewrite !str_app_assoc. reflexivity.
  - rewrite analysis_prompt_shape, <- !str_app_assoc.
    unfold section_lines.
    repeat constructor; apply contains_skip; vm_compute; reflexivity.
Qed.

(** The statement at two summaries, the second an empty placeholder. *)
Lemma analysis_prompt_embeds_witness :
  contains (APIClient.competitor_block 2 EmptyString)
    (APIClient.analysis_prompt "My draft." "best laptops 2024"
       ["A short summary."; EmptyString]) = true
  /\ Forall (fun line =>
               contains line
                 (APIClient.analysis_prompt "My draft." "best laptops 2024"
                    ["A short summary."; EmptyString]) = true) section_lines.
Proof.
  pose proof (@analysis_prompt_embeds Demo.env "My draft." "best laptops 2024"
                ["A short summary."; EmptyString] Demo.world0 eq_refl) as H.
  cbv zeta in H.
  destruct H as (_ & _ & _ & _ & Hblocks & Hsections).
  split; [exact (Hblocks 1%nat EmptyString eq_refl) | exact Hsections].
Defined.

(* ================================================================== *)
(** * Float arithmetic of the progress formula *)
(* ================================================================== *)

Section Floats.

Variable r : rounding.

Lemma rnd_nonneg (x : Q) : (0 <= x)%Q -> (0 <= rnd r x)%Q.
Proof.
  intro H. apply Qle_trans with (rnd r 0).
  - rewrite (rnd_zero r). apply Qle_refl.
  - apply rnd_mono; exact H.
Qed.

Lemma int_nonneg (x : Q) : (0 <= x)%Q -> 0 <= int x.
Proof.
  intro H. unfold int.
  destruct (Qle_bool 0 x) eqn:Hb.
  - change 0 with (Qfloor 0). apply Qfloor_resp_le; exact H.
  - apply Qle_bool_iff in H. congruence.
Qed.

(** Truncation towards zero is monotone. *)
Lemma int_mono (x y : Q) : (x <= y)%Q -> int x <= int y.
Proof.
  intro H. unfold int.
  destruct (Qle_bool 0 x) eqn:Hx; destruct (Qle_bool 0 y) eqn:Hy.
  - apply Qfloor_resp_le; exact H.
  - apply Qle_bool_iff in Hx.
    assert (Hy' : Qle_bool 0 y = true)
      by (apply Qle_bool_iff; apply Qle_trans with x; assumption).
    congruence.
  - apply Qle_bool_iff in Hy.
    assert (Hneg : (x <= 0)%Q).
    { apply Qlt_le_weak, Qnot_le_lt. intro Hc.
      apply Qle_bool_iff in Hc. congruence. }
    apply Z.le_trans with 0.
    + change 0 with (Qceiling 0). apply Qceiling_resp_le; exact Hneg.
    + change 0 with (Qfloor 0). apply Qfloor_resp_le; exact Hy.
  - apply Qceiling_resp_le; exact H.
Qed.

Lemma mul_int_mono (q : Q) (i j : Z) :
  (0 <= q)%Q -> i <= j -> (mul_int r q i <= mul_int r q j)%Q.
Proof.
  intros Hq Hij. unfold mul_int. apply rnd_mono.
  rewrite (Qmult_comm q (rnd r (inject_Z i))), (Qmult_comm q (rnd r (inject_Z j))).
  apply Qmult_le_compat_r; [|exact Hq].
  apply rnd_mono. rewrite <- Zle_Qle. exact Hij.
Qed.

Lemma mul_int_nonneg (q : Q) (i : Z) :
  (0 <= q)%Q -> 0 <= i -> (0 <= mul_int r q i)%Q.
Proof.
  intros Hq Hi. unfold mul_int. apply rnd_nonneg.
  apply Qmult_le_0_compat; [exact Hq|].
  apply rnd_nonneg. change 0%Q with (inject_Z 0). rewrite <- Zle_Qle. exact Hi.
Qed.

Lemma quotient_nonneg (total : Z) :
  0 < total -> (0 <= rnd r (inject_Z 50 / inject_Z total))%Q.
Proof.
  intro Ht. apply rnd_nonneg. apply Qle_shift_div_l.
  - change 0%Q with (inject_Z 0). rewrite <- Zlt_Qlt. exact Ht.
  - rewrite Qmult_0_l. discriminate.
Qed.

End Floats.

(* ================================================================== *)
(** * The summary loop *)
(* ================================================================== *)

Lemma no_progress_nil : no_progress [].
Proof. reflexivity. Qed.

Lemma no_progress_app (a b : list event) :
  no_progress a -> no_progress b -> no_progress (a ++ b).
Proof.
  unfold no_progress. intros Ha Hb. rewrite progress_values_app, Ha, Hb. reflexivity.
Qed.

Lemma no_progress_other (e : event) : is_progress e = false -> no_progress [e].
Proof. destruct e; intro H; try reflexivity; discriminate. Qed.

Section Loop.

Variable E : Env.
Variable total_urls : Z.
Hypothesis total_pos : 0 < total_urls.

Lemma progress_of_total (idx : Z) :
  DataProcessor.progress_of E total_urls idx
  = Ret (25 + int (mul_int (fl E)
                     (rnd (fl E) (inject_Z 50 / inject_Z total_urls)) idx)).
Proof.
  unfold DataProcessor.progress_of, truediv.
  destruct (total_urls =? 0) eqn:H0; [apply Z.eqb_eq in H0; lia | reflexivity].
Qed.

Lemma reported_mono (i j : Z) :
  i <= j -> reported E total_urls i <= reported E total_urls j.
Proof.
  intro Hij. unfold reported.
  apply Z.min_le_compat_r, Z.add_le_mono_l, int_mono, mul_int_mono.
  - apply quotient_nonneg; exact total_pos.
  - exact Hij.
Qed.

Lemma reported_bounds (i : Z) :
  0 <= i -> 25 <= reported E total_urls i <= 100.
Proof.
  intro Hi. unfold reported.
  assert (0 <= int (mul_int (fl E)
                      (rnd (fl E) (inject_Z 50 / inject_Z total_urls)) i)).
  { apply int_nonneg, mul_int_nonneg; [apply quotient_nonneg; exact total_pos | exact Hi]. }
  lia.
Qed.

(** One pass of the loop, spelled out. *)
Lemma summaries_loop_step (idx : Z) (url : json) (rest : list json)
    (summaries : list string) (w : world) :
  DataProcessor.summaries_loop E total_urls idx (url :: rest) summaries w
  = let w1 := snd (st_write (processing_msg E total_urls idx url) w) in
    match DataProcessor.process_url E idx url summaries w1 with
    | (Raise e, w2) => (Raise e, w2)
    | (Ret (summaries', DataProcessor.Continue), w2) =>
        DataProcessor.summaries_loop E total_urls (idx + 1) rest summaries' w2
    | (Ret (summaries', DataProcessor.Fallthrough), w2) =>
        DataProcessor.summaries_loop E total_urls (idx + 1) rest summaries'
          (snd (emit (ProgressSet (reported E total_urls idx)) w2))
    end.
Proof.
  cbv zeta. simpl DataProcessor.summaries_loop.
  unfold bind at 1. unfold st_write at 1, emit at 1. cbv beta iota.
  unfold bind at 1. fold (processing_msg E total_urls idx url).
  unfold st_write, emit. simpl snd.
  destruct (DataProcessor.process_url E idx url summaries _) as [[[s' f]|e] w2];
    [|reflexivity].
  simpl snd. simpl fst. destruct f; [reflexivity|].
  unfold bind, lift. rewrite progress_of_total. reflexivity.
Qed.

End Loop.

Section Passes.

Variable E : Env.
Variable total_urls : Z.
Hypothesis total_pos : 0 < total_urls.

(** Whatever happens in the [try] block, a pass appends one slot, which is
    the slot of its URL, and raises nothing; the summaries collected so far
    have no influence on the world or on how the pass ends. *)
Lemma process_url_slot (idx : Z) (url : json) (w : world) :
  let w1 := snd (st_write (processing_msg E total_urls idx url) w) in
  exists f,
  forall summaries,
    DataProcessor.process_url E idx url summaries w1
    = (Ret ((summaries ++ [summary_slot E total_urls idx url w])%list, f),
       snd (DataProcessor.process_url E idx url [] w1)).
Proof.
  cbv zeta.
  unfold summary_slot, DataProcessor.process_url, try_except, bind, catch_exception.
  unfold st_info, st_warning, st_success, st_error, st_write, emit, ret.
  cbv beta. simpl snd.
  destruct (APIClient.fetch_webpage_content E url _) as [[[[|c0 c]|]|e] w2];
    simpl; try (eexists; intro; reflexivity).
  destruct (APIClient.summarize_content_with_openai E (String c0 c) _)
    as [[[[|s0 s]|]|e] w3];
    simpl; eexists; intro; reflexivity.
Qed.

(** A pass, seen from the loop: it hands the summaries, one slot longer, to
    the passes that follow, in a world whose trace has grown by events
    among which there is at most one progress update, the one of [idx]. *)
Lemma loop_pass (idx : Z) (url : json) (w : world) :
  exists new,
    (forall rest summaries,
        DataProcessor.summaries_loop E total_urls idx (url :: rest) summaries w
        = DataProcessor.summaries_loop E total_urls (idx + 1) rest
            (summaries ++ [summary_slot E total_urls idx url w])
            (mk_world (trace w ++ new) (session w) (NUMBER_OF_SEARCHES w)))
    /\ (progress_values new = []
        \/ progress_values new = [reported E total_urls idx]).
Proof.
  destruct (process_url_slot idx url w) as [f Hf]. cbv zeta in Hf.
  destruct (@tidy_process_url no_progress no_progress_nil no_progress_app
              no_progress_other E idx url []
              (snd (st_write (processing_msg E total_urls idx url) w)))
    as (new1 & Hnew1 & Htidy).
  pose proof (@tidy_here _ _ _ _ Htidy) as Hw2.
  simpl trace in Hw2. simpl session in Hw2. simpl NUMBER_OF_SEARCHES in Hw2.
  assert (Hsnd : snd (DataProcessor.process_url E idx url []
                        (snd (st_write (processing_msg E total_urls idx url) w)))
                 = mk_world ((trace w ++ [Ui StWrite (processing_msg E total_urls idx url)])
                             ++ new1) (session w) (NUMBER_OF_SEARCHES w)).
  { rewrite Hw2. reflexivity. }
  destruct f.
  - exists ([Ui StWrite (processing_msg E total_urls idx url)] ++ new1)%list. split.
    + intros rest summaries. rewrite (summaries_loop_step E total_pos). cbv zeta.
      rewrite Hf, Hsnd. rewrite <- app_assoc. reflexivity.
    + left. rewrite progress_values_app. exact Hnew1.
  - exists (([Ui StWrite (processing_msg E total_urls idx url)] ++ new1)
            ++ [ProgressSet (reported E total_urls idx)])%list. split.
    + intros rest summaries. rewrite (summaries_loop_step E total_pos). cbv zeta.
      rewrite Hf, Hsnd. unfold emit. simpl snd. rewrite <- !app_assoc. reflexivity.
    + right. rewrite !progress_values_app, Hnew1. reflexivity.
Qed.

(** The loop returns the summaries it was given followed by one slot per
    URL, and the progress updates it makes are those of some of the indices
    it goes through, in increasing order. *)
Lemma loop_returns (urls : list json) :
  forall (idx : Z) (w : world),
  exists xs new,
    (forall summaries,
        DataProcessor.summaries_loop E total_urls idx urls summaries w
        = (Ret (summaries ++ xs)%list,
           mk_world (trace w ++ new) (session w) (NUMBER_OF_SEARCHES w)))
    /\ List.length xs = List.length urls
    /\ Forall (fun p => exists j,
                  idx <= j < idx + Z.of_nat (List.length urls)
                  /\ p = reported E total_urls j) (progress_values new)
    /\ StronglySorted Z.le (progress_values new).
Proof.
  induction urls as [|url rest IH]; intros idx w.
  - exists [], []. repeat split; try constructor.
    intro summaries. simpl. unfold ret. rewrite !app_nil_r, world_eta. reflexivity.
  - destruct (loop_pass idx url w) as (new1 & Hstep & Hnew1).
    destruct (IH (idx + 1)
                (mk_world (trace w ++ new1) (session w) (NUMBER_OF_SEARCHES w)))
      as (xs & new2 & Hloop & Hlen & Hall & Hsorted).
    simpl trace in Hloop. simpl session in Hloop. simpl NUMBER_OF_SEARCHES in Hloop.
    exists (summary_slot E total_urls idx url w :: xs), (new1 ++ new2)%list.
    assert (Hall' : Forall (fun p => exists j,
                       idx <= j < idx + Z.of_nat (List.length (url :: rest))
                       /\ p = reported E total_urls j) (progress_values new2)).
    { eapply Forall_impl; [|exact Hall].
      intros p (j & Hj & Hp). exists j. split; [|exact Hp].
      simpl List.length. lia. }
    repeat split.
    + intro summaries. rewrite Hstep, Hloop.
      rewrite <- !app_assoc. reflexivity.
    + simpl. rewrite Hlen. reflexivity.
    + rewrite progress_values_app.
      destruct Hnew1 as [-> | ->]; simpl; [exact Hall'|].
      constructor; [|exact Hall'].
      exists idx. split; [simpl List.length; lia | reflexivity].
    + rewrite progress_values_app.
      destruct Hnew1 as [-> | ->]; simpl; [exact Hsorted|].
      constructor; [exact Hsorted|].
      eapply Forall_impl; [|exact Hall].
      intros p (j & Hj & ->). apply reported_mono; [exact total_pos | lia].
Qed.

(** The world the loop leaves does not depend on the summaries it was given. *)
Lemma loop_world (urls : list json) (idx : Z) (summaries : list string) (w : world) :
  snd (DataProcessor.summaries_loop E total_urls idx urls summaries w)
  = snd (DataProcessor.summaries_loop E total_urls idx urls [] w).
Proof.
  destruct (loop_returns urls idx w) as (xs & new & Hloop & _).
  rewrite (Hloop summaries), (Hloop []). reflexivity.
Qed.

(** Position [i] of the result holds the slot of URL [i], taken in the world
    that the passes for the URLs before it have left. *)
Lemma loop_positions (urls : list json) :
  forall (idx : Z) (w : world) (xs : list string),
    fst (DataProcessor.summaries_loop E total_urls idx urls [] w) = Ret xs ->
    forall (i : nat) (url : json),
      nth_error urls i = Some url ->
      nth_error xs i
      = Some (summary_slot E total_urls (idx + Z.of_nat i) url
                (snd (DataProcessor.summaries_loop E total_urls idx
                        (firstn i urls) [] w))).
Proof.
  induction urls as [|url0 rest IH]; intros idx w xs Hxs i url Hi.
  - destruct i; discriminate.
  - destruct (loop_pass idx url0 w) as (new1 & Hstep & _).
    rewrite Hstep in Hxs.
    destruct (loop_returns rest (idx + 1)
                (mk_world (trace w ++ new1) (session w) (NUMBER_OF_SEARCHES w)))
      as (xs' & new2 & Hloop & _).
    rewrite Hloop in Hxs. simpl in Hxs. inversion Hxs; subst xs; clear Hxs.
    destruct i as [|j].
    + simpl in Hi. inversion Hi; subst url0.
      simpl. unfold ret. simpl. rewrite Z.add_0_r. reflexivity.
    + simpl in Hi. simpl nth_error. simpl firstn.
      rewrite Hstep, loop_world.
      replace (idx + Z.of_nat (S j)) with (idx + 1 + Z.of_nat j) by lia.
      apply IH; [|exact Hi].
      rewrite Hloop. reflexivity.
Qed.

End Passes.

Lemma length_pos (A : Type) (x : A) (l : list A) :
  0 < Z.of_nat (List.length (x :: l)).
Proof. simpl List.length. lia. Qed.

(** C1: for every list of URLs, of any length, and every behaviour of the
    outside world, [get_competitor_summaries] returns a list with one
    summary per URL; position [i] holds the slot of URL [i], that is, its
    summary when both the fetch and the summarization gave a text, and the
    empty string when either failed or raised. *)
Theorem get_competitor_summaries_aligned (E : Env) (urls : list json) (w : world) :
  exists summaries,
    fst (DataProcessor.get_competitor_summaries E urls w) = Ret summaries
    /\ List.length summaries = List.length urls
    /\ forall (i : nat) (url : json),
         nth_error urls i = Some url ->
         nth_error summaries i
         = Some (summary_slot E (Z.of_nat (List.length urls)) (Z.of_nat i + 1) url
                   (pass_world E urls w i)).
Proof.
  unfold DataProcessor.get_competitor_summaries, pass_world. cbv zeta.
  destruct urls as [|url0 rest].
  - exists []. repeat split. intros i url Hi. destruct i; discriminate.
  - pose proof (length_pos url0 rest) as Hpos.
    destruct (loop_returns E Hpos (url0 :: rest) 1 w) as (xs & new & Hloop & Hlen & _).
    exists xs. rewrite (Hloop []). repeat split; [exact Hlen|].
    intros i url Hi.
    replace (Z.of_nat i + 1) with (1 + Z.of_nat i) by lia.
    apply (loop_positions E Hpos); [|exact Hi].
    rewrite (Hloop []). reflexivity.
Qed.

(** C5: the percentages that [get_competitor_summaries] gives to the
    progress bar, in the order in which it gives them, never decrease and
    lie between 25 and 100; each is the clamped value of the formula at an
    index between 1 and the number of URLs. *)
Theorem progress_monotone_bounded (E : Env) (urls : list json) (w : world) :
  exists new,
    trace (snd (DataProcessor.get_competitor_summaries E urls w))
    = (trace w ++ new)%list
    /\ StronglySorted Z.le (progress_values new)
    /\ Forall (fun p => 25 <= p <= 100) (progress_values new)
    /\ Forall (fun p => exists idx,
                  1 <= idx <= Z.of_nat (List.length urls)
                  /\ DataProcessor.progress_of E (Z.of_nat (List.length urls)) idx
                     = Ret (25 + int (mul_int (fl E)
                                        (rnd (fl E)
                                           (inject_Z 50
                                            / inject_Z (Z.of_nat (List.length urls))))
                                        idx))
                  /\ p = reported E (Z.of_nat (List.length urls)) idx)
         (progress_values new).
Proof.
  unfold DataProcessor.get_competitor_summaries. cbv zeta.
  destruct urls as [|url0 rest].
  - exists []. simpl. rewrite app_nil_r. repeat split; constructor.
  - pose proof (length_pos url0 rest) as Hpos.
    destruct (loop_returns E Hpos (url0 :: rest) 1 w)
      as (xs & new & Hloop & _ & Hall & Hsorted).
    exists new. rewrite (Hloop []). simpl snd. simpl trace.
    repeat split; [exact Hsorted | |].
    + eapply Forall_impl; [|exact Hall].
      intros p (j & Hj & ->). apply reported_bounds; [exact Hpos | lia].
    + eapply Forall_impl; [|exact Hall].
      intros p (j & Hj & ->). exists j.
      split; [lia|]. split; [|reflexivity].
      apply progress_of_total; exact Hpos.
Qed.

(* ================================================================== *)
(** * The run *)
(* ================================================================== *)

Lemma any_nil : any_events [].
Proof. exact I. Qed.

Lemma any_app (a b : list event) : any_events a -> any_events b -> any_events (a ++ b).
Proof. intros _ _. exact I. Qed.

Lemma any_other (e : event) : is_progress e = false -> any_events [e].
Proof. intros _. exact I. Qed.

(** A tidy computation, run on a given trace: its outcome and the events
    it appends are the same in every session. *)
Lemma tidy_run (P : list event -> Prop) (A : Type) (m : M A) (t : list event) :
  tidy P m ->
  exists o new,
    P new /\ forall s n, m (mk_world t s n) = (o, mk_world (t ++ new) s n).
Proof.
  intro Hm.
  destruct (Hm (mk_world t (mk_session EmptyString EmptyString EmptyString NoneValue None) 0))
    as (new & Hnew & Hrun).
  eexists. exists new. split; [exact Hnew|]. exact Hrun.
Qed.

Section TidyRun.

Variable E : Env.

Lemma tidy_summaries_loop (total_urls : Z) (urls : list json) :
  forall idx summaries,
    tidy any_events (DataProcessor.summaries_loop E total_urls idx urls summaries).
Proof.
  induction urls as [|url rest IH]; intros idx summaries; simpl.
  - apply tidy_ret; exact any_nil.
  - apply tidy_bind; [exact any_app | | intro].
    { apply tidy_emit; exact I. }
    apply tidy_bind; [exact any_app | | intro r].
    { apply tidy_process_url;
        [exact any_nil | exact any_app | exact any_other]. }
    destruct (snd r); [apply IH|].
    apply tidy_bind; [exact any_app | apply tidy_lift; exact any_nil | intro].
    apply tidy_bind; [exact any_app | apply tidy_emit; exact I | intro].
    apply IH.
Qed.

Lemma tidy_get_competitor_summaries (urls : list json) :
  tidy any_events (DataProcessor.get_competitor_summaries E urls).
Proof. apply tidy_summaries_loop. Qed.

Lemma tidy_write_urls (urls : list json) : tidy any_events (App.write_urls E urls).
Proof.
  induction urls as [|url rest IH]; simpl.
  - apply tidy_ret; exact any_nil.
  - apply tidy_bind; [exact any_app | apply tidy_emit; exact I | intro; exact IH].
Qed.

Lemma write_urls_returns (urls : list json) (w : world) :
  fst (App.write_urls E urls w) = Ret tt.
Proof.
  revert w. induction urls as [|url rest IH]; intro w; [reflexivity|].
  simpl. unfold bind, st_write, emit. apply IH.
Qed.

Lemma get_competitor_summaries_returns (urls : list json) (w : world) :
  exists summaries, fst (DataProcessor.get_competitor_summaries E urls w) = Ret summaries.
Proof.
  unfold DataProcessor.get_competitor_summaries. cbv zeta.
  destruct urls as [|url0 rest]; [exists []; reflexivity|].
  destruct (loop_returns E (length_pos url0 rest) (url0 :: rest) 1 w)
    as (xs & new & Hloop & _).
  exists xs. rewrite (Hloop []). reflexivity.
Qed.

End TidyRun.

Ltac run_tac :=
  cbv beta iota zeta delta
    [App.run_content_analysis bind get_session get_number_of_searches
     App.status_update emit try_except catch_exception set_result ret
     st_warning st_error trace session NUMBER_OF_SEARCHES user_content keyword
     content_input_option analysis_result result fst snd negb].

(** The outcome of a tidy computation that returns in every world. *)
Lemma tidy_run_returns (A : Type) (m : M A) (t : list event) (o : outcome A)
    (new : list event) :
  (forall s n, m (mk_world t s n) = (o, mk_world (t ++ new) s n)) ->
  (forall w, exists a, fst (m w) = Ret a) ->
  exists a, o = Ret a.
Proof.
  intros Hrun Hret.
  pose (s0 := mk_session EmptyString EmptyString EmptyString NoneValue None).
  destruct (Hret (mk_world t s0 0)) as [a Ha].
  rewrite (Hrun s0 0) in Ha. exists a. exact Ha.
Qed.

(** C9, as stated, fails: a run that ends early leaves the result of an
    earlier run where it was, be it for an empty content, for a search
    without URLs, or for an error raised by the search. *)
Lemma run_keeps_prior_result :
  result (session (snd (App.run_content_analysis Demo.env
                          (Demo.stale_world EmptyString "best laptops 2024"))))
  = Demo.stale
  /\ result (session (snd (App.run_content_analysis Demo.env
                             (Demo.stale_world "My draft." "   "))))
     = Demo.stale
  /\ result (session (snd (App.run_content_analysis Demo.list_body_env
                             (Demo.stale_world "My draft." "best laptops 2024"))))
     = Demo.stale.
Proof. repeat split; vm_compute; reflexivity. Qed.

(** C9, amended: a run returns without raising.  When it gets as far as
    the analysis (there is a content and the search gives at least one
    URL) and the analyzer returns, the stored result becomes the value it
    returned for the content, the keyword and the summaries, whatever was
    stored before.  When the analyzer raises there, the run shows the
    error, sets the status "Analysis Failed" and leaves the session as it
    was; and when the run ends earlier, the session, and with it the stored
    result, is left as it was. *)
Theorem run_content_analysis_result (E : Env) (w : world) :
  fst (App.run_content_analysis E w) = Ret tt
  /\ (reaches_analysis E w = false ->
      session (snd (App.run_content_analysis E w)) = session w)
  /\ (reaches_analysis E w = true ->
      exists urls summaries w1 w2,
        fst (APIClient.fetch_top_urls E (keyword (session w))
               (NUMBER_OF_SEARCHES w) (fetch_world w)) = Ret urls
        /\ fst (DataProcessor.get_competitor_summaries E urls w1) = Ret summaries
        /\ match fst (APIClient.analyze_content_with_openai E
                        (user_content (session w)) (keyword (session w))
                        summaries w2) with
           | Ret v =>
               forall prior,
                 result (session (snd (App.run_content_analysis E
                                         (with_result w prior))))
                 = Some v
           | Raise e =>
               forall prior,
               exists new,
                 snd (App.run_content_analysis E (with_result w prior))
                 = mk_world
                     (trace w ++ new
                      ++ [Ui StError ("An unexpected error occurred: " ++ exn_str e);
                          StatusUpdate "Analysis Failed" "error"])
                     (session (with_result w prior)) (NUMBER_OF_SEARCHES w)
           end).
Proof.
  destruct w as [t [uc kw opt ar res] n].
  unfold reaches_analysis, fetch_world, with_result.
  cbn [trace session NUMBER_OF_SEARCHES user_content keyword content_input_option
       analysis_result result].
  destruct (str_truthy uc) eqn:Hc.
  2:{ run_tac. rewrite Hc. run_tac.
      split; [reflexivity|]. split; [reflexivity | discriminate]. }
  destruct (@tidy_run any_events _ (APIClient.fetch_top_urls E kw n)
              ((t ++ [StatusUpdate "Running Content Analysis" "running"])
               ++ [StatusUpdate "Fetching Top URLs" "running"])%list
              (@tidy_fetch_top_urls any_events any_nil any_app any_other E kw n))
    as (oF & newF & _ & HF).
  rewrite HF. cbn [fst andb].
  destruct oF as [[|u us]|e].
  - run_tac. rewrite Hc. run_tac. rewrite HF. run_tac.
    split; [reflexivity|]. split; [reflexivity | discriminate].
  - set (T1 := (((t ++ [StatusUpdate "Running Content Analysis" "running"])
                  ++ [StatusUpdate "Fetching Top URLs" "running"]) ++ newF)%list) in *.
    destruct (@tidy_run any_events _ (App.write_urls E (u :: us)) T1
                (tidy_write_urls E (u :: us))) as (oW & newW & _ & HW).
    destruct (@tidy_run_returns _ _ _ _ _ HW
                (fun w0 => ex_intro _ tt (write_urls_returns E (u :: us) w0)))
      as [[] ->].
    set (T2 := (((T1 ++ newW) ++ [StatusUpdate "Analyzing Competitor Content" "running"])
                ++ [ProgressSet 0])%list) in *.
    destruct (@tidy_run any_events _ (DataProcessor.get_competitor_summaries E (u :: us))
                T2 (tidy_get_competitor_summaries E (u :: us)))
      as (oS & newS & _ & HS).
    destruct (@tidy_run_returns _ _ _ _ _ HS
                (get_competitor_summaries_returns E (u :: us)))
      as [summaries ->].
    set (T3 := ((T2 ++ newS)
                ++ [StatusUpdate "Generating Optimization Suggestions" "running"])%list)
      in *.
    destruct (@tidy_run any_events _
                (APIClient.analyze_content_with_openai E uc kw summaries) T3
                (@tidy_analyze any_events any_nil any_app any_other E uc kw summaries))
      as (oA & newA & _ & HA).
    assert (Hrun : forall prior,
      App.run_content_analysis E
        (mk_world t (mk_session uc kw opt ar prior) n)
      = (Ret tt,
         match oA with
         | Ret v =>
             mk_world ((T3 ++ newA) ++ [StatusUpdate "Analysis Complete" "complete"])
               (mk_session uc kw opt ar (Some v)) n
         | Raise e =>
             mk_world
               (((T3 ++ newA)
                 ++ [Ui StError ("An unexpected error occurred: " ++ exn_str e)])
                ++ [StatusUpdate "Analysis Failed" "error"])
               (mk_session uc kw opt ar prior) n
         end)).
    { intro prior. run_tac. rewrite Hc. run_tac. rewrite HF. run_tac.
      rewrite HW. run_tac. fold T2. rewrite HS. run_tac. fold T3. rewrite HA.
      destruct oA as [v|e]; run_tac; reflexivity. }
    split; [rewrite Hrun; reflexivity|].
    split; [discriminate|]. intros _.
    exists (u :: us), summaries.
    pose (s0 := mk_session uc kw opt ar res).
    exists (mk_world T2 s0 n), (mk_world T3 s0 n).
    rewrite HS, HA. cbn [fst].
    split; [reflexivity|]. split; [reflexivity|].
    destruct oA as [v|e]; intro prior; rewrite Hrun.
    + reflexivity.
    + cbn [snd]. unfold T3, T2, T1.
      exists ([StatusUpdate "Running Content Analysis" "running"]
              ++ [StatusUpdate "Fetching Top URLs" "running"] ++ newF ++ newW
              ++ [StatusUpdate "Analyzing Competitor Content" "running"]
              ++ [ProgressSet 0] ++ newS
              ++ [StatusUpdate "Generating Optimization Suggestions" "running"]
              ++ newA)%list.
      rewrite <- !app_assoc. reflexivity.
  - run_tac. rewrite Hc. run_tac. rewrite HF. run_tac.
    split; [reflexivity|]. split; [reflexivity | discriminate].
Qed.

(* ================================================================== *)
(** * The progress formula on the range of the slider *)
(* ================================================================== *)

Lemma in_upto (n : nat) (k : Z) :
  In k (Binary64.upto n) <-> 1 <= k <= Z.of_nat n.
Proof.
  unfold Binary64.upto. rewrite in_map_iff. split.
  - intros (i & <- & Hi). apply in_seq in Hi. lia.
  - intro Hk. exists (Z.to_nat (k - 1)). split; [lia|].
    apply in_seq. lia.
Qed.

Lemma binary64_agrees_upto_50 : Binary64.agrees_upto 50 = true.
Proof. vm_compute. reflexivity. Qed.

(** With 97 URLs the last percentage computed in binary64 is 74, where
    exact arithmetic gives 75: the product of the rounded quotient with 97
    falls just below 50. *)
Example binary64_differs_at_97 :
  Binary64.progress 97 97 = 74 /\ reported Demo.env 97 97 = 75.
Proof. split; vm_compute; reflexivity. Qed.

(** For up to 50 URLs, which is what the slider of the sidebar allows, the
    percentages computed in binary64 are those of exact arithmetic; they
    never decrease along the loop and lie between 25 and 100. *)
Theorem binary64_progress_on_slider_range (total_urls i j : Z) :
  1 <= i -> i <= j -> j <= total_urls -> total_urls <= 50 ->
  Z.min (Binary64.progress total_urls i) 100 = reported Demo.env total_urls i
  /\ 25 <= Z.min (Binary64.progress total_urls i) 100
  /\ Z.min (Binary64.progress total_urls i) 100
     <= Z.min (Binary64.progress total_urls j) 100
  /\ Z.min (Binary64.progress total_urls j) 100 <= 100.
Proof.
  intros Hi Hij Hj Ht.
  assert (Hagree : forall k, 1 <= k <= total_urls ->
            Z.min (Binary64.progress total_urls k) 100
            = reported Demo.env total_urls k).
  { intros k Hk.
    pose proof binary64_agrees_upto_50 as H. unfold Binary64.agrees_upto in H.
    rewrite forallb_forall in H.
    specialize (H total_urls (proj2 (in_upto 50 total_urls) ltac:(simpl; lia))).
    rewrite forallb_forall in H.
    specialize (H k (proj2 (in_upto 50 k) ltac:(simpl; lia))).
    apply orb_true_iff in H. destruct H as [H|H].
    - apply negb_true_iff, Z.leb_gt in H. lia.
    - apply Z.eqb_eq in H. exact H. }
  assert (Hpos : 0 < total_urls) by lia.
  rewrite (Hagree i) by lia. rewrite (Hagree j) by lia.
  pose proof (@reported_bounds Demo.env total_urls Hpos i ltac:(lia)).
  pose proof (@reported_bounds Demo.env total_urls Hpos j ltac:(lia)).
  pose proof (@reported_mono Demo.env total_urls Hpos i j Hij).
  repeat split; lia.
Qed.

(** The statement at 3 URLs, between the second pass and the third. *)
Lemma binary64_progress_on_slider_range_witness :
  Z.min (Binary64.progress 3 2) 100 = reported Demo.env 3 2
  /\ 25 <= Z.min (Binary64.progress 3 2) 100
  /\ Z.min (Binary64.progress 3 2) 100 <= Z.min (Binary64.progress 3 3) 100
  /\ Z.min (Binary64.progress 3 3) 100 <= 100.
Proof.
  apply (@binary64_progress_on_slider_range 3 2 3); lia.
Defined.

(* ================================================================== *)
(** * Requests of the client functions *)
(* ================================================================== *)

Lemma gets_app (a b : list event) : gets (a ++ b) = (gets a + gets b)%nat.
Proof. unfold gets. rewrite filter_app, length_app. reflexivity. Qed.

Lemma chats_app (a b : list event) : chats (a ++ b) = (chats a + chats b)%nat.
Proof. unfold chats. rewrite filter_app, length_app. reflexivity. Qed.

(** Closes a goal [exists new, trace = old ++ first :: new /\ ...] at a leaf
    of a computation that has been unfolded. *)
Ltac leaf_tac :=
  simpl; eexists; split;
  [ rewrite <- ?app_assoc; simpl; reflexivity | try reflexivity ].



Lemma url_comprehension_truthy (items : list json) :
  forall l,
    APIClient.url_comprehension items = Ret l ->
    Forall (fun u => truthy u = true) l.
Proof.
  induction items as [|item rest IH]; intros l Hl; simpl in Hl.
  - inversion Hl. constructor.
  - destruct item as [| | | | |d]; simpl in Hl; try discriminate.
    destruct (lookup "url" d) as [u|] eqn:Hu; simpl in Hl.
    + destruct (truthy u) eqn:Ht.
      * destruct (APIClient.url_comprehension rest) as [l'|e]; [|discriminate].
        inversion Hl; subst. constructor; [exact Ht | apply IH; reflexivity].
      * apply IH; exact Hl.
    + apply IH; exact Hl.
Qed.

(** X3: whatever the keyword and whatever the ranking API answers, a list
    returned by [fetch_top_urls] holds true values only (no empty string,
    no [None]), and an exception that leaves the function is never a
    [RequestException]. *)
Theorem fetch_top_urls_values
    (E : Env) (keyword : string) (num_searches : Z) (w : world) :
  match fst (APIClient.fetch_top_urls E keyword num_searches w) with
  | Ret urls => Forall (fun u => truthy u = true) urls
  | Raise e => is_request_exception e = false
  end.
Proof.
  unfold APIClient.fetch_top_urls.
  destruct (negb (str_truthy (strip keyword))); [simpl; constructor|].
  unfold try_except, bind, http_get, raise_for_status, catch_request_exception, lift.
  cbv beta.
  destruct (requests_get E (trace w) (AHREFS_API_URL E) _ _ 10) as [r|e].
  - destruct (http_error_msg r) as [msg|]; [simpl; constructor|].
    simpl. destruct (resp_json r) as [body|e]; simpl.
    + destruct (get body "positions") as [p|e]; simpl.
      * destruct (truthy p); simpl; [|constructor].
        destruct (getitem body "positions") as [ps|e]; simpl.
        -- destruct (iter ps) as [items|e]; simpl.
           ++ destruct (APIClient.url_comprehension items) as [urls|e] eqn:Hc; simpl.
              ** apply (url_comprehension_truthy items); exact Hc.
              ** destruct (is_request_exception e) eqn:He; simpl;
                   [constructor | exact He].
           ++ destruct (is_request_exception e) eqn:He; simpl;
                [constructor | exact He].
        -- destruct (is_request_exception e) eqn:He; simpl;
             [constructor | exact He].
      * destruct (is_request_exception e) eqn:He; simpl; [constructor | exact He].
    + destruct (is_request_exception e) eqn:He; simpl; [constructor | exact He].
  - destruct (is_request_exception e) eqn:He; simpl; [constructor | exact He].
Qed.

(** X4: for a URL that is empty or only whitespace [fetch_webpage_content]
    returns [None]; all it does is to log one warning, so it makes no
    network call. *)
Theorem fetch_webpage_content_blank_url (E : Env) (url : string) (w : world) :
  strip url = EmptyString ->
  APIClient.fetch_webpage_content E (JStr url) w
  = (Ret None,
     mk_world (trace w ++ [Logged LogWarning "No URL provided."])
       (session w) (NUMBER_OF_SEARCHES w)).
Proof.
  intro Hblank.
  unfold APIClient.fetch_webpage_content, APIClient.fetch_webpage_content_str.
  rewrite blank_test, Hblank. reflexivity.
Qed.

(** The statement at a URL made of a tab and a space. *)
Lemma fetch_webpage_content_blank_url_witness :
  APIClient.fetch_webpage_content Demo.env
    (JStr (String (ascii_of_nat 9) " ")) Demo.world0
  = (Ret None,
     mk_world (trace Demo.world0 ++ [Logged LogWarning "No URL provided."])
       (session Demo.world0) (NUMBER_OF_SEARCHES Demo.world0)).
Proof.
  apply (@fetch_webpage_content_blank_url Demo.env
           (String (ascii_of_nat 9) " ") Demo.world0).
  reflexivity.
Defined.

(** X5: for a non-blank URL [fetch_webpage_content] makes exactly one
    network call, the GET of the URL with the browser's user agent and a
    timeout of 15.  An exception that leaves it is never a
    [RequestException]: it is the one that [requests.get] raised, or the
    one that the parser, the removal of the tags or the converter raised on
    the page.  A text it returns is the output of the converter on the body
    without the removed tags, as it is: the stripping is for the length
    test only. *)
Theorem fetch_webpage_content_one_request (E : Env) (url : string) (w : world) :
  str_truthy (strip url) = true ->
  let answer :=
    requests_get E (trace w) url [("User-Agent", APIClient.user_agent)] [] 15 in
  let run := APIClient.fetch_webpage_content E (JStr url) w in
  (exists new,
      trace (snd run)
      = (trace w ++ HttpGet url [("User-Agent", APIClient.user_agent)] [] 15 :: new)%list
      /\ network_calls new = [])
  /\ (forall e,
        fst run = Raise e ->
        is_request_exception e = false
        /\ (answer = Raise e
            \/ exists r,
                 answer = Ret r /\ http_error_msg r = None
                 /\ cleaned_text E (text r) = Raise e))
  /\ (forall t,
        fst run = Ret (Some t) ->
        exists r,
          answer = Ret r /\ http_error_msg r = None
          /\ cleaned_text E (text r) = Ret (Some t)).
Proof.
  intro Hurl. cbv zeta.
  unfold APIClient.fetch_webpage_content, APIClient.fetch_webpage_content_str.
  rewrite blank_test, Hurl. change (negb true) with false. cbv iota.
  unfold try_except, bind, http_get, raise_for_status, catch_request_exception, lift.
  cbv beta. unfold cleaned_text.
  destruct (requests_get E (trace w) url [("User-Agent", APIClient.user_agent)] [] 15)
    as [r|e] eqn:Ha.
  - destruct (http_error_msg r) as [msg|] eqn:Hs; simpl.
    { split; [leaf_tac|]. split; intros; discriminate. }
    destruct (soup_body E (text r)) as [[body|]|e] eqn:Hbody; simpl.
    + destruct (decompose_tags E APIClient.removed_tags body) as [cleaned|e]
        eqn:Hclean; simpl.
      * destruct (html2text_handle E cleaned) as [text_content|e] eqn:Htext; simpl.
        -- destruct (len (strip text_content) <? 200); simpl.
           ++ split; [leaf_tac|]. split; intros; discriminate.
           ++ split; [leaf_tac|]. split; intros; [discriminate|].
              exists r. rewrite Hbody, Hclean, Htext. cases_tac.
        -- destruct (is_request_exception e) eqn:He; simpl.
           ++ split; [leaf_tac|]. split; intros; discriminate.
           ++ split; [leaf_tac|]. split; intros; [|discriminate].
              split; [cases_tac|]. right. exists r.
              rewrite Hbody, Hclean, Htext. cases_tac.
      * destruct (is_request_exception e) eqn:He; simpl.
        -- split; [leaf_tac|]. split; intros; discriminate.
        -- split; [leaf_tac|]. split; intros; [|discriminate].
           split; [cases_tac|]. right. exists r.
           rewrite Hbody, Hclean. cases_tac.
    + split; [leaf_tac|]. split; intros; discriminate.
    + destruct (is_request_exception e) eqn:He; simpl.
      * split; [leaf_tac|]. split; intros; discriminate.
      * split; [leaf_tac|]. split; intros; [|discriminate].
        split; [cases_tac|]. right. exists r. rewrite Hbody. cases_tac.
  - destruct (is_request_exception e) eqn:He; simpl.
    + split; [leaf_tac|]. split; intros; discriminate.
    + split; [leaf_tac|]. split; intros; [|discriminate].
      split; [cases_tac|]. left. cases_tac.
Qed.

(** The statement at the page of the example that can be fetched. *)
Lemma fetch_webpage_content_one_request_witness :
  exists new,
    trace (snd (APIClient.fetch_webpage_content Demo.env
                  (JStr "https://a.test/laptops") Demo.world0))
    = (trace Demo.world0
       ++ HttpGet "https://a.test/laptops"
            [("User-Agent", APIClient.user_agent)] [] 15 :: new)%list
    /\ network_calls new = [].
Proof.
  exact (proj1 (@fetch_webpage_content_one_request Demo.env
                  "https://a.test/laptops" Demo.world0 eq_refl)).
Defined.

(** X6: for a text that is empty or only whitespace
    [summarize_content_with_openai] returns [None] and leaves the world as
    it was: no request and no log line. *)
Theorem summarize_blank_text (E : Env) (text : string) (w : world) :
  strip text = EmptyString ->
  APIClient.summarize_content_with_openai E text w = (Ret None, w).
Proof.
  intro Hblank. unfold APIClient.summarize_content_with_openai.
  rewrite blank_test, Hblank. reflexivity.
Qed.

(** The statement at a text of one newline. *)
Lemma summarize_blank_text_witness :
  APIClient.summarize_content_with_openai Demo.env nl Demo.world0
  = (Ret None, Demo.world0).
Proof.
  apply (@summarize_blank_text Demo.env nl Demo.world0). reflexivity.
Defined.

(* ================================================================== *)
(** * Stripping twice *)
(* ================================================================== *)

Lemma rstrip_idempotent (s : string) : rstrip (rstrip s) = rstrip s.
Proof.
  induction s as [|c r IH]; [reflexivity|].
  simpl. destruct (rstrip r) as [|d r'] eqn:Hr.
  - destruct (is_space c) eqn:Hc; [reflexivity|].
    simpl. rewrite Hc. reflexivity.
  - change (rstrip (String c (String d r')))
      with (match rstrip (String d r') with
            | EmptyString => if is_space c then EmptyString else String c EmptyString
            | String x y => String c (String x y)
            end).
    rewrite IH. reflexivity.
Qed.

Lemma lstrip_starts_clean (s : string) : starts_clean (lstrip s).
Proof.
  induction s as [|c r IH]; simpl; [exact I|].
  destruct (is_space c) eqn:Hc; [exact IH | exact Hc].
Qed.

Lemma lstrip_rstrip_clean (s : string) :
  starts_clean s -> lstrip (rstrip s) = rstrip s.
Proof.
  destruct s as [|c r]; [reflexivity|].
  simpl. intro Hc. rewrite Hc.
  destruct (rstrip r); simpl; rewrite Hc; reflexivity.
Qed.

(** [s.strip().strip() == s.strip()] *)
Lemma strip_idempotent (s : string) : strip (strip s) = strip s.
Proof.
  unfold strip.
  rewrite (@lstrip_rstrip_clean (lstrip s) (lstrip_starts_clean s)).
  apply rstrip_idempotent.
Qed.

(** X7: for a non-blank text, once the client is built,
    [summarize_content_with_openai] makes exactly one network call, a
    completion request that is not streamed, capped at 300 tokens; its user
    message begins with the system instruction, which is so sent twice, and
    embeds the text.  When the constructor of the client raises, the
    exception leaves the function and no request is made. *)
Theorem summarize_one_request (E : Env) (text : string) (w : world) :
  str_truthy (strip text) = true ->
  let request := APIClient.summary_request text in
  let run := APIClient.summarize_content_with_openai E text w in
  match openai_client E (trace w) (OPENAI_API_KEY E) with
  | Ret _ =>
      exists new,
        trace (snd run) = (trace w ++ ChatCreate request :: new)%list
        /\ network_calls new = []
  | Raise e => run = (Raise e, w)
  end
  /\ stream request = false
  /\ max_tokens request = 300
  /\ exists user_message,
       messages request
       = [mk_message "system" APIClient.summary_system_prompt;
          mk_message "user" user_message]
       /\ String.prefix APIClient.summary_system_prompt user_message = true
       /\ contains text user_message = true.
Proof.
  intro Htext. cbv zeta.
  split; [|split; [reflexivity|split; [reflexivity|]]].
  - unfold APIClient.summarize_content_with_openai.
    rewrite blank_test, Htext. change (negb true) with false. cbv iota zeta.
    unfold try_except, bind, new_client, chat_create, catch_exception. cbv beta.
    destruct (openai_client E (trace w) (OPENAI_API_KEY E)) as [client|e0];
      [|reflexivity].
    destruct (chat_completions_create E (trace w) _ _) as [r|e].
    + destruct r as [[|[c|] choices]|chunks|]; leaf_tac.
    + leaf_tac.
  - exists (APIClient.summary_prompt text).
    split; [reflexivity|]. split.
    + unfold APIClient.summary_prompt. apply prefix_app.
    + unfold APIClient.summary_prompt.
      apply contains_middle with
        (a := APIClient.summary_system_prompt ++ nl ++ nl
              ++ "Content to summarize:" ++ nl)
        (b := nl ++ nl).
      rewrite !str_app_assoc. reflexivity.
Qed.

(** The statement at the text of the example page. *)
Lemma summarize_one_request_witness :
  exists new,
    trace (snd (APIClient.summarize_content_with_openai Demo.env Demo.page_text
                  Demo.world0))
    = (trace Demo.world0
       ++ ChatCreate (APIClient.summary_request Demo.page_text) :: new)%list
    /\ network_calls new = [].
Proof.
  exact (proj1 (@summarize_one_request Demo.env Demo.page_text Demo.world0 eq_refl)).
Defined.

Lemma summarize_trimmed (E : Env) (text : string) (w : world) (summary : string) :
  fst (APIClient.summarize_content_with_openai E text w) = Ret (Some summary) ->
  strip summary = summary.
Proof.
  unfold APIClient.summarize_content_with_openai.
  destruct (negb (str_truthy text) || negb (str_truthy (strip text)));
    [discriminate|].
  cbv zeta. unfold try_except, bind, new_client, chat_create, catch_exception.
  cbv beta.
  destruct (openai_client E (trace w) (OPENAI_API_KEY E)) as [client|e0];
    [|discriminate].
  destruct (chat_completions_create E (trace w) _ _) as [r|e]; simpl;
    [|discriminate].
  destruct r as [[|[c|] choices]|chunks|]; simpl; try discriminate.
  intro H. inversion H. apply strip_idempotent.
Qed.

(** X8: a summary returned by [summarize_content_with_openai] has no
    whitespace at either end: stripping it again changes nothing.  It may
    be the empty string, when the model answers with whitespace only. *)
Theorem summarize_result_trimmed (E : Env) (text : string) (w : world) :
  match fst (APIClient.summarize_content_with_openai E text w) with
  | Ret (Some summary) => strip summary = summary
  | _ => True
  end.
Proof.
  destruct (fst (APIClient.summarize_content_with_openai E text w))
    as [[summary|]|e] eqn:Hrun; try exact I.
  apply (summarize_trimmed E text w). exact Hrun.
Qed.

(** A model that answers with whitespace only gives the empty summary. *)
Example summarize_whitespace_answer :
  fst (APIClient.summarize_content_with_openai
         (mk_env Demo.requests_get
            (fun _ _ _ => Ret (ChatCompletion [Some "   "]))
            Demo.openai_client Demo.soup_body Demo.decompose_tags
            Demo.html2text_handle (fun _ => "<value>")
            Demo.exact Demo.api_url "token" "key")
         Demo.page_text Demo.world0)
  = Ret (Some EmptyString).
Proof. vm_compute. reflexivity. Qed.

(* ================================================================== *)
(** * Requests of the summary loop *)
(* ================================================================== *)

(** What [fetch_webpage_content] does to the world: at most one GET, no
    request to the language model, no progress update; and a text is
    returned only after a GET. *)
Lemma fetch_webpage_content_effect (E : Env) (url : json) (w : world) :
  exists new,
    APIClient.fetch_webpage_content E url w
    = (fst (APIClient.fetch_webpage_content E url w),
       mk_world (trace w ++ new) (session w) (NUMBER_OF_SEARCHES w))
    /\ chats new = 0%nat
    /\ (gets new <= 1)%nat
    /\ progress_values new = []
    /\ (forall c, fst (APIClient.fetch_webpage_content E url w) = Ret (Some c) ->
                  gets new = 1%nat).
Proof.
  assert (Hstay : forall o : outcome (option string),
            (forall c, o <> Ret (Some c)) ->
            exists new,
              (o, w) = (o, mk_world (trace w ++ new) (session w) (NUMBER_OF_SEARCHES w))
              /\ chats new = 0%nat /\ (gets new <= 1)%nat /\ progress_values new = []
              /\ (forall c, o = Ret (Some c) -> gets new = 1%nat)).
  { intros o Ho. exists []. rewrite app_nil_r, world_eta.
    repeat split; auto. intros c Hc. elim (Ho c Hc). }
  assert (Hwarn : forall msg,
            exists new,
              (Ret (@None string),
               mk_world (trace w ++ [Logged LogWarning msg]) (session w)
                 (NUMBER_OF_SEARCHES w))
              = (Ret None,
                 mk_world (trace w ++ new) (session w) (NUMBER_OF_SEARCHES w))
              /\ chats new = 0%nat /\ (gets new <= 1)%nat /\ progress_values new = []
              /\ (forall c, Ret (@None string) = Ret (Some c) -> gets new = 1%nat)).
  { intro msg. exists [Logged LogWarning msg]. repeat split; auto; discriminate. }
  unfold APIClient.fetch_webpage_content.
  destruct url as [|b|q|u|l|d];
    try (destruct (negb (truthy _)); [apply Hwarn | apply Hstay; discriminate]).
  unfold APIClient.fetch_webpage_content_str.
  destruct (negb (str_truthy u) || negb (str_truthy (strip u))); [apply Hwarn|].
  unfold try_except, bind, http_get, raise_for_status, catch_request_exception, lift.
  cbv beta.
  assert (Hcaught : forall (o : outcome (option string)) (msg : string),
            (forall c, o <> Ret (Some c)) ->
            exists new,
              (o, mk_world
                    ((trace w ++ [HttpGet u [("User-Agent", APIClient.user_agent)] [] 15])
                     ++ [Logged LogError msg])
                    (session w) (NUMBER_OF_SEARCHES w))
              = (o, mk_world (trace w ++ new) (session w) (NUMBER_OF_SEARCHES w))
              /\ chats new = 0%nat /\ (gets new <= 1)%nat /\ progress_values new = []
              /\ (forall c, o = Ret (Some c) -> gets new = 1%nat)).
  { intros o msg Ho. eexists. split; [rewrite <- app_assoc; reflexivity|].
    repeat split; auto. }
  assert (Hpassed : forall o : outcome (option string),
            exists new,
              (o, mk_world
                    (trace w ++ [HttpGet u [("User-Agent", APIClient.user_agent)] [] 15])
                    (session w) (NUMBER_OF_SEARCHES w))
              = (o, mk_world (trace w ++ new) (session w) (NUMBER_OF_SEARCHES w))
              /\ chats new = 0%nat /\ (gets new <= 1)%nat /\ progress_values new = []
              /\ (forall c, o = Ret (Some c) -> gets new = 1%nat)).
  { intro o. exists [HttpGet u [("User-Agent", APIClient.user_agent)] [] 15].
    repeat split; auto. }
  destruct (requests_get E (trace w) u _ [] 15) as [r|e].
  - destruct (http_error_msg r) as [msg|]; simpl.
    { apply Hcaught. discriminate. }
    destruct (soup_body E (text r)) as [[body|]|e]; simpl.
    + destruct (decompose_tags E APIClient.removed_tags body) as [cleaned|e]; simpl.
      * destruct (html2text_handle E cleaned) as [text_content|e]; simpl.
        -- destruct (len (strip text_content) <? 200); simpl.
           ++ eexists. split; [rewrite <- !app_assoc; reflexivity|].
              repeat split; auto; discriminate.
           ++ apply Hpassed.
        -- destruct (is_request_exception e); simpl;
             [apply Hcaught; discriminate | apply Hpassed].
      * destruct (is_request_exception e); simpl;
          [apply Hcaught; discriminate | apply Hpassed].
    + eexists. split; [rewrite <- !app_assoc; reflexivity|].
      repeat split; auto; discriminate.
    + destruct (is_request_exception e); simpl;
        [apply Hcaught; discriminate | apply Hpassed].
  - destruct (is_request_exception e); simpl;
      [apply Hcaught; discriminate | apply Hpassed].
Qed.

(** What [summarize_content_with_openai] does to the world: at most one
    request to the language model, no GET, no progress update. *)
Lemma summarize_effect (E : Env) (text : string) (w : world) :
  exists new,
    APIClient.summarize_content_with_openai E text w
    = (fst (APIClient.summarize_content_with_openai E text w),
       mk_world (trace w ++ new) (session w) (NUMBER_OF_SEARCHES w))
    /\ gets new = 0%nat
    /\ (chats new <= 1)%nat
    /\ progress_values new = [].
Proof.
  unfold APIClient.summarize_content_with_openai.
  destruct (negb (str_truthy text) || negb (str_truthy (strip text))).
  { exists []. rewrite app_nil_r, world_eta. repeat split; auto. }
  cbv zeta. unfold try_except, bind, new_client, chat_create, catch_exception.
  cbv beta.
  destruct (openai_client E (trace w) (OPENAI_API_KEY E)) as [client|e0].
  2:{ exists []. simpl. rewrite app_nil_r, world_eta. repeat split; auto. }
  destruct (chat_completions_create E (trace w) _ _) as [r|e]; simpl.
  - destruct r as [[|[c|] choices]|chunks|]; simpl;
      eexists; (split; [rewrite <- ?app_assoc; reflexivity|]);
      repeat split; auto.
  - eexists. split; [rewrite <- ?app_assoc; reflexivity|]. repeat split; auto.
Qed.

(** Closes the goals on the numbers of requests among events that are
    spelled out. *)
Ltac count_tac :=
  unfold gets, chats in *;
  repeat (simpl; rewrite ?filter_app, ?length_app, ?progress_values_app);
  simpl;
  repeat match goal with H : progress_values _ = [] |- _ => rewrite H end;
  simpl;
  repeat split; try reflexivity; try lia.

(** One pass makes at most one GET, and asks the language model at most
    once, and only after a GET; it does not touch the progress bar. *)
Lemma process_url_calls (E : Env) (idx : Z) (url : json) (w : world) :
  exists new,
    snd (DataProcessor.process_url E idx url [] w)
    = mk_world (trace w ++ new) (session w) (NUMBER_OF_SEARCHES w)
    /\ (chats new <= gets new)%nat
    /\ (gets new <= 1)%nat
    /\ progress_values new = [].
Proof.
  unfold DataProcessor.process_url, try_except.
  unfold bind at 1. unfold st_info at 1, emit at 1. cbv beta iota.
  unfold bind at 1.
  destruct (fetch_webpage_content_effect E url
              (mk_world
                 (trace w ++ [Ui StInfo ("Fetching content from URL "
                                         ++ str_of_int idx ++ "...")])
                 (session w) (NUMBER_OF_SEARCHES w)))
    as (newF & HF & HFc & HFg & HFp & HFone).
  simpl trace in HF. simpl session in HF. simpl NUMBER_OF_SEARCHES in HF.
  rewrite HF. clear HF.
  destruct (fst (APIClient.fetch_webpage_content E url _)) as [[[|c0 c]|]|e].
  - unfold bind, st_warning, emit, ret. simpl.
    eexists. split; [rewrite <- !app_assoc; reflexivity|]. count_tac.
  - specialize (HFone (String c0 c) eq_refl).
    unfold bind at 1. unfold st_info at 1, emit at 1. cbv beta iota.
    simpl trace. simpl session. simpl NUMBER_OF_SEARCHES.
    unfold bind at 1.
    match goal with
    | |- context [APIClient.summarize_content_with_openai E ?t ?W] =>
        destruct (summarize_effect E t W) as (newS & HS & HSg & HSc & HSp)
    end.
    simpl trace in HS. simpl session in HS. simpl NUMBER_OF_SEARCHES in HS.
    rewrite HS. clear HS.
    destruct (fst (APIClient.summarize_content_with_openai E _ _))
      as [[[|s0 s]|]|e];
      unfold bind, st_warning, st_success, st_write, st_error, emit, ret,
        catch_exception; simpl;
      (eexists; split; [rewrite <- !app_assoc; reflexivity|]); count_tac.
  - unfold bind, st_warning, emit, ret. simpl.
    eexists. split; [rewrite <- !app_assoc; reflexivity|]. count_tac.
  - unfold bind, st_error, emit, ret, catch_exception. simpl.
    eexists. split; [rewrite <- !app_assoc; reflexivity|]. count_tac.
Qed.

Section LoopCalls.

Variable E : Env.
Variable total_urls : Z.
Hypothesis total_pos : 0 < total_urls.

(** The loop makes at most one GET per URL, asks the language model only
    for pages it has fetched, and updates the progress bar at most once per
    URL. *)
Lemma loop_calls (urls : list json) :
  forall (idx : Z) (summaries : list string) (w : world),
  exists new,
    snd (DataProcessor.summaries_loop E total_urls idx urls summaries w)
    = mk_world (trace w ++ new) (session w) (NUMBER_OF_SEARCHES w)
    /\ (chats new <= gets new)%nat
    /\ (gets new <= List.length urls)%nat
    /\ (List.length (progress_values new) <= List.length urls)%nat.
Proof.
  induction urls as [|url rest IH]; intros idx summaries w.
  - exists []. simpl. rewrite app_nil_r, world_eta. repeat split; auto.
  - rewrite (summaries_loop_step E total_pos). cbv zeta.
    destruct (process_url_slot E total_urls idx url w) as [f Hf]. cbv zeta in Hf.
    rewrite Hf.
    destruct (process_url_calls E idx url
                (snd (st_write (processing_msg E total_urls idx url) w)))
      as (newP & HP & HPc & HPg & HPp).
    rewrite HP. unfold st_write, emit. simpl trace. simpl session.
    simpl NUMBER_OF_SEARCHES.
    destruct f.
    + match goal with
      | |- context [DataProcessor.summaries_loop E total_urls (idx + 1) rest ?a ?W] =>
          destruct (IH (idx + 1) a W) as (new2 & H2 & H2c & H2g & H2p)
      end.
      rewrite H2. simpl trace. simpl session. simpl NUMBER_OF_SEARCHES.
      eexists. split; [rewrite <- !app_assoc; reflexivity|].
      simpl List.length. count_tac.
    + simpl snd.
      match goal with
      | |- context [DataProcessor.summaries_loop E total_urls (idx + 1) rest ?a ?W] =>
          destruct (IH (idx + 1) a W) as (new2 & H2 & H2c & H2g & H2p)
      end.
      rewrite H2. simpl trace. simpl session. simpl NUMBER_OF_SEARCHES.
      eexists. split; [rewrite <- !app_assoc; reflexivity|].
      simpl List.length. count_tac.
Qed.

End LoopCalls.

(** X9: [get_competitor_summaries] makes at most one GET per URL and never
    retries; it asks the language model at most once per page it has
    fetched, so never more often than it has made GETs; and it updates the
    progress bar at most once per URL. *)
Theorem get_competitor_summaries_calls (E : Env) (urls : list json) (w : world) :
  exists new,
    trace (snd (DataProcessor.get_competitor_summaries E urls w))
    = (trace w ++ new)%list
    /\ (chats new <= gets new)%nat
    /\ (gets new <= List.length urls)%nat
    /\ (List.length (progress_values new) <= List.length urls)%nat.
Proof.
  unfold DataProcessor.get_competitor_summaries. cbv zeta.
  destruct urls as [|url0 rest].
  - exists []. simpl. rewrite app_nil_r. repeat split; auto.
  - destruct (loop_calls E (length_pos url0 rest) (url0 :: rest) 1 [] w)
      as (new & Hw & Hrest).
    exists new. rewrite Hw. split; [reflexivity | exact Hrest].
Qed.

(* ================================================================== *)
(** * The summaries of the loop *)
(* ================================================================== *)

Lemma summary_slot_trimmed (E : Env) (total_urls idx : Z) (url : json) (w : world) :
  strip (summary_slot E total_urls idx url w) = summary_slot E total_urls idx url w.
Proof.
  unfold summary_slot. cbv zeta.
  destruct (APIClient.fetch_webpage_content E url _) as [[[[|c0 c]|]|e] w2];
    try reflexivity.
  match goal with
  | |- context [APIClient.summarize_content_with_openai E ?t ?W] =>
      pose proof (@summarize_trimmed E t W) as Ht;
      destruct (fst (APIClient.summarize_content_with_openai E t W))
        as [[[|s0 s]|]|e']; try reflexivity
  end.
  apply Ht. reflexivity.
Qed.

(** X10: every summary that [get_competitor_summaries] returns is free of
    whitespace at both ends: it is either the empty placeholder or a
    stripped, non-empty text. *)
Theorem get_competitor_summaries_trimmed (E : Env) (urls : list json) (w : world) :
  exists summaries,
    fst (DataProcessor.get_competitor_summaries E urls w) = Ret summaries
    /\ Forall (fun s => strip s = s) summaries.
Proof.
  unfold DataProcessor.get_competitor_summaries. cbv zeta.
  destruct urls as [|url0 rest]; [exists []; split; [reflexivity | constructor]|].
  pose proof (length_pos url0 rest) as Hpos.
  destruct (loop_returns E Hpos (url0 :: rest) 1 w) as (xs & new & Hloop & Hlen & _).
  exists xs. rewrite (Hloop []). split; [reflexivity|].
  apply Forall_forall. intros s Hin.
  destruct (In_nth_error xs s Hin) as [i Hi].
  assert (Hlt : (i < List.length (url0 :: rest))%nat).
  { rewrite <- Hlen. apply nth_error_Some. congruence. }
  destruct (nth_error (url0 :: rest) i) as [url|] eqn:Hurl;
    [|apply nth_error_None in Hurl; lia].
  assert (Hxs : fst (DataProcessor.summaries_loop E
                       (Z.of_nat (List.length (url0 :: rest))) 1 (url0 :: rest) [] w)
                = Ret xs) by (rewrite (Hloop []); reflexivity).
  pose proof (loop_positions E Hpos (url0 :: rest) 1 w Hxs i Hurl) as Hslot.
  rewrite Hi in Hslot. inversion Hslot. apply summary_slot_trimmed.
Qed.

Section Offline.

Variable E : Env.
Hypothesis E_offline : offline E.

Lemma fetch_offline (u : string) (w : world) :
  exists new,
    APIClient.fetch_webpage_content E (JStr u) w
    = (Ret None, mk_world (trace w ++ new) (session w) (NUMBER_OF_SEARCHES w))
    /\ chats new = 0%nat /\ progress_values new = [].
Proof.
  unfold APIClient.fetch_webpage_content, APIClient.fetch_webpage_content_str.
  destruct (negb (str_truthy u) || negb (str_truthy (strip u))).
  { eexists. split; [reflexivity|]. split; reflexivity. }
  unfold try_except, bind, http_get, catch_request_exception. cbv beta.
  destruct (E_offline (trace w) u [("User-Agent", APIClient.user_agent)] [] 15)
    as (e & He & Hreq).
  rewrite He, Hreq. simpl.
  eexists. split; [rewrite <- app_assoc; reflexivity|]. split; reflexivity.
Qed.

Lemma process_url_offline (idx : Z) (u : string) (summaries : list string) (w : world) :
  exists new,
    DataProcessor.process_url E idx (JStr u) summaries w
    = (Ret ((summaries ++ [EmptyString])%list, DataProcessor.Continue),
       mk_world (trace w ++ new) (session w) (NUMBER_OF_SEARCHES w))
    /\ chats new = 0%nat /\ progress_values new = [].
Proof.
  unfold DataProcessor.process_url, try_except.
  unfold bind at 1. unfold st_info at 1, emit at 1. cbv beta iota.
  unfold bind at 1.
  match goal with
  | |- context [APIClient.fetch_webpage_content E (JStr u) ?W] =>
      destruct (fetch_offline u W) as (newF & HF & HFc & HFp)
  end.
  simpl trace in HF. simpl session in HF. simpl NUMBER_OF_SEARCHES in HF.
  rewrite HF. unfold bind, st_warning, emit, ret. simpl.
  eexists. split; [rewrite <- !app_assoc; reflexivity|]. count_tac.
Qed.

Lemma loop_offline (total_urls : Z) (urls : list json) :
  0 < total_urls ->
  Forall (fun u => is_str u = true) urls ->
  forall (idx : Z) (summaries : list string) (w : world),
  exists new,
    DataProcessor.summaries_loop E total_urls idx urls summaries w
    = (Ret (summaries ++ repeat EmptyString (List.length urls))%list,
       mk_world (trace w ++ new) (session w) (NUMBER_OF_SEARCHES w))
    /\ chats new = 0%nat /\ progress_values new = [].
Proof.
  intros Hpos Hstr. induction Hstr as [|url rest Hurl Hrest IH];
    intros idx summaries w.
  - exists []. simpl. unfold ret. rewrite !app_nil_r, world_eta.
    split; [reflexivity|]. split; reflexivity.
  - destruct url as [| | |u| |]; try discriminate.
    rewrite (summaries_loop_step E Hpos). cbv zeta.
    destruct (process_url_offline idx u summaries
                (snd (st_write (processing_msg E total_urls idx (JStr u)) w)))
      as (newP & HP & HPc & HPp).
    rewrite HP. unfold st_write, emit. simpl trace. simpl session.
    simpl NUMBER_OF_SEARCHES.
    match goal with
    | |- context [DataProcessor.summaries_loop E total_urls (idx + 1) rest ?a ?W] =>
        destruct (IH (idx + 1) a W) as (new2 & H2 & H2c & H2p)
    end.
    rewrite H2. simpl trace. simpl session. simpl NUMBER_OF_SEARCHES.
    eexists. split.
    + rewrite <- !app_assoc. reflexivity.
    + count_tac.
Qed.

End Offline.

(** X11: when no page can be fetched (every GET ends in a
    [RequestException]), [get_competitor_summaries] on a list of URL strings
    returns one empty placeholder per URL, never asks the language model,
    and never updates the progress bar: a pass whose fetch fails ends with
    [continue], before the update. *)
Theorem get_competitor_summaries_offline (E : Env) (urls : list json) (w : world) :
  offline E ->
  Forall (fun u => is_str u = true) urls ->
  exists new,
    DataProcessor.get_competitor_summaries E urls w
    = (Ret (repeat EmptyString (List.length urls)),
       mk_world (trace w ++ new) (session w) (NUMBER_OF_SEARCHES w))
    /\ chats new = 0%nat
    /\ progress_values new = [].
Proof.
  intros Hoff Hstr.
  unfold DataProcessor.get_competitor_summaries. cbv zeta.
  destruct urls as [|url0 rest].
  - exists []. simpl. unfold ret. rewrite app_nil_r, world_eta.
    split; [reflexivity|]. split; reflexivity.
  - destruct (loop_offline Hoff (length_pos url0 rest) Hstr 1 [] w)
      as (new & Hrun & Hc & Hp).
    exists new. rewrite Hrun. split; [reflexivity|]. split; assumption.
Qed.

(** The statement at two URLs in the environment without network. *)
Lemma get_competitor_summaries_offline_witness :
  exists new,
    DataProcessor.get_competitor_summaries Demo.offline_env
      [JStr "https://a.test/laptops"; JStr "https://b.test/down"] Demo.world0
    = (Ret (repeat EmptyString 2),
       mk_world (trace Demo.world0 ++ new) (session Demo.world0)
         (NUMBER_OF_SEARCHES Demo.world0))
    /\ chats new = 0%nat
    /\ progress_values new = [].
Proof.
  apply (@get_competitor_summaries_offline Demo.offline_env
           [JStr "https://a.test/laptops"; JStr "https://b.test/down"] Demo.world0).
  - intros t url headers params timeout. eexists. split; reflexivity.
  - repeat constructor.
Defined.

(* ================================================================== *)
(** * The progress formula never reaches the clamp *)
(* ================================================================== *)

Lemma binary64_floor_form_upto_50 : Binary64.floor_form_upto 50 = true.
Proof. vm_compute. reflexivity. Qed.

(** X12: for up to 50 URLs, the value of the progress formula computed in
    binary64 at index [idx] is 25 plus the integer quotient of [50 * idx]
    by the number of URLs; it is at most 75, so that [min(progress, 100)]
    leaves it as it is, and at the last index it is 75.  This is about the
    formula: which of its values a run reports depends on the passes that
    get to the update. *)
Theorem binary64_progress_floor_form (total_urls idx : Z) :
  1 <= idx -> idx <= total_urls -> total_urls <= 50 ->
  Binary64.progress total_urls idx = 25 + (50 * idx) / total_urls
  /\ Binary64.progress total_urls idx <= 75
  /\ Z.min (Binary64.progress total_urls idx) 100 = Binary64.progress total_urls idx
  /\ Binary64.progress total_urls total_urls = 75.
Proof.
  intros Hidx Hle Ht.
  assert (Hform : forall k, 1 <= k <= total_urls ->
            Binary64.progress total_urls k = 25 + (50 * k) / total_urls).
  { intros k Hk.
    pose proof binary64_floor_form_upto_50 as H. unfold Binary64.floor_form_upto in H.
    rewrite forallb_forall in H.
    specialize (H total_urls (proj2 (in_upto 50 total_urls) ltac:(simpl; lia))).
    rewrite forallb_forall in H.
    specialize (H k (proj2 (in_upto 50 k) ltac:(simpl; lia))).
    apply orb_true_iff in H. destruct H as [H|H].
    - apply negb_true_iff, Z.leb_gt in H. lia.
    - apply Z.eqb_eq in H. exact H. }
  assert (Hq : (50 * idx) / total_urls <= 50).
  { apply Z.div_le_upper_bound; lia. }
  rewrite (Hform idx) by lia. rewrite (Hform total_urls) by lia.
  repeat split; try lia.
  rewrite Z.div_mul by lia. reflexivity.
Qed.

(** The statement at the second of three URLs. *)
Lemma binary64_progress_floor_form_witness :
  Binary64.progress 3 2 = 25 + (50 * 2) / 3
  /\ Binary64.progress 3 2 <= 75
  /\ Z.min (Binary64.progress 3 2) 100 = Binary64.progress 3 2
  /\ Binary64.progress 3 3 = 75.
Proof.
  apply (@binary64_progress_floor_form 3 2); lia.
Defined.
(* ================================================================== *)
(** * The paths of a run *)
(* ================================================================== *)

(** What [fetch_top_urls] does to the world: it only appends events, at
    most one GET among them and no request to the language model; for a
    non-blank keyword the first event is the GET to the ranking API. *)
Lemma fetch_top_urls_effect (E : Env) (keyword : string) (num_searches : Z) (w : world) :
  exists new,
    APIClient.fetch_top_urls E keyword num_searches w
    = (fst (APIClient.fetch_top_urls E keyword num_searches w),
       mk_world (trace w ++ new) (session w) (NUMBER_OF_SEARCHES w))
    /\ chats new = 0%nat
    /\ (gets new <= 1)%nat
    /\ progress_values new = []
    /\ (str_truthy (strip keyword) = true ->
        exists rest,
          new = HttpGet (AHREFS_API_URL E) (APIClient.ahrefs_headers E)
                  (APIClient.ahrefs_params keyword num_searches) 10 :: rest
          /\ network_calls rest = []).
Proof.
  unfold APIClient.fetch_top_urls.
  destruct (str_truthy (strip keyword)) eqn:Hkw.
  2:{ simpl. eexists. split; [reflexivity|]. repeat split; auto. discriminate. }
  change (negb true) with false. cbv iota.
  unfold try_except, bind, http_get, raise_for_status, catch_request_exception, lift.
  cbv beta.
  assert (Hleaf : forall (o : outcome (list json)) (rest : list event),
            network_calls rest = [] -> progress_values rest = [] ->
            chats rest = 0%nat -> gets rest = 0%nat ->
            exists new,
              (o, mk_world
                    ((trace w ++ [HttpGet (AHREFS_API_URL E) (APIClient.ahrefs_headers E)
                                   (APIClient.ahrefs_params keyword num_searches) 10])
                     ++ rest)
                    (session w) (NUMBER_OF_SEARCHES w))
              = (fst (o, w), mk_world (trace w ++ new) (session w) (NUMBER_OF_SEARCHES w))
              /\ chats new = 0%nat /\ (gets new <= 1)%nat /\ progress_values new = []
              /\ (true = true ->
                  exists rest0,
                    new = HttpGet (AHREFS_API_URL E) (APIClient.ahrefs_headers E)
                            (APIClient.ahrefs_params keyword num_searches) 10 :: rest0
                    /\ network_calls rest0 = [])).
  { intros o rest Hn Hp Hc Hg.
    exists (HttpGet (AHREFS_API_URL E) (APIClient.ahrefs_headers E)
              (APIClient.ahrefs_params keyword num_searches) 10 :: rest).
    split; [rewrite <- app_assoc; reflexivity|].
    split; [exact Hc|]. split; [unfold gets in *; simpl; lia|].
    split; [exact Hp|]. intros _. exists rest. split; [reflexivity | exact Hn]. }
  destruct (requests_get E (trace w) (AHREFS_API_URL E) _ _ 10) as [r|e].
  - destruct (http_error_msg r) as [msg|]; [simpl; apply (Hleaf _ [_]); reflexivity|].
    simpl. destruct (resp_json r) as [body|e]; simpl.
    + destruct (get body "positions") as [p|e]; simpl.
      * destruct (truthy p); simpl; [|apply (Hleaf _ [_]); reflexivity].
        destruct (getitem body "positions") as [ps|e]; simpl.
        -- destruct (iter ps) as [items|e]; simpl.
           ++ destruct (APIClient.url_comprehension items) as [urls|e]; simpl.
              ** rewrite <- (app_nil_r (trace w ++ [_])).
                 apply (Hleaf _ []); reflexivity.
              ** destruct (is_request_exception e); simpl;
                   [apply (Hleaf _ [_]); reflexivity|].
                 rewrite <- (app_nil_r (trace w ++ [_])).
                 apply (Hleaf _ []); reflexivity.
           ++ destruct (is_request_exception e); simpl;
                [apply (Hleaf _ [_]); reflexivity|].
              rewrite <- (app_nil_r (trace w ++ [_])).
              apply (Hleaf _ []); reflexivity.
        -- destruct (is_request_exception e); simpl;
             [apply (Hleaf _ [_]); reflexivity|].
           rewrite <- (app_nil_r (trace w ++ [_])).
           apply (Hleaf _ []); reflexivity.
      * destruct (is_request_exception e); simpl;
          [apply (Hleaf _ [_]); reflexivity|].
        rewrite <- (app_nil_r (trace w ++ [_])).
        apply (Hleaf _ []); reflexivity.
    + destruct (is_request_exception e); simpl;
        [apply (Hleaf _ [_]); reflexivity|].
      rewrite <- (app_nil_r (trace w ++ [_])).
      apply (Hleaf _ []); reflexivity.
  - destruct (is_request_exception e); simpl;
      [apply (Hleaf _ [_]); reflexivity|].
    rewrite <- (app_nil_r (trace w ++ [_])).
    apply (Hleaf _ []); reflexivity.
Qed.

(** [for url in urls: st.write(url)] writes the URLs, one line each. *)
Lemma write_urls_run (E : Env) (urls : list json) :
  forall t s n,
    App.write_urls E urls (mk_world t s n)
    = (Ret tt,
       mk_world (t ++ map (fun url => Ui StWrite (DataProcessor.fstr E url)) urls) s n).
Proof.
  induction urls as [|url rest IH]; intros t s n; simpl.
  - rewrite app_nil_r. reflexivity.
  - unfold bind, st_write, emit. simpl. rewrite IH, <- app_assoc. reflexivity.
Qed.

(** What [get_competitor_summaries] does to the world. *)
Lemma get_competitor_summaries_effect (E : Env) (urls : list json) (w : world) :
  exists summaries new,
    DataProcessor.get_competitor_summaries E urls w
    = (Ret summaries, mk_world (trace w ++ new) (session w) (NUMBER_OF_SEARCHES w))
    /\ List.length summaries = List.length urls
    /\ (chats new <= gets new)%nat
    /\ (gets new <= List.length urls)%nat
    /\ StronglySorted Z.le (progress_values new)
    /\ Forall (fun p => 25 <= p <= 100) (progress_values new)
    /\ (List.length (progress_values new) <= List.length urls)%nat.
Proof.
  destruct (get_competitor_summaries_returns E urls w) as [summaries Hret].
  exists summaries.
  unfold DataProcessor.get_competitor_summaries in *. cbv zeta in *.
  destruct urls as [|url0 rest].
  - exists []. simpl in *. inversion Hret; subst.
    rewrite app_nil_r, world_eta. repeat split; auto; constructor.
  - pose proof (length_pos url0 rest) as Hpos.
    destruct (loop_calls E Hpos (url0 :: rest) 1 [] w) as (new & Hw & Hc & Hg & Hn).
    destruct (loop_returns E Hpos (url0 :: rest) 1 w)
      as (xs & new' & Hloop & Hlen & Hall & Hsorted).
    assert (Hnew : new' = new).
    { rewrite (Hloop []) in Hw. simpl snd in Hw.
      injection Hw as Hw. apply app_inv_head in Hw. exact Hw. }
    subst new'.
    rewrite (Hloop []) in Hret. simpl in Hret. inversion Hret; subst.
    exists new. split; [apply (Hloop [])|].
    split; [exact Hlen|]. split; [exact Hc|]. split; [exact Hg|].
    split; [exact Hsorted|]. split; [|exact Hn].
    eapply Forall_impl; [|exact Hall].
    intros p (j & Hj & ->). apply reported_bounds; [exact Hpos | lia].
Qed.

(** What [analyze_content_with_openai] does to the world: for a blank
    text nothing; else, once the client is built, one request to the
    language model, with the prompt built from its three arguments, and
    after it no other request; and nothing when the constructor of the
    client raises. *)
Lemma analyze_effect (E : Env) (text keyword : string) (summaries : list string)
    (w : world) :
  exists o new,
    APIClient.analyze_content_with_openai E text keyword summaries w
    = (o, mk_world (trace w ++ new) (session w) (NUMBER_OF_SEARCHES w))
    /\ progress_values new = []
    /\ gets new = 0%nat
    /\ (chats new <= 1)%nat
    /\ (strip text = EmptyString ->
        o = Ret (ErrorDict "No text provided for analysis.") /\ new = [])
    /\ (str_truthy (strip text) = true ->
        match openai_client E (trace w) (OPENAI_API_KEY E) with
        | Ret _ =>
            (exists v, o = Ret v)
            /\ exists rest,
                 new = ChatCreate (APIClient.analysis_request text keyword summaries)
                       :: rest
                 /\ network_calls rest = []
        | Raise e => o = Raise e /\ new = []
        end).
Proof.
  unfold APIClient.analyze_content_with_openai.
  rewrite blank_test.
  destruct (strip text) as [|c rest] eqn:Hs.
  - simpl. exists (Ret (ErrorDict "No text provided for analysis.")), [].
    rewrite app_nil_r, world_eta. repeat split; auto. discriminate.
  - change (negb (str_truthy (String c rest))) with false. cbv iota zeta.
    unfold try_except, bind, new_client, chat_create, catch_exception. cbv beta.
    destruct (openai_client E (trace w) (OPENAI_API_KEY E)) as [client|e0].
    2:{ exists (Raise e0), []. rewrite app_nil_r, world_eta.
        repeat split; auto. discriminate. }
    destruct (chat_completions_create E (trace w) _ _) as [r|e]; simpl.
    + destruct (resp_truthy r); simpl; eexists; eexists;
        (split; [reflexivity|]); (split; [reflexivity|]); (split; [reflexivity|]);
        (split; [apply Nat.le_refl|]); (split; [discriminate|]);
        intros _; (split; [eexists; reflexivity|]); exists []; split; reflexivity.
    + eexists; eexists. split; [rewrite <- app_assoc; reflexivity|].
      split; [reflexivity|]. split; [reflexivity|]. split; [apply Nat.le_refl|].
      split; [discriminate|]. intros _.
      split; [eexists; reflexivity|]. eexists. split; reflexivity.
Qed.

(** The ways through [run_content_analysis], with the world each one
    leaves: no content; the search raises; the search finds nothing; the
    search finds URLs, and then the analyzer returns or raises. *)
Lemma run_paths (E : Env) (w : world) :
  let s := session w in
  let n := NUMBER_OF_SEARCHES w in
  let search := APIClient.fetch_top_urls E (keyword s) n (fetch_world w) in
  (user_content s = EmptyString
   /\ App.run_content_analysis E w
      = (Ret tt,
         mk_world
           (trace w ++ [Ui StWarning "Please provide content before running analysis."])
           s n))
  \/ (str_truthy (user_content s) = true
      /\ exists newF,
           search = (fst search, mk_world (trace (fetch_world w) ++ newF) s n)
           /\ chats newF = 0%nat
           /\ (gets newF <= 1)%nat
           /\ progress_values newF = []
           /\ (str_truthy (strip (keyword s)) = true ->
               exists rest,
                 newF = HttpGet (AHREFS_API_URL E) (APIClient.ahrefs_headers E)
                          (APIClient.ahrefs_params (keyword s) n) 10 :: rest
                 /\ network_calls rest = [])
           /\ match fst search with
              | Raise e =>
                  App.run_content_analysis E w
                  = (Ret tt,
                     mk_world
                       ((trace (fetch_world w) ++ newF)
                        ++ [Ui StError ("An unexpected error occurred: " ++ exn_str e);
                            StatusUpdate "Analysis Failed" "error"])
                       s n)
              | Ret [] =>
                  App.run_content_analysis E w
                  = (Ret tt,
                     mk_world
                       ((trace (fetch_world w) ++ newF)
                        ++ [Ui StWarning "No URLs found for the given keyword.";
                            StatusUpdate "URL Fetching Failed" "error"])
                       s n)
              | Ret urls =>
                  exists summaries newS oA newA,
                    let T2 :=
                      ((((trace (fetch_world w) ++ newF)
                         ++ map (fun url => Ui StWrite (DataProcessor.fstr E url)) urls)
                        ++ [StatusUpdate "Analyzing Competitor Content" "running"])
                       ++ [ProgressSet 0])%list in
                    let T3 :=
                      ((T2 ++ newS)
                       ++ [StatusUpdate "Generating Optimization Suggestions" "running"])%list
                    in
                    DataProcessor.get_competitor_summaries E urls (mk_world T2 s n)
                    = (Ret summaries, mk_world (T2 ++ newS) s n)
                    /\ List.length summaries = List.length urls
                    /\ (chats newS <= gets newS)%nat
                    /\ (gets newS <= List.length urls)%nat
                    /\ StronglySorted Z.le (progress_values newS)
                    /\ Forall (fun p => 25 <= p <= 100) (progress_values newS)
                    /\ (List.length (progress_values newS) <= List.length urls)%nat
                    /\ APIClient.analyze_content_with_openai E
                         (user_content s) (keyword s) summaries (mk_world T3 s n)
                       = (oA, mk_world (T3 ++ newA) s n)
                    /\ progress_values newA = []
                    /\ gets newA = 0%nat
                    /\ (chats newA <= 1)%nat
                    /\ (strip (user_content s) = EmptyString ->
                        oA = Ret (ErrorDict "No text provided for analysis.")
                        /\ newA = [])
                    /\ (str_truthy (strip (user_content s)) = true ->
                        match openai_client E T3 (OPENAI_API_KEY E) with
                        | Ret _ =>
                            (exists v, oA = Ret v)
                            /\ exists rest,
                                 newA = ChatCreate
                                          (APIClient.analysis_request
                                             (user_content s) (keyword s) summaries)
                                        :: rest
                                 /\ network_calls rest = []
                        | Raise e => oA = Raise e /\ newA = []
                        end)
                    /\ App.run_content_analysis E w
                       = (Ret tt,
                          match oA with
                          | Ret v =>
                              mk_world
                                ((T3 ++ newA)
                                 ++ [StatusUpdate "Analysis Complete" "complete"])
                                (mk_session (user_content s) (keyword s)
                                   (content_input_option s) (analysis_result s)
                                   (Some v))
                                n
                          | Raise e =>
                              mk_world
                                ((T3 ++ newA)
                                 ++ [Ui StError
                                       ("An unexpected error occurred: " ++ exn_str e);
                                     StatusUpdate "Analysis Failed" "error"])
                                s n
                          end)
              end).
Proof.
  destruct w as [t [uc kw opt ar res] n].
  unfold fetch_world.
  cbn [trace session NUMBER_OF_SEARCHES user_content keyword content_input_option
       analysis_result result].
  cbv zeta.
  destruct (str_truthy uc) eqn:Hc.
  2:{ left. destruct uc; [|discriminate]. split; [reflexivity|].
      run_tac. reflexivity. }
  right. split; [reflexivity|].
  pose (s := mk_session uc kw opt ar res).
  destruct (fetch_top_urls_effect E kw n
              (mk_world ((t ++ [StatusUpdate "Running Content Analysis" "running"])
                         ++ [StatusUpdate "Fetching Top URLs" "running"]) s n))
    as (newF & HF & HFc & HFg & HFp & HFk).
  cbn [trace session NUMBER_OF_SEARCHES] in HF. fold s.
  exists newF. split; [exact HF|].
  split; [exact HFc|]. split; [exact HFg|]. split; [exact HFp|]. split; [exact HFk|].
  destruct (fst (APIClient.fetch_top_urls E kw n _)) as [[|u us]|e].
  - unfold s in *. run_tac. rewrite Hc. run_tac. rewrite HF. run_tac.
    rewrite <- !app_assoc. reflexivity.
  - set (T2 := ((((((t ++ [StatusUpdate "Running Content Analysis" "running"])
                    ++ [StatusUpdate "Fetching Top URLs" "running"]) ++ newF)
                  ++ map (fun url => Ui StWrite (DataProcessor.fstr E url)) (u :: us))
                 ++ [StatusUpdate "Analyzing Competitor Content" "running"])
                ++ [ProgressSet 0])%list).
    destruct (get_competitor_summaries_effect E (u :: us) (mk_world T2 s n))
      as (summaries & newS & HS & HSl & HSc & HSg & HSs & HSb & HSn).
    cbn [trace session NUMBER_OF_SEARCHES] in HS.
    set (T3 := ((T2 ++ newS)
                ++ [StatusUpdate "Generating Optimization Suggestions" "running"])%list).
    destruct (analyze_effect E uc kw summaries (mk_world T3 s n))
      as (oA & newA & HA & HAp & HAg & HAc & HAb & HAt).
    cbn [trace session NUMBER_OF_SEARCHES] in HA, HAt.
    exists summaries, newS, oA, newA.
    split; [exact HS|]. split; [exact HSl|]. split; [exact HSc|]. split; [exact HSg|].
    split; [exact HSs|]. split; [exact HSb|]. split; [exact HSn|].
    split; [exact HA|]. split; [exact HAp|]. split; [exact HAg|]. split; [exact HAc|].
    split; [exact HAb|]. split; [exact HAt|].
    unfold s in *. run_tac. rewrite Hc. run_tac. rewrite HF. run_tac.
    rewrite write_urls_run. run_tac. fold T2. rewrite HS. run_tac. fold T3.
    rewrite HA. destruct oA as [v|e]; run_tac; [reflexivity|].
    rewrite <- (app_assoc (T3 ++ newA)). reflexivity.
  - unfold s in *. run_tac. rewrite Hc. run_tac. rewrite HF. run_tac.
    rewrite <- !app_assoc. reflexivity.
Qed.

Lemma network_calls_none (l : list event) :
  network_calls l = [] -> gets l = 0%nat /\ chats l = 0%nat.
Proof.
  induction l as [|e l IH]; intro H; [split; reflexivity|].
  destruct e; simpl in H; try discriminate;
    destruct (IH H) as [Hg Hc]; split; assumption.
Qed.

(** Splits the paths of a run and names what is known on each. *)
Ltac paths_tac E w :=
  let Hc := fresh "Hc" in
  let Hrun := fresh "Hrun" in
  let newF := fresh "newF" in
  destruct (run_paths E w)
    as [[Hc Hrun] | [Hc (newF & HF & HFc & HFg & HFp & HFk & Hcase)]];
  cbv zeta in *.

(** Names what is known on the path of a run that gets to the analysis. *)
Ltac reach_tac H :=
  destruct H as (summaries & newS & oA & newA & HS & HSl & HSc & HSg
                 & HSs & HSb & HSn & HA & HAp & HAg & HAc & HAb & HAt & Hrun).

(** X13: with an empty content the run shows one warning and returns: no
    status widget, no search, no request, and the session is left as it
    was. *)
Theorem run_without_content (E : Env) (w : world) :
  user_content (session w) = EmptyString ->
  App.run_content_analysis E w
  = (Ret tt,
     mk_world
       (trace w ++ [Ui StWarning "Please provide content before running analysis."])
       (session w) (NUMBER_OF_SEARCHES w)).
Proof.
  intro Hempty. paths_tac E w; [exact Hrun|].
  rewrite Hempty in Hc. discriminate.
Qed.

(** The statement for a fresh session. *)
Lemma run_without_content_witness :
  App.run_content_analysis Demo.env
    (mk_world [] (App.initialize_session_state None) 10)
  = (Ret tt,
     mk_world [Ui StWarning "Please provide content before running analysis."]
       (App.initialize_session_state None) 10).
Proof.
  apply (@run_without_content Demo.env
           (mk_world [] (App.initialize_session_state None) 10)).
  reflexivity.
Defined.

(** X14: the requests of a run are bounded by the number of URLs that the
    search finds: at most one GET more than that, and at most one request
    to the language model more than that.  A run that does not get to the
    analysis makes no request to the language model at all, makes at most
    the GET of the search, and does not touch the progress bar. *)
Theorem run_request_budget (E : Env) (w : world) :
  exists new,
    trace (snd (App.run_content_analysis E w)) = (trace w ++ new)%list
    /\ (gets new <= 1 + List.length (found_urls E w))%nat
    /\ (chats new <= List.length (found_urls E w) + 1)%nat
    /\ (reaches_analysis E w = false ->
        chats new = 0%nat /\ (gets new <= 1)%nat /\ progress_values new = []).
Proof.
  unfold found_urls, reaches_analysis.
  paths_tac E w.
  - rewrite Hrun, Hc. eexists. split; [reflexivity|]. simpl. count_tac.
  - rewrite Hc. cbn [andb].
    destruct (fst (APIClient.fetch_top_urls E _ _ _)) as [[|u us]|e].
    + rewrite Hcase. unfold fetch_world. cbn [snd trace].
      eexists. split; [rewrite <- !app_assoc; reflexivity|].
      rewrite !gets_app, !chats_app, !progress_values_app, HFc, HFp.
      simpl. count_tac.
    + reach_tac Hcase.
      assert (Hw : forall l : list json,
                 gets (map (fun url => Ui StWrite (DataProcessor.fstr E url)) l) = 0%nat
                 /\ chats (map (fun url => Ui StWrite (DataProcessor.fstr E url)) l)
                    = 0%nat).
      { induction l as [|x l IH]; [split; reflexivity | exact IH]. }
      destruct (Hw us) as [Hwg Hwc].
      simpl List.length in *.
      destruct oA as [v|e]; rewrite Hrun; unfold fetch_world; cbn [snd trace];
        (eexists; split; [rewrite <- !app_assoc; reflexivity|]);
        (split; [|split; [|discriminate]]); count_tac.
    + rewrite Hcase. unfold fetch_world. cbn [snd trace].
      eexists. split; [rewrite <- !app_assoc; reflexivity|].
      rewrite !gets_app, !chats_app, !progress_values_app, HFc, HFp.
      simpl. count_tac.
Qed.

(** The first events of a run with a content and a non-blank keyword. *)
Lemma run_search_first (E : Env) (w : world) :
  str_truthy (user_content (session w)) = true ->
  str_truthy (strip (keyword (session w))) = true ->
  exists rest,
    trace (snd (App.run_content_analysis E w))
    = (trace w
       ++ [StatusUpdate "Running Content Analysis" "running";
           StatusUpdate "Fetching Top URLs" "running";
           HttpGet (AHREFS_API_URL E)
             [("Authorization", ("Bearer " ++ AHREFS_AUTH_TOKEN E)%string);
              ("Content-Type", "application/json")]
             [("keyword", keyword (session w));
              ("top_positions", str_of_int (NUMBER_OF_SEARCHES w));
              ("select", "url"); ("country", "us"); ("language", "en")]
             10]
       ++ rest)%list.
Proof.
  intros Hcontent Hkw.
  paths_tac E w; [rewrite Hc in Hcontent; discriminate|].
  destruct (HFk Hkw) as (restF & -> & _).
  destruct (fst (APIClient.fetch_top_urls E _ _ _)) as [[|u us]|e].
  - rewrite Hcase. unfold fetch_world. cbn [snd trace].
    rewrite <- !app_assoc. simpl. eexists. reflexivity.
  - reach_tac Hcase.
    rewrite Hrun. unfold fetch_world.
    destruct oA as [v|e]; cbn [snd trace];
      rewrite <- !app_assoc; simpl; eexists; reflexivity.
  - rewrite Hcase. unfold fetch_world. cbn [snd trace].
    rewrite <- !app_assoc. simpl. eexists. reflexivity.
Qed.

(** X15: a run with a content and a non-blank keyword opens the status
    widget, and its first request is the search: the GET to the ranking API
    for the keyword of the session and the number of results of the
    configuration, whatever happens after it. *)
Theorem run_starts_with_search (E : Env) (w : world) :
  str_truthy (user_content (session w)) = true ->
  str_truthy (strip (keyword (session w))) = true ->
  exists rest,
    trace (snd (App.run_content_analysis E w))
    = (trace w
       ++ [StatusUpdate "Running Content Analysis" "running";
           StatusUpdate "Fetching Top URLs" "running";
           HttpGet (AHREFS_API_URL E)
             [("Authorization", ("Bearer " ++ AHREFS_AUTH_TOKEN E)%string);
              ("Content-Type", "application/json")]
             [("keyword", keyword (session w));
              ("top_positions", str_of_int (NUMBER_OF_SEARCHES w));
              ("select", "url"); ("country", "us"); ("language", "en")]
             10]
       ++ rest)%list.
Proof. exact (@run_search_first E w). Qed.

(** The statement for the example session. *)
Lemma run_starts_with_search_witness :
  exists rest,
    trace (snd (App.run_content_analysis Demo.env Demo.world0))
    = (trace Demo.world0
       ++ [StatusUpdate "Running Content Analysis" "running";
           StatusUpdate "Fetching Top URLs" "running";
           HttpGet (AHREFS_API_URL Demo.env)
             [("Authorization", ("Bearer " ++ AHREFS_AUTH_TOKEN Demo.env)%string);
              ("Content-Type", "application/json")]
             [("keyword", keyword (session Demo.world0));
              ("top_positions", str_of_int (NUMBER_OF_SEARCHES Demo.world0));
              ("select", "url"); ("country", "us"); ("language", "en")]
             10]
       ++ rest)%list.
Proof.
  apply (@run_starts_with_search Demo.env Demo.world0); reflexivity.
Defined.



(** X17: a content of whitespace only passes the guard of the run, which
    tests for the empty string.  When the search finds URLs, the pages are
    summarized as for any content; then the analysis refuses the content
    without a request, the error object is stored as the result, in the
    place of an earlier one, and the status is set to "Analysis
    Complete". *)
Theorem run_whitespace_content (E : Env) (w : world) :
  str_truthy (user_content (session w)) = true ->
  strip (user_content (session w)) = EmptyString ->
  found_urls E w <> [] ->
  exists before,
    snd (App.run_content_analysis E w)
    = mk_world
        (trace w ++ before
         ++ [StatusUpdate "Generating Optimization Suggestions" "running";
             StatusUpdate "Analysis Complete" "complete"])
        (session (with_result w (Some (ErrorDict "No text provided for analysis."))))
        (NUMBER_OF_SEARCHES w).
Proof.
  intros Hcontent Hblank Hfound. unfold found_urls in Hfound.
  paths_tac E w; [rewrite Hc in Hcontent; discriminate|].
  destruct (fst (APIClient.fetch_top_urls E _ _ _)) as [[|u us]|e];
    [contradiction | | contradiction].
  reach_tac Hcase.
  destruct (HAb Hblank) as [-> ->].
  rewrite Hrun. unfold fetch_world, with_result. cbn [snd trace session].
  exists ([StatusUpdate "Running Content Analysis" "running";
           StatusUpdate "Fetching Top URLs" "running"] ++ newF
          ++ map (fun url => Ui StWrite (DataProcessor.fstr E url)) (u :: us)
          ++ [StatusUpdate "Analyzing Competitor Content" "running"; ProgressSet 0]
          ++ newS)%list.
  rewrite app_nil_r, <- !app_assoc. reflexivity.
Qed.

(** The statement for a content of one space, with the result of an
    earlier run in the session. *)
Lemma run_whitespace_content_witness :
  exists before,
    snd (App.run_content_analysis Demo.env (Demo.stale_world " " "best laptops 2024"))
    = mk_world
        (trace (Demo.stale_world " " "best laptops 2024") ++ before
         ++ [StatusUpdate "Generating Optimization Suggestions" "running";
             StatusUpdate "Analysis Complete" "complete"])
        (session (with_result (Demo.stale_world " " "best laptops 2024")
                    (Some (ErrorDict "No text provided for analysis."))))
        (NUMBER_OF_SEARCHES (Demo.stale_world " " "best laptops 2024")).
Proof.
  apply (@run_whitespace_content Demo.env (Demo.stale_world " " "best laptops 2024")).
  - reflexivity.
  - reflexivity.
  - vm_compute. discriminate.
Defined.

(** X18: when the search finds URLs and the content is not blank, the run
    comes to the analysis after everything else, with one summary per URL
    found.  Once the client is built, it asks the language model once: the
    request is built from the content and the keyword of the session and
    from the summaries, and no request follows it.  When the constructor
    of the client raises, no request is made: the run shows the error and
    ends with the status "Analysis Failed". *)
Theorem run_analysis_request (E : Env) (w : world) :
  str_truthy (strip (user_content (session w))) = true ->
  found_urls E w <> [] ->
  exists summaries middle,
    let before :=
      (trace w ++ middle
       ++ [StatusUpdate "Generating Optimization Suggestions" "running"])%list in
    List.length summaries = List.length (found_urls E w)
    /\ match openai_client E before (OPENAI_API_KEY E) with
       | Ret _ =>
           exists after,
             trace (snd (App.run_content_analysis E w))
             = (before
                ++ ChatCreate
                     (APIClient.analysis_request
                        (user_content (session w)) (keyword (session w)) summaries)
                :: after)%list
             /\ network_calls after = []
       | Raise e =>
           trace (snd (App.run_content_analysis E w))
           = (before
              ++ [Ui StError ("An unexpected error occurred: " ++ exn_str e);
                  StatusUpdate "Analysis Failed" "error"])%list
       end.
Proof.
  intros Hcontent Hfound. unfold found_urls in *.
  paths_tac E w; [rewrite Hc in Hcontent; discriminate|].
  destruct (fst (APIClient.fetch_top_urls E _ _ _)) as [[|u us]|e];
    [contradiction | | contradiction].
  reach_tac Hcase.
  specialize (HAt Hcontent).
  exists summaries,
    ([StatusUpdate "Running Content Analysis" "running";
      StatusUpdate "Fetching Top URLs" "running"] ++ newF
     ++ map (fun url => Ui StWrite (DataProcessor.fstr E url)) (u :: us)
     ++ [StatusUpdate "Analyzing Competitor Content" "running"; ProgressSet 0]
     ++ newS)%list.
  cbv zeta. split; [exact HSl|].
  unfold fetch_world in *. cbn [trace] in *.
  match type of HAt with
  | match openai_client E ?T _ with _ => _ end =>
      match goal with
      | |- match openai_client E ?T' _ with _ => _ end =>
          replace T' with T by (rewrite <- !app_assoc; reflexivity)
      end
  end.
  destruct (openai_client E _ (OPENAI_API_KEY E)) as [client|e].
  - destruct HAt as ([v ->] & rest & -> & Hrest).
    rewrite Hrun. cbn [snd trace].
    exists (rest ++ [StatusUpdate "Analysis Complete" "complete"])%list.
    split.
    + rewrite <- (app_assoc _ (_ :: rest)). reflexivity.
    + unfold network_calls in *. rewrite filter_app, Hrest. reflexivity.
  - destruct HAt as [-> ->].
    rewrite Hrun. cbn [snd trace]. rewrite app_nil_r. reflexivity.
Qed.

(** The statement for the example session. *)
Lemma run_analysis_request_witness :
  exists summaries middle,
    List.length summaries = List.length (found_urls Demo.env Demo.world0)
    /\ match openai_client Demo.env
               (trace Demo.world0 ++ middle
                ++ [StatusUpdate "Generating Optimization Suggestions" "running"])%list
               (OPENAI_API_KEY Demo.env) with
       | Ret _ =>
           exists after,
             trace (snd (App.run_content_analysis Demo.env Demo.world0))
             = ((trace Demo.world0 ++ middle
                 ++ [StatusUpdate "Generating Optimization Suggestions" "running"])
                ++ ChatCreate
                     (APIClient.analysis_request
                        (user_content (session Demo.world0))
                        (keyword (session Demo.world0)) summaries)
                :: after)%list
             /\ network_calls after = []
       | Raise e =>
           trace (snd (App.run_content_analysis Demo.env Demo.world0))
           = ((trace Demo.world0 ++ middle
               ++ [StatusUpdate "Generating Optimization Suggestions" "running"])
              ++ [Ui StError ("An unexpected error occurred: " ++ exn_str e);
                  StatusUpdate "Analysis Failed" "error"])%list
       end.
Proof.
  apply (@run_analysis_request Demo.env Demo.world0).
  - reflexivity.
  - vm_compute. discriminate.
Defined.

(** X19: a run writes one key of the session at most, [result]: the
    content, the keyword, the input option and the key [analysis_result]
    are as before, and so is the number of searches of the configuration;
    the events that were there are kept, in their order. *)
Theorem run_frame (E : Env) (w : world) :
  let w' := snd (App.run_content_analysis E w) in
  user_content (session w') = user_content (session w)
  /\ keyword (session w') = keyword (session w)
  /\ content_input_option (session w') = content_input_option (session w)
  /\ analysis_result (session w') = analysis_result (session w)
  /\ NUMBER_OF_SEARCHES w' = NUMBER_OF_SEARCHES w
  /\ exists new, trace w' = (trace w ++ new)%list.
Proof.
  cbv zeta.
  paths_tac E w.
  - rewrite Hrun. cbn [snd session NUMBER_OF_SEARCHES trace].
    repeat split; eexists; reflexivity.
  - destruct (fst (APIClient.fetch_top_urls E _ _ _)) as [[|u us]|e].
    + rewrite Hcase. unfold fetch_world. cbn [snd session NUMBER_OF_SEARCHES trace].
      do 5 (split; [reflexivity|]). rewrite <- !app_assoc. eexists; reflexivity.
    + reach_tac Hcase. rewrite Hrun. unfold fetch_world.
      destruct oA as [v|e];
        cbn [snd session NUMBER_OF_SEARCHES trace user_content keyword
             content_input_option analysis_result];
        do 5 (split; [reflexivity|]); rewrite <- !app_assoc; eexists; reflexivity.
    + rewrite Hcase. unfold fetch_world. cbn [snd session NUMBER_OF_SEARCHES trace].
      do 5 (split; [reflexivity|]). rewrite <- !app_assoc. eexists; reflexivity.
Qed.

(** X20: over a whole run the progress bar never goes back.  A run that
    ends before the summaries does not touch it; the others set it to 0
    and then to percentages between 25 and 100 that do not decrease. *)
Theorem run_progress (E : Env) (w : world) :
  exists new,
    trace (snd (App.run_content_analysis E w)) = (trace w ++ new)%list
    /\ StronglySorted Z.le (progress_values new)
    /\ (reaches_analysis E w = false -> progress_values new = [])
    /\ (reaches_analysis E w = true ->
        exists later,
          progress_values new = 0 :: later
          /\ Forall (fun p => 25 <= p <= 100) later
          /\ (List.length later <= List.length (found_urls E w))%nat).
Proof.
  unfold reaches_analysis, found_urls.
  paths_tac E w.
  - rewrite Hrun, Hc. cbn [snd trace andb].
    eexists. split; [reflexivity|]. simpl.
    split; [constructor|]. split; [reflexivity | discriminate].
  - rewrite Hc. cbn [andb].
    destruct (fst (APIClient.fetch_top_urls E _ _ _)) as [[|u us]|e].
    + rewrite Hcase. unfold fetch_world. cbn [snd trace].
      eexists. split; [rewrite <- !app_assoc; reflexivity|].
      rewrite !progress_values_app, HFp. simpl.
      split; [constructor|]. split; [reflexivity | discriminate].
    + reach_tac Hcase. rewrite Hrun. unfold fetch_world.
      assert (Hw : forall l : list json,
                 progress_values (map (fun url => Ui StWrite (DataProcessor.fstr E url)) l)
                 = []).
      { induction l as [|x l IH]; [reflexivity | exact IH]. }
      assert (Hp : forall tail,
                 progress_values tail = [] ->
                 progress_values
                   ([StatusUpdate "Running Content Analysis" "running"] ++
                    [StatusUpdate "Fetching Top URLs" "running"] ++
                    newF ++
                    map (fun url => Ui StWrite (DataProcessor.fstr E url)) (u :: us) ++
                    [StatusUpdate "Analyzing Competitor Content" "running"] ++
                    [ProgressSet 0] ++
                    newS ++
                    [StatusUpdate "Generating Optimization Suggestions" "running"] ++
                    newA ++ tail)%list
                 = 0 :: progress_values newS).
      { intros tail Ht.
        rewrite !progress_values_app, HFp, HAp, (Hw (u :: us)), Ht. simpl.
        rewrite app_nil_r. reflexivity. }
      assert (Hsorted : StronglySorted Z.le (0 :: progress_values newS)).
      { constructor; [exact HSs|].
        eapply Forall_impl; [|exact HSb]. intros p Hp'. simpl in Hp'. lia. }
      destruct oA as [v|e]; cbn [snd trace];
        (eexists; split; [rewrite <- !app_assoc; reflexivity|]);
        rewrite Hp by reflexivity;
        (split; [exact Hsorted|]); (split; [discriminate|]);
        intros _; exists (progress_values newS);
        (split; [reflexivity|]); split; [exact HSb | exact HSn | exact HSb | exact HSn].
    + rewrite Hcase. unfold fetch_world. cbn [snd trace].
      eexists. split; [rewrite <- !app_assoc; reflexivity|].
      rewrite !progress_values_app, HFp. simpl.
      split; [constructor|]. split; [reflexivity | discriminate].
Qed.

(* ================================================================== *)
(** * The script of the page *)
(* ================================================================== *)

Lemma streamed_app (a b : list drawing) :
  streamed (a ++ b) = (streamed a ++ streamed b)%list.
Proof.
  induction a as [|d a IH]; [reflexivity|].
  destruct d; simpl; rewrite IH; reflexivity.
Qed.

Lemma index_valid (R : runtime) (x : string) :
  In x App.input_options ->
  exists i, index R App.input_options x = Ret i.
Proof.
  intros [<- | [<- | [<- | []]]]; eexists; reflexivity.
Qed.

Lemma index_unknown (R : runtime) (x : string) :
  ~ In x App.input_options ->
  index R App.input_options x = Raise (ValueError (repr R x ++ " is not in list")).
Proof.
  intro Hx. unfold index, App.input_options. cbn [index_from].
  destruct (String.eqb "Paste Text" x) eqn:H1.
  { apply String.eqb_eq in H1. exfalso. apply Hx. left. exact H1. }
  destruct (String.eqb "Enter URL" x) eqn:H2.
  { apply String.eqb_eq in H2. exfalso. apply Hx. right. left. exact H2. }
  destruct (String.eqb "Upload File" x) eqn:H3.
  { apply String.eqb_eq in H3. exfalso. apply Hx. right. right. left. exact H3. }
  reflexivity.
Qed.

Lemma index_known (R : runtime) (x : string) (i : nat) :
  index R App.input_options x = Ret i -> In x App.input_options.
Proof.
  unfold index, App.input_options. cbn [index_from].
  destruct (String.eqb "Paste Text" x) eqn:H1.
  { apply String.eqb_eq in H1. intros _. left. exact H1. }
  destruct (String.eqb "Enter URL" x) eqn:H2.
  { apply String.eqb_eq in H2. intros _. right. left. exact H2. }
  destruct (String.eqb "Upload File" x) eqn:H3.
  { apply String.eqb_eq in H3. intros _. right. right. left. exact H3. }
  discriminate.
Qed.

(** Runs the script up to the calls of the client functions. *)
Ltac page_tac :=
  cbv beta iota zeta delta
    [App.main App.sidebar_configuration App.content_input_section
     pbind pret plift draw st_write_stream call ptry_except catch_exception
     get_session set_keyword set_content_input_option set_user_content
     set_number_of_searches st_info st_success st_warning st_error st_write
     App.status_update emit drawn core trace session NUMBER_OF_SEARCHES
     user_content keyword content_input_option analysis_result result fst snd].


(** What [content_input_section] does to the page: it draws its heading,
    writes the keyword typed, and, when the stored option is one of the
    three, the option chosen and, by the option, the content.  The only
    request it can make is the GET of the button "Fetch Content". *)
Lemma content_input_section_effect (E : Env) (R : runtime) (p : page) :
  let s0 := session (core p) in
  exists extra new uc' opt',
    snd (App.content_input_section E R p)
    = mk_page (drawn p ++ Subheader "📝 Content Input" :: extra)
        (mk_world (trace (core p) ++ new)
           (mk_session uc' (typed_keyword R s0) opt'
              (analysis_result s0) (result s0))
           (NUMBER_OF_SEARCHES (core p)))
    /\ (opt' = "Paste Text" ->
        uc' = text_area R "Paste your content here:" (user_content s0) /\ new = [])
    /\ streamed extra = []
    /\ chats new = 0%nat
    /\ (gets new <= 1)%nat
    /\ (button R "Fetch Content" = false -> network_calls new = [])
    /\ (valid_option s0 ->
        fst (App.content_input_section E R p) = Ret tt
        /\ exists i,
             index R App.input_options (content_input_option s0) = Ret i
             /\ opt' = radio R "Choose content input method" App.input_options i)
    /\ (~ valid_option s0 ->
        fst (App.content_input_section E R p)
        = Raise (ValueError (repr R (content_input_option s0) ++ " is not in list"))
        /\ opt' = content_input_option s0
        /\ uc' = user_content s0
        /\ new = [] /\ extra = []).
Proof.
  destruct p as [d [t [uc kw opt ar res] n]].
  unfold valid_option, typed_keyword.
  cbn [core session trace drawn NUMBER_OF_SEARCHES user_content keyword
       content_input_option analysis_result result]. cbv zeta.
  destruct (index R App.input_options opt) as [i|e] eqn:Hidx.
  2:{ assert (Hno : ~ In opt App.input_options).
      { intro Hin. destruct (@index_valid R opt Hin) as [i Hi]. congruence. }
      rewrite (@index_unknown R opt Hno) in Hidx.
      exists [], [], uc, opt.
      page_tac. rewrite (@index_unknown R opt Hno). page_tac.
      rewrite app_nil_r.
      split; [reflexivity|].
      split; [intro Heq; exfalso; apply Hno; left; symmetry; exact Heq|].
      split; [reflexivity|]. split; [reflexivity|].
      split; [apply Nat.le_0_l|]. split; [reflexivity|].
      split; [intro Hin; contradiction|].
      intros _. repeat split; reflexivity. }
  pose proof (@index_known R opt i Hidx) as Hin.
  assert (Hvalid : forall (o : outcome unit) (opt' : string),
             o = Ret tt ->
             opt' = radio R "Choose content input method" App.input_options i ->
             (In opt App.input_options ->
              o = Ret tt
              /\ exists i0, Ret i = Ret i0
                   /\ opt' = radio R "Choose content input method" App.input_options i0)
             /\ (~ In opt App.input_options ->
                 o = Raise (ValueError (repr R opt ++ " is not in list"))
                 /\ opt' = opt /\ uc = uc /\ @nil event = [] /\ @nil drawing = [])).
  { intros o opt' -> ->. split.
    - intros _. split; [reflexivity|]. exists i. split; reflexivity.
    - intro Hno. contradiction. }
  page_tac. rewrite Hidx. page_tac.
  set (opt' := radio R "Choose content input method" App.input_options i).
  destruct (String.eqb opt' "Paste Text") eqn:H1.
  { exists [], [], (text_area R "Paste your content here:" uc), opt'.
    rewrite app_nil_r.
    split; [reflexivity|]. split; [intros _; split; reflexivity|].
    split; [reflexivity|]. split; [reflexivity|].
    split; [apply Nat.le_0_l|]. split; [reflexivity|].
    destruct (Hvalid (Ret tt) opt' eq_refl eq_refl) as [Hv Hn].
    split; [exact Hv|]. intro Hno. contradiction. }
  destruct (String.eqb opt' "Enter URL") eqn:H2.
  { destruct (button R "Fetch Content") eqn:Hb.
    2:{ exists [], [], uc, opt'. rewrite app_nil_r.
        split; [reflexivity|]. split; [intro Heq; rewrite Heq in H1; discriminate|].
        split; [reflexivity|]. split; [reflexivity|].
        split; [apply Nat.le_0_l|]. split; [reflexivity|].
        destruct (Hvalid (Ret tt) opt' eq_refl eq_refl) as [Hv Hn].
        split; [exact Hv|]. intro Hno. contradiction. }
    match goal with
    | |- context [APIClient.fetch_webpage_content E ?u ?W] =>
        destruct (fetch_webpage_content_effect E u W)
          as (newf & Hf & Hfc & Hfg & _)
    end.
    cbn [trace session NUMBER_OF_SEARCHES] in Hf.
    rewrite Hf.
    destruct (fst (APIClient.fetch_webpage_content E _ _)) as [[[|a c]|]|e];
      page_tac.
    - exists [], ([StatusUpdate "Fetching webpage content..." "running"] ++ newf
                  ++ [Ui StWarning "Could not fetch content from the provided URL.";
                      StatusUpdate "Fetching Failed" "error"])%list, uc, opt'.
      split; [rewrite <- !app_assoc; reflexivity|].
      split; [intro Heq; rewrite Heq in H1; discriminate|].
      split; [reflexivity|].
      split; [rewrite !chats_app, Hfc; reflexivity|].
      split; [rewrite !gets_app; change (gets [_]) with 0%nat;
              change (gets [_; _]) with 0%nat; lia|].
      split; [discriminate|].
      destruct (Hvalid (Ret tt) opt' eq_refl eq_refl) as [Hv Hn].
      split; [exact Hv|]. intro Hno. contradiction.
    - exists [], ([StatusUpdate "Fetching webpage content..." "running"] ++ newf
                  ++ [Ui StSuccess "Content fetched successfully!";
                      StatusUpdate "Content Fetched" "complete"])%list,
        (String a c), opt'.
      split; [rewrite <- !app_assoc; reflexivity|].
      split; [intro Heq; rewrite Heq in H1; discriminate|].
      split; [reflexivity|].
      split; [rewrite !chats_app, Hfc; reflexivity|].
      split; [rewrite !gets_app; change (gets [_]) with 0%nat;
              change (gets [_; _]) with 0%nat; lia|].
      split; [discriminate|].
      destruct (Hvalid (Ret tt) opt' eq_refl eq_refl) as [Hv Hn].
      split; [exact Hv|]. intro Hno. contradiction.
    - exists [], ([StatusUpdate "Fetching webpage content..." "running"] ++ newf
                  ++ [Ui StWarning "Could not fetch content from the provided URL.";
                      StatusUpdate "Fetching Failed" "error"])%list, uc, opt'.
      split; [rewrite <- !app_assoc; reflexivity|].
      split; [intro Heq; rewrite Heq in H1; discriminate|].
      split; [reflexivity|].
      split; [rewrite !chats_app, Hfc; reflexivity|].
      split; [rewrite !gets_app; change (gets [_]) with 0%nat;
              change (gets [_; _]) with 0%nat; lia|].
      split; [discriminate|].
      destruct (Hvalid (Ret tt) opt' eq_refl eq_refl) as [Hv Hn].
      split; [exact Hv|]. intro Hno. contradiction.
    - exists [], ([StatusUpdate "Fetching webpage content..." "running"] ++ newf
                  ++ [Ui StError ("An error occurred: " ++ exn_str e);
                      StatusUpdate "Fetching Failed" "error"])%list, uc, opt'.
      split; [rewrite <- !app_assoc; reflexivity|].
      split; [intro Heq; rewrite Heq in H1; discriminate|].
      split; [reflexivity|].
      split; [rewrite !chats_app, Hfc; reflexivity|].
      split; [rewrite !gets_app; change (gets [_]) with 0%nat;
              change (gets [_; _]) with 0%nat; lia|].
      split; [discriminate|].
      destruct (Hvalid (Ret tt) opt' eq_refl eq_refl) as [Hv Hn].
      split; [exact Hv|]. intro Hno. contradiction. }
  destruct (String.eqb opt' "Upload File") eqn:H3.
  2:{ exists [], [], uc, opt'. rewrite app_nil_r.
      split; [reflexivity|]. split; [intro Heq; rewrite Heq in H1; discriminate|].
      split; [reflexivity|]. split; [reflexivity|].
      split; [apply Nat.le_0_l|]. split; [reflexivity|].
      destruct (Hvalid (Ret tt) opt' eq_refl eq_refl) as [Hv Hn].
      split; [exact Hv|]. intro Hno. contradiction. }
  destruct (file_uploader R "Choose a text file" ["txt"]) as [f|].
  2:{ exists [], [], uc, opt'. rewrite app_nil_r.
      split; [reflexivity|]. split; [intro Heq; rewrite Heq in H1; discriminate|].
      split; [reflexivity|]. split; [reflexivity|].
      split; [apply Nat.le_0_l|]. split; [reflexivity|].
      destruct (Hvalid (Ret tt) opt' eq_refl eq_refl) as [Hv Hn].
      split; [exact Hv|]. intro Hno. contradiction. }
  destruct (read_decode f) as [content|e]; page_tac.
  - exists [Expander "Uploaded Content Preview"],
      [StatusUpdate "Processing uploaded file..." "running";
       Ui StSuccess "File uploaded successfully!";
       Ui StWrite content;
       StatusUpdate "File Processed" "complete"], content, opt'.
    split; [rewrite <- !app_assoc; reflexivity|].
    split; [intro Heq; rewrite Heq in H1; discriminate|].
    split; [reflexivity|]. split; [reflexivity|].
    split; [apply Nat.le_0_l|]. split; [reflexivity|].
    destruct (Hvalid (Ret tt) opt' eq_refl eq_refl) as [Hv Hn].
    split; [exact Hv|]. intro Hno. contradiction.
  - exists [],
      [StatusUpdate "Processing uploaded file..." "running";
       Ui StError ("An error occurred while processing the file: " ++ exn_str e);
       StatusUpdate "File Processing Failed" "error"], uc, opt'.
    split; [rewrite <- !app_assoc; reflexivity|].
    split; [intro Heq; rewrite Heq in H1; discriminate|].
    split; [reflexivity|]. split; [reflexivity|].
    split; [apply Nat.le_0_l|]. split; [reflexivity|].
    destruct (Hvalid (Ret tt) opt' eq_refl eq_refl) as [Hv Hn].
    split; [exact Hv|]. intro Hno. contradiction.
Qed.

(** [main] up to [content_input_section]. *)
Lemma main_unfold (E : Env) (R : runtime) (present : option session_state)
    (t : list event) (n : Z) :
  App.main E R present t n
  = (App.content_input_section E R ;;
     (if button R "🔍 Analyze Content"
      then call (App.run_content_analysis E) else pret tt) ;;
     s <- call get_session ;;
     match result s with
     | Some v => st_write_stream R v
     | None => pret tt
     end)%page (input_page R present t n).
Proof. reflexivity. Qed.

(** A run returns, appends events, and writes the key [result] only. *)
Lemma run_keeps (E : Env) (w : world) :
  exists new res',
    App.run_content_analysis E w
    = (Ret tt,
       mk_world (trace w ++ new)
         (mk_session (user_content (session w)) (keyword (session w))
            (content_input_option (session w)) (analysis_result (session w)) res')
         (NUMBER_OF_SEARCHES w)).
Proof.
  paths_tac E w.
  - rewrite Hrun. eexists. exists (result (session w)).
    destruct w as [t [uc kw opt ar res] n]. reflexivity.
  - destruct (fst (APIClient.fetch_top_urls E _ _ _)) as [[|u us]|e].
    + rewrite Hcase. unfold fetch_world. cbn [trace]. eexists.
      exists (result (session w)). rewrite <- !app_assoc.
      destruct w as [t [uc kw opt ar res] n]. reflexivity.
    + reach_tac Hcase. rewrite Hrun. unfold fetch_world. cbn [trace].
      destruct oA as [v|e]; eexists;
        [exists (Some v) | exists (result (session w))];
        rewrite <- !app_assoc; [reflexivity|].
      destruct w as [t [uc kw opt ar res] n]. reflexivity.
    + rewrite Hcase. unfold fetch_world. cbn [trace]. eexists.
      exists (result (session w)). rewrite <- !app_assoc.
      destruct w as [t [uc kw opt ar res] n]. reflexivity.
Qed.

Lemma initialized_valid (present : option session_state) :
  (forall s, present = Some s -> valid_option s) ->
  valid_option (App.initialize_session_state present).
Proof.
  intro H. destruct present as [s|]; [apply H; reflexivity|].
  left. reflexivity.
Qed.

(** What one run of the script does, from the page on which
    [content_input_section] starts: the input section, then the analysis
    when its button is pressed, then the rendering of the stored result. *)
Lemma main_effect (E : Env) (R : runtime) (present : option session_state)
    (t : list event) (n : Z) :
  let p1 := input_page R present t n in
  let s0 := App.initialize_session_state present in
  exists extra new uc' opt' newr res',
    let w2 :=
      mk_world (trace (core p1) ++ new)
        (mk_session uc' (typed_keyword R s0) opt' (analysis_result s0) (result s0))
        (NUMBER_OF_SEARCHES (core p1)) in
    snd (App.content_input_section E R p1)
    = mk_page (drawn p1 ++ Subheader "📝 Content Input" :: extra) w2
    /\ (opt' = "Paste Text" ->
        uc' = text_area R "Paste your content here:" (user_content s0) /\ new = [])
    /\ streamed extra = []
    /\ chats new = 0%nat
    /\ (gets new <= 1)%nat
    /\ (button R "Fetch Content" = false -> network_calls new = [])
    /\ (valid_option s0 ->
        exists i,
          index R App.input_options (content_input_option s0) = Ret i
          /\ opt' = radio R "Choose content input method" App.input_options i)
    /\ (~ valid_option s0 -> opt' = content_input_option s0)
    /\ (if button R "🔍 Analyze Content"
        then valid_option s0 ->
             App.run_content_analysis E w2
             = (Ret tt,
                mk_world (trace w2 ++ newr)
                  (mk_session uc' (typed_keyword R s0) opt' (analysis_result s0) res')
                  (NUMBER_OF_SEARCHES w2))
        else newr = [] /\ res' = result s0)
    /\ (~ valid_option s0 -> newr = [] /\ res' = result s0)
    /\ App.main E R present t n
       = (match fst (App.content_input_section E R p1), res' with
          | Ret _, Some v => write_stream R v
          | Ret _, None => Ret tt
          | Raise e, _ => Raise e
          end,
          mk_page
            ((drawn p1 ++ Subheader "📝 Content Input" :: extra)
             ++ match fst (App.content_input_section E R p1), res' with
                | Ret _, Some v => [WriteStream v]
                | _, _ => []
                end)
            (mk_world (trace w2 ++ newr)
               (mk_session uc' (typed_keyword R s0) opt' (analysis_result s0) res')
               (NUMBER_OF_SEARCHES w2)))
    /\ (valid_option s0 -> fst (App.content_input_section E R p1) = Ret tt)
    /\ (~ valid_option s0 ->
        fst (App.content_input_section E R p1)
        = Raise (ValueError (repr R (content_input_option s0) ++ " is not in list"))).
Proof.
  cbv zeta.
  rewrite (main_unfold E R present t n).
  destruct (content_input_section_effect E R (input_page R present t n))
    as (extra & new & uc' & opt' & Hsnd & Hpaste & Hst & Hnc & Hng & Hnb & Hvalid
        & Hunknown).
  cbv zeta in Hvalid, Hunknown, Hsnd, Hpaste.
  change (session (core (input_page R present t n)))
    with (App.initialize_session_state present) in *.
  unfold pbind at 1.
  destruct (App.content_input_section E R (input_page R present t n)) as [o p2].
  cbn [fst snd] in *. subst p2.
  exists extra, new, uc', opt'.
  destruct o as [[]|e].
  - assert (Hv : valid_option (App.initialize_session_state present)).
    { destruct (index R App.input_options
                  (content_input_option (App.initialize_session_state present)))
        as [i|e] eqn:Hidx.
      - exact (@index_known R _ i Hidx).
      - assert (Hno : ~ valid_option (App.initialize_session_state present)).
        { intro Hin. destruct (@index_valid R _ Hin) as [i Hi]. congruence. }
        destruct (Hunknown Hno) as [Hraise _]. discriminate. }
    destruct (Hvalid Hv) as (_ & i & Hidx & Hopt).
    unfold pbind at 1.
    destruct (button R "🔍 Analyze Content").
    + unfold call at 1. cbn [core].
      match goal with
      | |- context [App.run_content_analysis E ?W] =>
          destruct (run_keeps E W) as (newr & res' & Hr)
      end.
      cbn [trace session NUMBER_OF_SEARCHES user_content keyword
           content_input_option analysis_result result] in Hr.
      exists newr, res'. rewrite Hr.
      split; [reflexivity|]. split; [exact Hpaste|]. split; [exact Hst|].
      split; [exact Hnc|].
      split; [exact Hng|]. split; [exact Hnb|].
      split; [intros _; exists i; split; [exact Hidx | exact Hopt]|].
      split; [intro Hno; contradiction|].
      split; [intros _; reflexivity|].
      split; [intro Hno; contradiction|].
      split; [|split; [intros _; reflexivity | intro Hno; contradiction]].
      page_tac. destruct res' as [v|]; page_tac; [reflexivity|].
      rewrite app_nil_r. reflexivity.
    + remember (result (App.initialize_session_state present)) as r0 eqn:Hr0.
      exists [], r0.
      split; [reflexivity|]. split; [exact Hpaste|]. split; [exact Hst|].
      split; [exact Hnc|].
      split; [exact Hng|]. split; [exact Hnb|].
      split; [intros _; exists i; split; [exact Hidx | exact Hopt]|].
      split; [intro Hno; contradiction|].
      split; [split; reflexivity|].
      split; [intro Hno; contradiction|].
      split; [|split; [intros _; reflexivity | intro Hno; contradiction]].
      destruct r0 as [v|]; page_tac; rewrite !app_nil_r; reflexivity.
  - assert (Hno : ~ valid_option (App.initialize_session_state present)).
    { intro Hv. destruct (Hvalid Hv) as [Hret _]. discriminate. }
    destruct (Hunknown Hno) as (Hraise & Hopt & _).
    exists [], (result (App.initialize_session_state present)).
    split; [reflexivity|]. split; [exact Hpaste|]. split; [exact Hst|].
      split; [exact Hnc|].
    split; [exact Hng|]. split; [exact Hnb|].
    split; [intro Hv; contradiction|].
    split; [intros _; exact Hopt|].
    split; [destruct (button R "🔍 Analyze Content");
            [intro Hv; contradiction | split; reflexivity]|].
    split; [intros _; split; reflexivity|].
    split; [|split; [intro Hv; contradiction | intros _; exact Hraise]].
    rewrite !app_nil_r. reflexivity.
Qed.

(** Names what is known of one run of the script. *)
Ltac main_tac E R present t n :=
  destruct (main_effect E R present t n)
    as (extra & new & uc' & opt' & newr & res' & Hcis & Hpaste & Hst & Hnc & Hng
        & Hnb & Hopt & Hold & Hrun & Hskip & Hmain & Hret & Hraise);
  cbv zeta in *.

(** X21: the script of the page leaves the stored input option among the
    three of the radio, where the [index] of the next run finds it, and the
    only exception that can leave it is the one of [st.write_stream] on the
    stored result; with no result stored it returns.  This holds on a new
    session, and on a session whose option is one of the three, when the
    radio answers with one of its options. *)
Theorem main_outcome (E : Env) (R : runtime) (present : option session_state)
    (t : list event) (n : Z) :
  radio_sound R ->
  (forall s, present = Some s -> valid_option s) ->
  valid_option (session (core (snd (App.main E R present t n))))
  /\ fst (App.main E R present t n)
     = match result (session (core (snd (App.main E R present t n)))) with
       | Some v => write_stream R v
       | None => Ret tt
       end.
Proof.
  intros Hradio Hpresent.
  pose proof (@initialized_valid present Hpresent) as Hinit.
  main_tac E R present t n.
  rewrite Hmain. cbn [fst snd core session result].
  split.
  - destruct (Hopt Hinit) as (i & _ & ->). apply Hradio.
  - rewrite (Hret Hinit). destruct res'; reflexivity.
Qed.

(** The statement for a new session and a user who pastes a text and asks
    for the analysis. *)
Lemma main_outcome_witness :
  valid_option
    (session (core (snd (App.main Demo.env
      (Demo.ui "Paste Text" "My draft about laptops." EmptyString false true None)
      None [] 10))))
  /\ fst (App.main Demo.env
            (Demo.ui "Paste Text" "My draft about laptops." EmptyString false true None)
            None [] 10)
     = match result (session (core (snd (App.main Demo.env
               (Demo.ui "Paste Text" "My draft about laptops." EmptyString
                  false true None)
               None [] 10)))) with
       | Some v =>
           write_stream
             (Demo.ui "Paste Text" "My draft about laptops." EmptyString false true None)
             v
       | None => Ret tt
       end.
Proof.
  apply (@main_outcome Demo.env
           (Demo.ui "Paste Text" "My draft about laptops." EmptyString false true None)
           None [] 10).
  - intro i. left. reflexivity.
  - intros s Hs. discriminate.
Defined.

(** X22: when the stored input option is none of the three of the radio,
    [content_input_section] raises the [ValueError] of [index]; by then it
    has drawn its heading and written the keyword typed, and nothing
    else. *)
Theorem content_input_section_unknown_option (E : Env) (R : runtime) (p : page) :
  ~ valid_option (session (core p)) ->
  App.content_input_section E R p
  = (Raise (ValueError
              (repr R (content_input_option (session (core p))) ++ " is not in list")),
     mk_page (drawn p ++ [Subheader "📝 Content Input"])
       (mk_world (trace (core p))
          (mk_session (user_content (session (core p)))
             (typed_keyword R (session (core p)))
             (content_input_option (session (core p)))
             (analysis_result (session (core p)))
             (result (session (core p))))
          (NUMBER_OF_SEARCHES (core p)))).
Proof.
  intro Hno.
  destruct (content_input_section_effect E R p)
    as (extra & new & uc' & opt' & Hsnd & _ & _ & _ & _ & _ & _ & Hunknown).
  cbv zeta in *.
  destruct (Hunknown Hno) as (Hraise & -> & -> & -> & ->).
  rewrite app_nil_r in Hsnd. rewrite <- Hsnd, <- Hraise.
  apply surjective_pairing.
Qed.

(** The statement for a session whose option is "Upload". *)
Lemma content_input_section_unknown_option_witness :
  App.content_input_section Demo.env
    (Demo.ui "Paste Text" EmptyString EmptyString false false None)
    (mk_page []
       (mk_world [] (mk_session EmptyString "best laptops 2024" "Upload" NoneValue None)
          10))
  = (Raise (ValueError "'Upload' is not in list"),
     mk_page [Subheader "📝 Content Input"]
       (mk_world [] (mk_session EmptyString "best laptops 2024" "Upload" NoneValue None)
          10)).
Proof.
  apply (@content_input_section_unknown_option Demo.env
           (Demo.ui "Paste Text" EmptyString EmptyString false false None)
           (mk_page []
              (mk_world []
                 (mk_session EmptyString "best laptops 2024" "Upload" NoneValue None)
                 10))).
  intros [H | [H | [H | []]]]; discriminate.
Defined.

(** X23: a run of the script in which neither button is pressed makes no
    network call: drawing the page and taking over what the user has
    typed, pasted or uploaded costs nothing. *)
Theorem main_without_click (E : Env) (R : runtime) (present : option session_state)
    (t : list event) (n : Z) :
  button R "Fetch Content" = false ->
  button R "🔍 Analyze Content" = false ->
  exists new,
    trace (core (snd (App.main E R present t n))) = (t ++ new)%list
    /\ network_calls new = [].
Proof.
  intros Hfetch Hanalyze.
  main_tac E R present t n.
  rewrite Hmain. cbn [snd core trace]. rewrite Hanalyze in Hrun.
  destruct Hrun as [-> _]. rewrite app_nil_r.
  unfold input_page. cbn [core trace].
  eexists. split; [rewrite <- app_assoc; reflexivity|].
  unfold network_calls in *. rewrite filter_app, (Hnb Hfetch). reflexivity.
Qed.

(** The statement for a user who uploads a file on a new session. *)
Lemma main_without_click_witness :
  exists new,
    trace (core (snd (App.main Demo.env
                        (Demo.ui "Upload File" EmptyString EmptyString false false
                           (Some (UploadedFile (Ret "Text of the file."))))
                        None [] 10)))
    = ([] ++ new)%list
    /\ network_calls new = [].
Proof.
  apply (@main_without_click Demo.env
           (Demo.ui "Upload File" EmptyString EmptyString false false
              (Some (UploadedFile (Ret "Text of the file."))))
           None [] 10); reflexivity.
Defined.

(** X24: when the stored input option is one of the three, the script
    hands the stored result to [st.write_stream] whenever the key [result]
    exists at its end, once, and whatever the value is (an error object or
    a string as well as a stream), also when the call then raises; without
    the key nothing is handed over.  When the stored option is none of the
    three, the script raises before and nothing is handed over. *)
Theorem main_renders_result (E : Env) (R : runtime) (present : option session_state)
    (t : list event) (n : Z) :
  let p := snd (App.main E R present t n) in
  (valid_option (App.initialize_session_state present) ->
   streamed (drawn p)
   = match result (session (core p)) with
     | Some v => [v]
     | None => []
     end)
  /\ (~ valid_option (App.initialize_session_state present) ->
      streamed (drawn p) = []).
Proof.
  cbv zeta.
  main_tac E R present t n.
  rewrite Hmain. cbn [fst snd core session drawn result].
  split; intro Hv.
  - rewrite (Hret Hv). unfold input_page. cbn [drawn].
    rewrite !streamed_app. cbn [streamed]. rewrite Hst.
    destruct res' as [v|]; reflexivity.
  - rewrite (Hraise Hv). unfold input_page. cbn [drawn].
    rewrite !streamed_app. cbn [streamed]. rewrite Hst. reflexivity.
Qed.

(** X25: the result that an earlier run of the analysis has stored stays
    in the session and is handed to [st.write_stream] again by every later
    run of the script in which the analysis is not asked for. *)
Theorem main_renders_earlier_result (E : Env) (R : runtime) (s : session_state)
    (v : analysis_value) (t : list event) (n : Z) :
  valid_option s ->
  result s = Some v ->
  button R "🔍 Analyze Content" = false ->
  let p := snd (App.main E R (Some s) t n) in
  result (session (core p)) = Some v
  /\ streamed (drawn p) = [v].
Proof.
  intros Hs Hv Hanalyze. cbv zeta.
  main_tac E R (Some s) t n.
  rewrite Hmain. cbn [fst snd core session drawn result].
  rewrite Hanalyze in Hrun. destruct Hrun as [_ ->].
  rewrite (Hret Hs). cbn [App.initialize_session_state]. rewrite Hv.
  split; [reflexivity|].
  unfold input_page. cbn [drawn].
  rewrite !streamed_app. cbn [streamed]. rewrite Hst. reflexivity.
Qed.

(** The statement for a session that holds an error object. *)
Lemma main_renders_earlier_result_witness :
  result (session (core (snd (App.main Demo.env
    (Demo.ui "Paste Text" "Some text." EmptyString false false None)
    (Some (mk_session "Some text." "best laptops 2024" "Paste Text" NoneValue
             (Some (ErrorDict "No text provided for analysis."))))
    [] 10))))
  = Some (ErrorDict "No text provided for analysis.")
  /\ streamed (drawn (snd (App.main Demo.env
        (Demo.ui "Paste Text" "Some text." EmptyString false false None)
        (Some (mk_session "Some text." "best laptops 2024" "Paste Text" NoneValue
                 (Some (ErrorDict "No text provided for analysis."))))
        [] 10)))
     = [ErrorDict "No text provided for analysis."].
Proof.
  apply (@main_renders_earlier_result Demo.env
           (Demo.ui "Paste Text" "Some text." EmptyString false false None)
           (mk_session "Some text." "best laptops 2024" "Paste Text" NoneValue
              (Some (ErrorDict "No text provided for analysis.")))
           (ErrorDict "No text provided for analysis.") [] 10).
  - left. reflexivity.
  - reflexivity.
  - reflexivity.
Defined.

(** X26: when the user pastes a content, has a keyword in the field and
    presses the button of the analysis, the search of that very run of the
    script asks for the keyword of the field and for as many positions as
    the slider says; nothing is requested before it. *)
Theorem main_search_uses_inputs (E : Env) (R : runtime)
    (present : option session_state) (t : list event) (n : Z) :
  let s0 := App.initialize_session_state present in
  valid_option s0 ->
  chosen_option R s0 = "Paste Text" ->
  button R "🔍 Analyze Content" = true ->
  str_truthy (text_area R "Paste your content here:" (user_content s0)) = true ->
  str_truthy (strip (typed_keyword R s0)) = true ->
  exists rest,
    trace (core (snd (App.main E R present t n)))
    = (trace (core (input_page R present t n))
       ++ [StatusUpdate "Running Content Analysis" "running";
           StatusUpdate "Fetching Top URLs" "running";
           HttpGet (AHREFS_API_URL E)
             [("Authorization", ("Bearer " ++ AHREFS_AUTH_TOKEN E)%string);
              ("Content-Type", "application/json")]
             [("keyword", typed_keyword R s0);
              ("top_positions",
               str_of_int (slider R "Number of Competitor URLs" 1 50 10));
              ("select", "url"); ("country", "us"); ("language", "en")]
             10]
       ++ rest)%list.
Proof.
  cbv zeta. intros Hs0 Hchoice Hanalyze Hcontent Hkw.
  main_tac E R present t n.
  destruct (Hopt Hs0) as (i & Hidx & Hopt').
  unfold chosen_option in Hchoice. rewrite Hidx, <- Hopt' in Hchoice.
  destruct (Hpaste Hchoice) as [-> ->].
  rewrite Hanalyze in Hrun. specialize (Hrun Hs0).
  match type of Hrun with
  | App.run_content_analysis E ?W = _ =>
      destruct (@run_search_first E W Hcontent Hkw) as [rest Hfirst]
  end.
  rewrite Hrun in Hfirst. cbn [snd trace session keyword NUMBER_OF_SEARCHES] in Hfirst.
  apply app_inv_head in Hfirst.
  rewrite Hmain. cbn [snd core trace]. rewrite Hfirst, app_nil_r.
  exists rest. reflexivity.
Qed.

(** The statement for a new session and a user who pastes a draft. *)
Lemma main_search_uses_inputs_witness :
  exists rest,
    trace (core (snd (App.main Demo.env
      (Demo.ui "Paste Text" "My draft about laptops." EmptyString false true None)
      None [] 3)))
    = (trace (core (input_page
         (Demo.ui "Paste Text" "My draft about laptops." EmptyString false true None)
         None [] 3))
       ++ [StatusUpdate "Running Content Analysis" "running";
           StatusUpdate "Fetching Top URLs" "running";
           HttpGet (AHREFS_API_URL Demo.env)
             [("Authorization", ("Bearer " ++ AHREFS_AUTH_TOKEN Demo.env)%string);
              ("Content-Type", "application/json")]
             [("keyword",
               typed_keyword
                 (Demo.ui "Paste Text" "My draft about laptops." EmptyString
                    false true None)
                 (App.initialize_session_state None));
              ("top_positions",
               str_of_int
                 (slider
                    (Demo.ui "Paste Text" "My draft about laptops." EmptyString
                       false true None)
                    "Number of Competitor URLs" 1 50 10));
              ("select", "url"); ("country", "us"); ("language", "en")]
             10]
       ++ rest)%list.
Proof.
  apply (@main_search_uses_inputs Demo.env
           (Demo.ui "Paste Text" "My draft about laptops." EmptyString false true None)
           None [] 3).
  - left. reflexivity.
  - reflexivity.
  - reflexivity.
  - reflexivity.
  - reflexivity.
Defined.



(** X28: with the option "Upload File" chosen, [content_input_section]
    returns and makes no network call.  Without a file the content stays;
    a file that can be decoded replaces the content by its text, whatever
    the text is (no test of its length), and the text is written as a
    preview; a file that cannot be decoded leaves the content as it was and
    the error is shown. *)
Theorem upload_file (E : Env) (R : runtime) (p : page) :
  valid_option (session (core p)) ->
  chosen_option R (session (core p)) = "Upload File" ->
  fst (App.content_input_section E R p) = Ret tt
  /\ exists new,
       trace (core (snd (App.content_input_section E R p)))
       = (trace (core p) ++ new)%list
       /\ network_calls new = []
       /\ match file_uploader R "Choose a text file" ["txt"] with
          | None =>
              user_content (session (core (snd (App.content_input_section E R p))))
              = user_content (session (core p))
              /\ new = []
          | Some uploaded_file =>
              match read_decode uploaded_file with
              | Ret content =>
                  user_content (session (core (snd (App.content_input_section E R p))))
                  = content
                  /\ In (Ui StWrite content) new
              | Raise e =>
                  user_content (session (core (snd (App.content_input_section E R p))))
                  = user_content (session (core p))
                  /\ In (Ui StError
                           ("An error occurred while processing the file: "
                            ++ exn_str e)) new
              end
          end.
Proof.
  intros Hvalid Hchoice.
  destruct p as [d [t [uc kw opt ar res] n]].
  unfold valid_option, chosen_option in *.
  cbn [core session content_input_option trace user_content] in *.
  destruct (@index_valid R opt Hvalid) as [i Hidx].
  rewrite Hidx in Hchoice.
  page_tac. rewrite Hidx. page_tac. rewrite Hchoice.
  change (("Upload File" =? "Paste Text")%string) with false.
  change (("Upload File" =? "Enter URL")%string) with false.
  change (("Upload File" =? "Upload File")%string) with true.
  cbv iota.
  destruct (file_uploader R "Choose a text file" ["txt"]) as [f|]; page_tac.
  - destruct (read_decode f) as [content|e]; page_tac.
    + split; [reflexivity|]. eexists.
      split; [rewrite <- !app_assoc; reflexivity|].
      split; [reflexivity|]. split; [reflexivity|].
      simpl. tauto.
    + split; [reflexivity|]. eexists.
      split; [rewrite <- !app_assoc; reflexivity|].
      split; [reflexivity|]. split; [reflexivity|].
      simpl. tauto.
  - split; [reflexivity|]. exists [].
    rewrite app_nil_r. repeat split; reflexivity.
Qed.

(** The statement for an empty file. *)
Lemma upload_file_witness :
  fst (App.content_input_section Demo.env
         (Demo.ui "Upload File" EmptyString EmptyString false false
            (Some (UploadedFile (Ret EmptyString))))
         (mk_page [] Demo.world0)) = Ret tt
  /\ exists new,
       trace (core (snd (App.content_input_section Demo.env
         (Demo.ui "Upload File" EmptyString EmptyString false false
            (Some (UploadedFile (Ret EmptyString))))
         (mk_page [] Demo.world0))))
       = (trace (core (mk_page [] Demo.world0)) ++ new)%list
       /\ network_calls new = []
       /\ match file_uploader
                  (Demo.ui "Upload File" EmptyString EmptyString false false
                     (Some (UploadedFile (Ret EmptyString))))
                  "Choose a text file" ["txt"] with
          | None =>
              user_content (session (core (snd (App.content_input_section Demo.env
                (Demo.ui "Upload File" EmptyString EmptyString false false
                   (Some (UploadedFile (Ret EmptyString))))
                (mk_page [] Demo.world0)))))
              = user_content (session (core (mk_page [] Demo.world0)))
              /\ new = []
          | Some uploaded_file =>
              match read_decode uploaded_file with
              | Ret content =>
                  user_content (session (core (snd (App.content_input_section Demo.env
                    (Demo.ui "Upload File" EmptyString EmptyString false false
                       (Some (UploadedFile (Ret EmptyString))))
                    (mk_page [] Demo.world0)))))
                  = content
                  /\ In (Ui StWrite content) new
              | Raise e =>
                  user_content (session (core (snd (App.content_input_section Demo.env
                    (Demo.ui "Upload File" EmptyString EmptyString false false
                       (Some (UploadedFile (Ret EmptyString))))
                    (mk_page [] Demo.world0)))))
                  = user_content (session (core (mk_page [] Demo.world0)))
                  /\ In (Ui StError
                           ("An error occurred while processing the file: "
                            ++ exn_str e)) new
              end
          end.
Proof.
  apply (@upload_file Demo.env
           (Demo.ui "Upload File" EmptyString EmptyString false false
              (Some (UploadedFile (Ret EmptyString))))
           (mk_page [] Demo.world0)).
  - left. reflexivity.
  - reflexivity.
Defined.
